(** * BookMarket: information-flow labels, labelled cells and the stores

    A shallow embedding of the three BookMarket prototypes:

    - [bookmarket_platform.py]: the decentralized label model of Myers and
      Liskov ([SecurityLabel]) with the in-memory [Database] and the
      purchase and offer handlers of [BookMarketPlatform];
    - [denning_and_denning/bookmarket.py]: the linear clearance levels
      ([SecurityLevel]), the labelled cell ([SecureVariable]), the
      database [BookMarketDB] made of such cells and the handlers of the
      module;
    - [denning_and_denning/marketplace.py]: the unlabelled [BookMarketplace]
      with its own offer and purchase handlers and its marketing data;
    - the searches of the three prototypes.

    Python sets and dicts are stdpp's [gset] and [gmap]; a method that
    mutates [self] takes the object and returns the outcome together with
    the object after the call; a raised exception is the [Raise] outcome.
    The dicts that the labelled platform stores without a copy, and so
    shares with its callers, are places in a list of dict objects. *)

From Stdlib Require Import ZArith Floats.
From stdpp Require Import base tactics option list strings gmap pretty
  sorting.

Set Warnings "-inexact-float,-clear-no-such-hyp".

Local Open Scope string_scope.
Local Open Scope Z_scope.

(** ** Python values held in the record dicts *)

(** The scalars the demo data stores in its dicts: [None], booleans,
    integers, floats (the prices) and strings. *)
Inductive pyval :=
| VNone
| VBool (b : bool)
| VInt (z : Z)
| VFloat (f : float)
| VStr (s : string).

(** The integer a bool or an int stands for ([True == 1] in Python). *)
Definition py_int (v : pyval) : option Z :=
  match v with
  | VBool b => Some (Z.b2z b)
  | VInt z => Some z
  | _ => None
  end.

(** Exact comparison of a float with an integer, as Python does it: the
    float is decoded to [(-1)^s * m * 2^e]. *)
Definition float_eq_Z (f : float) (z : Z) : bool :=
  match Prim2SF f with
  | S754_zero _ => z =? 0
  | S754_finite s m e =>
      let sm := if s then - Z.pos m else Z.pos m in
      if 0 <=? e then z =? sm * 2 ^ e else z * 2 ^ (- e) =? sm
  | _ => false
  end.

(** [a == b] on these values. *)
Definition py_eq (a b : pyval) : bool :=
  match a, b with
  | VNone, VNone => true
  | VStr s, VStr t => bool_decide (s = t)
  | VFloat f, VFloat g => PrimFloat.eqb f g
  | VFloat f, (VBool _ | VInt _) => from_option (float_eq_Z f) false (py_int b)
  | (VBool _ | VInt _), VFloat g => from_option (float_eq_Z g) false (py_int a)
  | (VBool _ | VInt _), (VBool _ | VInt _) => bool_decide (py_int a = py_int b)
  | _, _ => false
  end.

(** [a != b]. *)
Definition py_ne (a b : pyval) : bool := negb (py_eq a b).

(** ** Outcomes of a call *)

(** The exceptions the modelled code raises: [SecurityException] is the
    class both prototypes declare, [KeyError] and [IndexError] are the
    built-in ones of a dict subscript and of [list(...)[0]]. *)
Inductive exn :=
| SecurityException (msg : string)
| KeyError (key : pyval)
| IndexError.

Inductive outcome (A : Type) :=
| Return (a : A)
| Raise (e : exn).
Arguments Return {A} a.
Arguments Raise {A} e.

Definition is_Return {A} (r : outcome A) : bool :=
  match r with Return _ => true | Raise _ => false end.

(** ** The decentralized label model ([bookmarket_platform.py]) *)

Section Labels.
(** [class Principal]: an object with a [name] and neither [__eq__] nor
    [__hash__], so that sets compare principals by identity. Only
    equality and hashing are used, which is what a countable type gives. *)
Context {Principal : Type} {Principal_eq : EqDecision Principal}
        {Principal_countable : Countable Principal}.

(** [class SecurityLabel]: [owners] and [readers], two sets. *)
Record SecurityLabel := mkLabel {
  owners : gset Principal;
  readers : gset Principal
}.

(** [SecurityLabel.__init__(owners=None, readers=None)]. *)
Definition SecurityLabel_init (o r : option (gset Principal)) : SecurityLabel :=
  {| owners := default ∅ o; readers := default ∅ r |}.

(** [self.flows_to(label)]:
    [label.owners.issubset(self.owners) and self.readers.issubset(label.readers)]. *)
Definition flows_to (self label : SecurityLabel) : bool :=
  bool_decide (owners label ⊆ owners self)
  && bool_decide (readers self ⊆ readers label).

(** [self.join(label)]. *)
Definition join (self label : SecurityLabel) : SecurityLabel :=
  mkLabel (owners self ∩ owners label) (readers self ∪ readers label).

(** [self.meet(label)]. *)
Definition meet (self label : SecurityLabel) : SecurityLabel :=
  mkLabel (owners self ∪ owners label) (readers self ∩ readers label).

(** The text of [f"Principal {auth_principal} not authorized to declassify"];
    [show] stands for [Principal.__str__]. *)
Definition declassify_msg (show : Principal → string) (p : Principal) : string :=
  "Principal " +:+ show p +:+ " not authorized to declassify".

(** [self.declassify(auth_principal, new_readers=None)]. The method
    builds its result from copies of the two sets and assigns only to
    [result.readers]; the second component is [self] after the call. *)
Definition declassify (show : Principal → string) (self : SecurityLabel)
    (auth_principal : Principal) (new_readers : option (gset Principal))
  : outcome SecurityLabel * SecurityLabel :=
  if bool_decide (auth_principal ∈ owners self) then
    let result := mkLabel (owners self) (readers self) in
    let result :=
      match new_readers with
      | Some r => mkLabel (owners result) r
      | None => result
      end in
    (Return result, self)
  else
    (Raise (SecurityException (declassify_msg show auth_principal)), self).
End Labels.

Arguments SecurityLabel Principal {_ _}.

(** ** The linear clearance model ([denning_and_denning/bookmarket.py]) *)

Module SecurityLevel.
(** The class attributes, ordered from low (public) to high. *)
Definition PUBLIC : Z := 0.
Definition CUSTOMER : Z := 1.
Definition VENDOR : Z := 2.
Definition PLATFORM : Z := 3.

(** [SecurityLevel.can_flow(source_level, target_level)]. *)
Definition can_flow (source_level target_level : Z) : bool :=
  source_level <=? target_level.
End SecurityLevel.

(** [class SecureVariable]: a [value] and its [security_level]. *)
Record SecureVariable (A : Type) := mkSecureVariable {
  value : A;
  security_level : Z
}.
Arguments mkSecureVariable {A} value security_level.
Arguments value {A} s.
Arguments security_level {A} s.

(** The two f-strings of the cell; [pretty] prints an integer in decimal
    as [str] does. *)
Definition access_msg (level context_level : Z) : string :=
  "Security violation: Cannot access level " +:+ pretty level
  +:+ " data in context " +:+ pretty context_level.

Definition assign_msg (source_level level context_level : Z) : string :=
  "Security violation: Cannot assign level " +:+ pretty source_level
  +:+ " to level " +:+ pretty level
  +:+ " in context " +:+ pretty context_level.

(** [self.get_value(context_level)]; the second component is the cell
    after the call. *)
Definition get_value {A} (self : SecureVariable A) (context_level : Z)
  : outcome A * SecureVariable A :=
  if SecurityLevel.can_flow (security_level self) context_level then
    (Return (value self), self)
  else
    (Raise (SecurityException (access_msg (security_level self) context_level)),
     self).

(** [self.set_value(new_value, source_level, context_level)]. *)
Definition set_value {A} (self : SecureVariable A) (new_value : A)
    (source_level context_level : Z) : outcome unit * SecureVariable A :=
  if SecurityLevel.can_flow source_level (security_level self)
     && SecurityLevel.can_flow context_level (security_level self) then
    (Return tt, mkSecureVariable new_value (security_level self))
  else
    (Raise (SecurityException
              (assign_msg source_level (security_level self) context_level)),
     self).

(** [d[key]] on a dict with string keys: the value or [KeyError(key)]. *)
Definition subscript (d : gmap string pyval) (key : string) : outcome pyval :=
  match d !! key with
  | Some v => Return v
  | None => Raise (KeyError (VStr key))
  end.

(** ** Calls that read and update an object *)

(** A method of a mutable object: from the object before the call to the
    outcome and the object after it. An exception leaves the updates made
    before it in place, as in Python. *)
Definition method (S A : Type) : Type := S → outcome A * S.

Definition ret {S A} (a : A) : method S A := λ s, (Return a, s).

Definition raise {S A} (e : exn) : method S A := λ s, (Raise e, s).

Definition bind {S A B} (m : method S A) (k : A → method S B) : method S B :=
  λ s, match m s with
       | (Return a, s') => k a s'
       | (Raise e, s') => (Raise e, s')
       end.

(** An expression that may raise but touches no attribute. *)
Definition eval {S A} (r : outcome A) : method S A := λ s, (r, s).

(** Reading an attribute, and assigning to one. *)
Definition gets {S A} (f : S → A) : method S A := λ s, (Return (f s), s).

Definition modify {S} (f : S → S) : method S unit := λ s, (Return tt, f s).

Notation "'let!' x := m 'in' k" := (bind m (λ x, k))
  (at level 10, x name, m at level 100, k at level 200, only parsing).

(** The result of a call passed through [f]. *)
Definition map_result {S A B} (f : A → B) (m : method S A) : method S B :=
  let! a := m in ret (f a).

(** A client driving an object: the calls are made one after the other,
    each on the object the previous one left, whether it returned or
    raised; the outcomes are collected in order. *)
Fixpoint run {S C A} (step : C → method S A) (calls : list C) (s : S)
  : list (C * outcome A) * S :=
  match calls with
  | [] => ([], s)
  | c :: calls =>
      let '(r, s') := step c s in
      let '(rs, s'') := run step calls s' in
      ((c, r) :: rs, s'')
  end.

(** The dict a handler returns: [{'success': False, 'message': message}],
    or [{'success': True, ...}] with the remaining entries as [body]. *)
Inductive reply (A : Type) :=
| Rejected (message : string)
| Accepted (body : A).
Arguments Rejected {A} message.
Arguments Accepted {A} body.

(** ** The labelled store and its handlers ([bookmarket_platform.py]) *)

Module Platform.
(** The dicts that hold the data of a record are objects: a caller makes
    one, passes it, and [add_*] stores it as it is, no copy. Such a dict
    is its place [loc] among the dict objects, and two entries with one
    place share one dict: an assignment through either is read through
    both. *)
Abbreviation loc := nat (only parsing).

Abbreviation heap := (list (gmap string pyval)) (only parsing).

(** A dict passed as an argument: a dict display, which makes a new
    object, or an object the caller holds already. *)
Inductive dict_arg :=
| New (d : gmap string pyval)
| Held (ref : loc).

Section Platform.
Context {Principal : Type} {Principal_eq : EqDecision Principal}
        {Principal_countable : Countable Principal}.

(** The entries of the four dicts of [Database]; each is a dict literal
    with fixed keys in the source, and its ['data'] is the dict object
    that was passed. *)
Record customer_entry := mkCustomer {
  customer_data : loc;
  customer_label : SecurityLabel Principal;
  marketing_opt_in : bool
}.

Record vendor_entry := mkVendor {
  vendor_data : loc;
  vendor_label : SecurityLabel Principal
}.

Record book_entry := mkBook {
  book_data : loc;
  book_label : SecurityLabel Principal;
  status : string
}.

Record purchase_entry := mkPurchase {
  purchase_data : loc;
  purchase_label : SecurityLabel Principal
}.

(** [class Database]. Customers and vendors are keyed by the strings the
    platform registers them under, books and purchases by the integers
    the store hands out. *)
Record Database := mkDatabase {
  customers : gmap string customer_entry;
  vendors : gmap string vendor_entry;
  books : gmap Z book_entry;
  purchases : gmap Z purchase_entry;
  next_book_id : Z;
  next_purchase_id : Z
}.

(** [Database.__init__]. *)
Definition Database_init : Database :=
  mkDatabase ∅ ∅ ∅ ∅ 1 1.

Definition set_customers (f : gmap string customer_entry → gmap string customer_entry)
    (d : Database) : Database :=
  mkDatabase (f (customers d)) (vendors d) (books d) (purchases d)
             (next_book_id d) (next_purchase_id d).

Definition set_vendors (f : gmap string vendor_entry → gmap string vendor_entry)
    (d : Database) : Database :=
  mkDatabase (customers d) (f (vendors d)) (books d) (purchases d)
             (next_book_id d) (next_purchase_id d).

Definition set_books (f : gmap Z book_entry → gmap Z book_entry)
    (d : Database) : Database :=
  mkDatabase (customers d) (vendors d) (f (books d)) (purchases d)
             (next_book_id d) (next_purchase_id d).

Definition set_purchases (f : gmap Z purchase_entry → gmap Z purchase_entry)
    (d : Database) : Database :=
  mkDatabase (customers d) (vendors d) (books d) (f (purchases d))
             (next_book_id d) (next_purchase_id d).

Definition set_next_book_id (f : Z → Z) (d : Database) : Database :=
  mkDatabase (customers d) (vendors d) (books d) (purchases d)
             (f (next_book_id d)) (next_purchase_id d).

Definition set_next_purchase_id (f : Z → Z) (d : Database) : Database :=
  mkDatabase (customers d) (vendors d) (books d) (purchases d)
             (next_book_id d) (f (next_purchase_id d)).

(** [Database.add_customer(customer_id, customer_data, label)]. *)
Definition add_customer (customer_id : string) (data : loc)
    (label : SecurityLabel Principal) : method Database unit :=
  modify (set_customers <[customer_id := mkCustomer data label false]>).

(** [Database.add_vendor(vendor_id, vendor_data, label)]. *)
Definition add_vendor (vendor_id : string) (data : loc)
    (label : SecurityLabel Principal) : method Database unit :=
  modify (set_vendors <[vendor_id := mkVendor data label]>).

(** [Database.add_book(book_data, label)]. *)
Definition add_book (data : loc)
    (label : SecurityLabel Principal) : method Database Z :=
  let! book_id := gets next_book_id in
  let! _ := modify (set_next_book_id (λ n, n + 1)) in
  let! _ := modify (set_books <[book_id := mkBook data label "available"]>) in
  ret book_id.

(** [Database.add_purchase(purchase_data, label)]. *)
Definition add_purchase (data : loc)
    (label : SecurityLabel Principal) : method Database Z :=
  let! purchase_id := gets next_purchase_id in
  let! _ := modify (set_next_purchase_id (λ n, n + 1)) in
  let! _ := modify (set_purchases <[purchase_id := mkPurchase data label]>) in
  ret purchase_id.

(** [class BookMarketPlatform]: the database and the marketplace
    principal; and with them [dicts], the dict objects that the entries
    of the database and the callers of the platform refer to. *)
Record BookMarketPlatform := mkPlatform {
  db : Database;
  marketplace : Principal;
  dicts : heap
}.

(** A call of a [Database] method on [self.db]. *)
Definition on_db {A} (m : method Database A) : method BookMarketPlatform A :=
  λ self, let '(r, d) := m (db self) in
          (r, mkPlatform d (marketplace self) (dicts self)).

Definition set_dicts (f : heap → heap) (self : BookMarketPlatform)
  : BookMarketPlatform :=
  mkPlatform (db self) (marketplace self) (f (dicts self)).

(** The dict at a place. A reference of Python always leads to its
    object, so a place that a caller holds or an entry stores has its
    dict; [∅] stands in at a place that has none. *)
Definition dict_at (self : BookMarketPlatform) (ref : loc)
  : gmap string pyval :=
  default ∅ (dicts self !! ref).

(** A dict display [{...}]: a new object, at the next place. *)
Definition new_dict (d : gmap string pyval) : method BookMarketPlatform loc :=
  λ self, (Return (length (dicts self)),
           set_dicts (λ h, (h ++ [d])%list) self).

(** [ref[key]] and [ref[key] = v]. *)
Definition getitem (ref : loc) (key : string)
  : method BookMarketPlatform pyval :=
  λ self, (subscript (dict_at self ref) key, self).

Definition setitem (ref : loc) (key : string) (v : pyval)
  : method BookMarketPlatform unit :=
  modify (set_dicts (alter (<[key := v]>) ref)).

(** The object a call receives for a dict argument. *)
Definition pass (a : dict_arg) : method BookMarketPlatform loc :=
  match a with
  | New d => new_dict d
  | Held ref => ret ref
  end.

(** [list(label.owners)[0]]: the first element of the set, [IndexError]
    on the empty one. The source assumes a single owner, for which the
    element is determined; otherwise it is the first of [elements]. *)
Definition first_owner (label : SecurityLabel Principal) : outcome Principal :=
  match elements (owners label) with
  | p :: _ => Return p
  | [] => Raise IndexError
  end.

(** [BookMarketPlatform.__init__] with [_setup_initial_data]: the five
    [Principal] objects the constructor allocates are the arguments. *)
Definition BookMarketPlatform_init
    (marketplace alice bob bookstore rarebooks : Principal)
  : BookMarketPlatform :=
  let setup : method BookMarketPlatform unit :=
    let! customer1 :=
      new_dict {[ "name" := VStr "Alice Smith";
                  "address" := VStr "123 Main St, Anytown";
                  "email" := VStr "alice@example.com" ]} in
    let! customer2 :=
      new_dict {[ "name" := VStr "Bob Johnson";
                  "address" := VStr "456 Oak Ave, Othertown";
                  "email" := VStr "bob@example.com" ]} in
    let! _ := on_db (add_customer "alice" customer1
                       (mkLabel {[alice]} {[alice; marketplace]})) in
    let! _ := on_db (add_customer "bob" customer2
                       (mkLabel {[bob]} {[bob; marketplace]})) in
    let! vendor1 :=
      new_dict {[ "name" := VStr "BookStore Inc";
                  "email" := VStr "sales@bookstore.com" ]} in
    let! vendor2 :=
      new_dict {[ "name" := VStr "Rare Books Ltd";
                  "email" := VStr "info@rarebooks.com" ]} in
    let! _ := on_db (add_vendor "bookstore" vendor1
                       (mkLabel {[bookstore]} {[bookstore; marketplace]})) in
    on_db (add_vendor "rarebooks" vendor2
             (mkLabel {[rarebooks]} {[rarebooks; marketplace]})) in
  (setup (mkPlatform Database_init marketplace [])).2.

(** The entries of a successful [handle_offer] reply. *)
Record offer_accepted := mkOfferAccepted {
  offer_message : string;
  offer_book_id : Z
}.

(** [BookMarketPlatform.handle_offer(vendor_id, book_data)]. The
    assignment [book_data['vendor_id'] = vendor_id] writes into the dict
    of the caller, and that same dict is then stored. *)
Definition handle_offer (vendor_id : string) (book_data : loc)
  : method BookMarketPlatform (reply offer_accepted) :=
  let! vs := gets (λ self, vendors (db self)) in
  match vs !! vendor_id with
  | None => ret (Rejected "Vendor not found")
  | Some vendor_info =>
      let! vendor_principal := eval (first_owner (vendor_label vendor_info)) in
      let! mp := gets marketplace in
      let label := mkLabel {[vendor_principal]} {[vendor_principal; mp]} in
      let! _ := setitem book_data "vendor_id" (VStr vendor_id) in
      let! book_id := on_db (add_book book_data label) in
      ret (Accepted (mkOfferAccepted "Book offer accepted" book_id))
  end.

(** [self.db.vendors[vendor_id]] for the [vendor_id] read back from a
    book's data: any value that is not a registered string is a
    [KeyError]. *)
Definition vendors_subscript (vs : gmap string vendor_entry) (k : pyval)
  : outcome vendor_entry :=
  match k with
  | VStr s => match vs !! s with
              | Some v => Return v
              | None => Raise (KeyError k)
              end
  | _ => Raise (KeyError k)
  end.

(** The entries of a successful [handle_purchase] reply. *)
Record purchase_accepted := mkPurchaseAccepted {
  purchase_message : string;
  purchase_id : Z;
  customer_confirmation : gmap string pyval;
  vendor_confirmation : gmap string pyval
}.

(** [self.db.books[book_id]['status'] = 'sold']: the entry with its
    status replaced, and the assignment on a key that is in the dict. *)
Definition sold (b : book_entry) : book_entry :=
  mkBook (book_data b) (book_label b) "sold".

Definition mark_sold (book_id : Z) : method BookMarketPlatform unit :=
  on_db (modify (set_books (alter sold book_id))).

(** [BookMarketPlatform.handle_purchase(customer_id, book_id, offered_price)].
    The marketing branch builds a record and a label that it neither
    stores nor returns; of it only the subscripts, which may raise, are
    kept. *)
Definition handle_purchase (customer_id : string) (book_id : Z)
    (offered_price : pyval) : method BookMarketPlatform (reply purchase_accepted) :=
  let! d := gets db in
  match customers d !! customer_id with
  | None => ret (Rejected "Customer not found")
  | Some customer_info =>
  match books d !! book_id with
  | None => ret (Rejected "Book not found")
  | Some book_info =>
  if bool_decide (status book_info ≠ "available") then
    ret (Rejected "Book is not available")
  else
  let data := book_data book_info in
  let! price := getitem data "price" in
  if py_ne price offered_price then
    ret (Rejected "Price does not match")
  else
  let c_data := customer_data customer_info in
  let c_label := customer_label customer_info in
  let! vendor_id := getitem data "vendor_id" in
  let! vendor_info := eval (vendors_subscript (vendors d) vendor_id) in
  let v_data := vendor_data vendor_info in
  let v_label := vendor_label vendor_info in
  let! customer_principal := eval (first_owner c_label) in
  let! vendor_principal := eval (first_owner v_label) in
  let! _ := mark_sold book_id in
  let! p_data :=
    new_dict {[ "book_id" := VInt book_id;
                "customer_id" := VStr customer_id;
                "vendor_id" := vendor_id;
                "price" := offered_price;
                "timestamp" := VStr "timestamp_placeholder" ]} in
  let! mp := gets marketplace in
  let p_label :=
    mkLabel {[customer_principal; vendor_principal; mp]}
            {[customer_principal; vendor_principal; mp]} in
  let! pid := on_db (add_purchase p_data p_label) in
  let! title := getitem data "title" in
  let! vendor_name := getitem v_data "name" in
  let c_conf : gmap string pyval :=
    {[ "purchase_id" := VInt pid;
       "book_title" := title;
       "price" := offered_price;
       "vendor" := vendor_name;
       "status" := VStr "Confirmed" ]} in
  let! customer_address := getitem c_data "address" in
  let! title' := getitem data "title" in
  let! customer_name := getitem c_data "name" in
  let v_conf : gmap string pyval :=
    {[ "purchase_id" := VInt pid;
       "book_title" := title';
       "price" := offered_price;
       "customer_name" := customer_name;
       "customer_address" := customer_address;
       "status" := VStr "Confirmed - Please ship to customer" ]} in
  let! _ :=
    (if marketing_opt_in customer_info then
       let! _ := getitem c_data "name" in
       let! _ := getitem data "title" in
       let! _ := getitem data "author" in
       ret tt
     else ret tt) in
  ret (Accepted (mkPurchaseAccepted "Purchase successful" pid c_conf v_conf))
  end
  end.

(** [str(opt_in)] of a bool inside the f-string. *)
Definition str_bool (b : bool) : string := if b then "True" else "False".

(** [BookMarketPlatform.set_marketing_opt_in(customer_id, opt_in)]; the
    body of a successful reply is its message. *)
Definition set_marketing_opt_in (customer_id : string) (opt_in : bool)
  : method BookMarketPlatform (reply string) :=
  let! cs := gets (λ self, customers (db self)) in
  if bool_decide (customer_id ∈ dom cs) then
    let! _ := on_db (modify (set_customers
                (alter (λ c, mkCustomer (customer_data c) (customer_label c) opt_in)
                       customer_id))) in
    ret (Accepted ("Marketing preference updated: Opt-in = " +:+ str_bool opt_in))
  else
    ret (Rejected "Customer not found").

(** The calls a client can make on a platform: the four [add_*] methods
    of its [db] and the three updating handlers, each dict argument a
    new dict or one the client holds. [handle_search] reads the books
    and assigns to none of the attributes, and is left out; so is what
    a client writes itself into a dict it holds, which is no call of
    the platform. *)
Inductive call :=
| AddCustomer (customer_id : string) (data : dict_arg)
              (label : SecurityLabel Principal)
| AddVendor (vendor_id : string) (data : dict_arg)
            (label : SecurityLabel Principal)
| AddBook (data : dict_arg) (label : SecurityLabel Principal)
| AddPurchase (data : dict_arg) (label : SecurityLabel Principal)
| HandleOffer (vendor_id : string) (book_data : dict_arg)
| HandlePurchase (customer_id : string) (book_id : Z) (offered_price : pyval)
| SetMarketingOptIn (customer_id : string) (opt_in : bool).

(** What a call hands back. *)
Inductive answer :=
| NoAnswer
| Key (k : Z)
| OfferReply (r : reply offer_accepted)
| PurchaseReply (r : reply purchase_accepted)
| OptInReply (r : reply string).

Definition step (c : call) : method BookMarketPlatform answer :=
  match c with
  | AddCustomer i a l =>
      let! d := pass a in
      map_result (λ _, NoAnswer) (on_db (add_customer i d l))
  | AddVendor i a l =>
      let! d := pass a in
      map_result (λ _, NoAnswer) (on_db (add_vendor i d l))
  | AddBook a l => let! d := pass a in map_result Key (on_db (add_book d l))
  | AddPurchase a l =>
      let! d := pass a in map_result Key (on_db (add_purchase d l))
  | HandleOffer v a =>
      let! d := pass a in map_result OfferReply (handle_offer v d)
  | HandlePurchase c b p => map_result PurchaseReply (handle_purchase c b p)
  | SetMarketingOptIn c o => map_result OptInReply (set_marketing_opt_in c o)
  end.

(** The book key a call returned to its caller, if it returned one. *)
Definition book_key (cr : call * outcome answer) : option Z :=
  match cr with
  | (AddBook _ _, Return (Key k)) => Some k
  | (HandleOffer _ _, Return (OfferReply (Accepted a))) => Some (offer_book_id a)
  | _ => None
  end.

(** The purchase key a call returned to its caller. *)
Definition purchase_key (cr : call * outcome answer) : option Z :=
  match cr with
  | (AddPurchase _ _, Return (Key k)) => Some k
  | (HandlePurchase _ _ _, Return (PurchaseReply (Accepted a))) =>
      Some (purchase_id a)
  | _ => None
  end.

(** Every key in use lies below the counter that hands keys out. *)
Definition keys_below_counter (self : BookMarketPlatform) : Prop :=
  (∀ k, k ∈ dom (books (db self)) → k < next_book_id (db self))
  ∧ (∀ k, k ∈ dom (purchases (db self)) → k < next_purchase_id (db self)).

(** The record under a book key is the one that was stored: the data is
    the same dict object and the label is the same, the status may have
    moved. *)
Definition same_book (b b' : book_entry) : Prop :=
  book_data b' = book_data b ∧ book_label b' = book_label b.

(** The store attributes a key claim speaks of. *)
Definition book_counter (self : BookMarketPlatform) : Z :=
  next_book_id (db self).

Definition purchase_counter (self : BookMarketPlatform) : Z :=
  next_purchase_id (db self).

Definition lookup_book (self : BookMarketPlatform) (k : Z) : option book_entry :=
  books (db self) !! k.

Definition lookup_purchase (self : BookMarketPlatform) (k : Z)
  : option purchase_entry :=
  purchases (db self) !! k.

(** A book key that is not in the store, and one whose book is there but
    no longer available. *)
Definition book_absent (k : Z) (self : BookMarketPlatform) : Prop :=
  lookup_book self k = None.

Definition book_unavailable (k : Z) (self : BookMarketPlatform) : Prop :=
  ∃ b, lookup_book self k = Some b ∧ status b ≠ "available".

(** The four grounds on which [handle_purchase] refuses, each with the
    message of its reply, in the order the handler tests them. *)
Inductive purchase_refused (self : BookMarketPlatform) (customer_id : string)
    (book_id : Z) (offered_price : pyval) : string → Prop :=
| refused_customer :
    customers (db self) !! customer_id = None →
    purchase_refused self customer_id book_id offered_price "Customer not found"
| refused_book :
    is_Some (customers (db self) !! customer_id) →
    lookup_book self book_id = None →
    purchase_refused self customer_id book_id offered_price "Book not found"
| refused_status b :
    is_Some (customers (db self) !! customer_id) →
    lookup_book self book_id = Some b →
    status b ≠ "available" →
    purchase_refused self customer_id book_id offered_price "Book is not available"
| refused_price b p :
    is_Some (customers (db self) !! customer_id) →
    lookup_book self book_id = Some b →
    status b = "available" →
    dict_at self (book_data b) !! "price" = Some p →
    py_ne p offered_price = true →
    purchase_refused self customer_id book_id offered_price "Price does not match".

(** What a call can do to the books and their counter: nothing, store a
    new book under the counter and advance it, or mark a book sold; and
    to the purchases and theirs: nothing, or store a new purchase. *)
Inductive book_effect (s s' : BookMarketPlatform) : Prop :=
| books_kept :
    books (db s') = books (db s) →
    book_counter s' = book_counter s → book_effect s s'
| book_added b :
    books (db s') = <[book_counter s := b]> (books (db s)) →
    book_counter s' = book_counter s + 1 → book_effect s s'
| book_sold k :
    books (db s') = alter sold k (books (db s)) →
    book_counter s' = book_counter s → book_effect s s'.

Inductive purchase_effect (s s' : BookMarketPlatform) : Prop :=
| purchases_kept :
    purchases (db s') = purchases (db s) →
    purchase_counter s' = purchase_counter s → purchase_effect s s'
| purchase_added p :
    purchases (db s') = <[purchase_counter s := p]> (purchases (db s)) →
    purchase_counter s' = purchase_counter s + 1 → purchase_effect s s'.

(** The object a call on [self] receives for a dict argument, and the
    dict it holds when the call is made. *)
Definition arg_ref (self : BookMarketPlatform) (a : dict_arg) : loc :=
  match a with
  | New _ => length (dicts self)
  | Held ref => ref
  end.

Definition arg_dict (self : BookMarketPlatform) (a : dict_arg)
  : option (gmap string pyval) :=
  match a with
  | New d => Some d
  | Held ref => dicts self !! ref
  end.

(** The book that a call which returned a book key has stored, [self]
    the platform before the call and [self'] the one after it: its data
    is the object that was passed, holding what it held, for an offer
    with the id of the vendor written into it. *)
Definition book_stored (c : call) (self self' : BookMarketPlatform)
    (b : book_entry) : Prop :=
  match c with
  | AddBook a l =>
      b = mkBook (arg_ref self a) l "available"
      ∧ dicts self' !! arg_ref self a = arg_dict self a
  | HandleOffer v a =>
      (∃ vi p, vendors (db self) !! v = Some vi
               ∧ p ∈ owners (vendor_label vi)
               ∧ b = mkBook (arg_ref self a)
                       (mkLabel {[p]} {[p; marketplace self]}) "available")
      ∧ dicts self' !! arg_ref self a
        = <["vendor_id" := VStr v]> <$> arg_dict self a
  | _ => False
  end.

(** The dict of the purchase record that [handle_purchase] builds. *)
Definition purchase_dict (customer_id : string) (book_id : Z)
    (vendor_id offered_price : pyval) : gmap string pyval :=
  {[ "book_id" := VInt book_id;
     "customer_id" := VStr customer_id;
     "vendor_id" := vendor_id;
     "price" := offered_price;
     "timestamp" := VStr "timestamp_placeholder" ]}.

(** The platform after the updates of a purchase: the book marked sold,
    the record of the purchase in a new dict, stored under the purchase
    counter with the label of the three principals, the counter
    advanced. *)
Definition after_purchase (self : BookMarketPlatform)
    (customer_id : string) (book_id : Z) (vendor_id offered_price : pyval)
    (customer_principal vendor_principal : Principal)
  : BookMarketPlatform :=
  let label :=
    mkLabel {[customer_principal; vendor_principal; marketplace self]}
            {[customer_principal; vendor_principal; marketplace self]} in
  mkPlatform
    (set_purchases
       <[next_purchase_id (db self) := mkPurchase (length (dicts self)) label]>
       (set_next_purchase_id (λ n, n + 1)
          (set_books (alter sold book_id) (db self))))
    (marketplace self)
    (dicts self ++ [purchase_dict customer_id book_id vendor_id
                      offered_price])%list.

(** The checks that [handle_purchase] makes before its first update, all
    passed. *)
Definition purchase_checked (self : BookMarketPlatform)
    (customer_id : string) (book_id : Z) (offered_price : pyval)
    (ci : customer_entry) (b : book_entry) (vendor_id : pyval)
    (vi : vendor_entry) (cp vp : Principal) : Prop :=
  customers (db self) !! customer_id = Some ci
  ∧ lookup_book self book_id = Some b
  ∧ status b = "available"
  ∧ (∃ pr, dict_at self (book_data b) !! "price" = Some pr
           ∧ py_ne pr offered_price = false)
  ∧ dict_at self (book_data b) !! "vendor_id" = Some vendor_id
  ∧ vendors_subscript (vendors (db self)) vendor_id = Return vi
  ∧ first_owner (customer_label ci) = Return cp
  ∧ first_owner (vendor_label vi) = Return vp.

(** The purchase that a call which returned a purchase key has stored:
    for [handle_purchase] its data is a new dict with the five entries of
    the dict display, and its label is owned and readable by an owner of
    the customer, an owner of the vendor, and the marketplace. *)
Definition purchase_stored (c : call) (self self' : BookMarketPlatform)
    (e : purchase_entry) : Prop :=
  match c with
  | AddPurchase a l =>
      e = mkPurchase (arg_ref self a) l
      ∧ dicts self' !! arg_ref self a = arg_dict self a
  | HandlePurchase cid bid p =>
      ∃ b ci v vi cp vp,
        lookup_book self bid = Some b
        ∧ customers (db self) !! cid = Some ci
        ∧ dict_at self (book_data b) !! "vendor_id" = Some v
        ∧ vendors_subscript (vendors (db self)) v = Return vi
        ∧ cp ∈ owners (customer_label ci)
        ∧ vp ∈ owners (vendor_label vi)
        ∧ e = mkPurchase (length (dicts self))
                (mkLabel {[cp; vp; marketplace self]}
                         {[cp; vp; marketplace self]})
        ∧ dicts self' !! length (dicts self)
          = Some (purchase_dict cid bid v p)
  | _ => False
  end.

(** What a call does to a dict that is there: nothing, unless the call
    is an offer of that very dict, which writes the id of the vendor
    into it. *)
Definition dicts_effect (c : call) (self self' : BookMarketPlatform) : Prop :=
  ∀ ref d,
    dicts self !! ref = Some d →
    dicts self' !! ref = Some d
    ∨ ∃ v, c = HandleOffer v (Held ref)
           ∧ dicts self' !! ref = Some (<["vendor_id" := VStr v]> d).
End Platform.
End Platform.

(** ** The unlabelled marketplace ([denning_and_denning/marketplace.py]) *)

Module Marketplace.
(** An entry of [book_offers]: the dict literal [offer_handler] builds. *)
Record offer := mkOffer {
  title : pyval;
  author : pyval;
  year : pyval;
  edition : pyval;
  publisher : pyval;
  condition : pyval;
  description : pyval;
  price : pyval;
  vendor_id : Z;
  available : bool
}.

(** An entry of [purchases]. *)
Record purchase := mkPurchase {
  purchase_offer_id : Z;
  purchase_customer_id : Z;
  timestamp : string;
  purchase_price : pyval
}.

(** [class BookMarketplaceDB]. Customers and vendors are put in from
    outside (the test file assigns both dicts, with integer keys). *)
Record BookMarketplaceDB := mkDB {
  customers : gmap Z (gmap string pyval);
  vendors : gmap Z (gmap string pyval);
  book_offers : gmap Z offer;
  purchases : gmap Z purchase
}.

(** [class BookMarketplace]. *)
Record BookMarketplace := mkMarketplace {
  db : BookMarketplaceDB;
  next_offer_id : Z;
  next_purchase_id : Z
}.

(** [BookMarketplace.__init__]. *)
Definition BookMarketplace_init : BookMarketplace :=
  mkMarketplace (mkDB ∅ ∅ ∅ ∅) 1 1.

Definition set_book_offers (f : gmap Z offer → gmap Z offer)
    (self : BookMarketplace) : BookMarketplace :=
  mkMarketplace
    (mkDB (customers (db self)) (vendors (db self))
          (f (book_offers (db self))) (purchases (db self)))
    (next_offer_id self) (next_purchase_id self).

Definition set_purchases (f : gmap Z purchase → gmap Z purchase)
    (self : BookMarketplace) : BookMarketplace :=
  mkMarketplace
    (mkDB (customers (db self)) (vendors (db self))
          (book_offers (db self)) (f (purchases (db self))))
    (next_offer_id self) (next_purchase_id self).

Definition set_next_offer_id (f : Z → Z) (self : BookMarketplace)
  : BookMarketplace :=
  mkMarketplace (db self) (f (next_offer_id self)) (next_purchase_id self).

Definition set_next_purchase_id (f : Z → Z) (self : BookMarketplace)
  : BookMarketplace :=
  mkMarketplace (db self) (next_offer_id self) (f (next_purchase_id self)).

(** [BookMarketplace.offer_handler(vendor_id, book_info)]; the body of a
    successful reply is the [offer_id]. The counter is advanced before
    the dict literal reads [book_info], so a missing field raises
    [KeyError] with the counter already moved. *)
Definition offer_handler (vendor : Z) (book_info : gmap string pyval)
  : method BookMarketplace (reply Z) :=
  let! vs := gets (λ self, vendors (db self)) in
  if bool_decide (vendor ∉ dom vs) then
    ret (Rejected "Vendor not found")
  else
    let! offer_id := gets next_offer_id in
    let! _ := modify (set_next_offer_id (λ n, n + 1)) in
    let! t := eval (subscript book_info "title") in
    let! a := eval (subscript book_info "author") in
    let! y := eval (subscript book_info "year") in
    let! e := eval (subscript book_info "edition") in
    let! p := eval (subscript book_info "publisher") in
    let! c := eval (subscript book_info "condition") in
    let! d := eval (subscript book_info "description") in
    let! pr := eval (subscript book_info "price") in
    let! _ := modify (set_book_offers
                <[offer_id := mkOffer t a y e p c d pr vendor true]>) in
    ret (Accepted offer_id).

(** The entries of a successful [purchase_handler] reply. *)
Record purchase_accepted := mkPurchaseAccepted {
  vendor_confirmation : gmap string pyval;
  customer_confirmation : gmap string pyval
}.

(** [self.db.book_offers[offer_id]["available"] = False]: the entry with
    its flag replaced, and the assignment on a key that is in the dict. *)
Definition sold (o : offer) : offer :=
  mkOffer (title o) (author o) (year o) (edition o) (publisher o)
          (condition o) (description o) (price o) (vendor_id o) false.

Definition mark_sold (offer_id : Z) : method BookMarketplace unit :=
  modify (set_book_offers (alter sold offer_id)).

(** [BookMarketplace.purchase_handler(customer_id, offer_id, price)]. *)
Definition purchase_handler (customer_id offer_id : Z) (offered : pyval)
  : method BookMarketplace (reply purchase_accepted) :=
  let! d := gets db in
  match customers d !! customer_id with
  | None => ret (Rejected "Customer not found")
  | Some customer =>
  match book_offers d !! offer_id with
  | None => ret (Rejected "Book offer not available")
  | Some o =>
  if negb (available o) then
    ret (Rejected "Book offer not available")
  else if py_ne (price o) offered then
    ret (Rejected "Price does not match")
  else
  let! _ := mark_sold offer_id in
  let! pid := gets next_purchase_id in
  let! _ := modify (set_next_purchase_id (λ n, n + 1)) in
  let! _ := modify (set_purchases
              <[pid := mkPurchase offer_id customer_id
                                  "2025-05-04 12:00:00" offered]>) in
  let! customer_name := eval (subscript customer "name") in
  let! shipping_address := eval (subscript customer "address") in
  let v_conf : gmap string pyval :=
    {[ "purchase_id" := VInt pid;
       "book_title" := title o;
       "customer_name" := customer_name;
       "shipping_address" := shipping_address;
       "price" := offered ]} in
  let c_conf : gmap string pyval :=
    {[ "purchase_id" := VInt pid;
       "book_title" := title o;
       "price" := offered ]} in
  ret (Accepted (mkPurchaseAccepted v_conf c_conf))
  end
  end.

(** The calls a client can make: the two updating handlers, and the
    assignments to [db.customers] and [db.vendors] by which the test file
    registers customers and vendors. [search_handler] and
    [get_marketing_data] assign to none of the attributes, and are left
    out. *)
Inductive call :=
| AssignCustomers (cs : gmap Z (gmap string pyval))
| AssignVendors (vs : gmap Z (gmap string pyval))
| OfferHandler (vendor : Z) (book_info : gmap string pyval)
| PurchaseHandler (customer_id offer_id : Z) (offered : pyval).

Inductive answer :=
| NoAnswer
| OfferReply (r : reply Z)
| PurchaseReply (r : reply purchase_accepted).

Definition assign_customers (cs : gmap Z (gmap string pyval))
  : method BookMarketplace unit :=
  modify (λ self,
    mkMarketplace (mkDB cs (vendors (db self)) (book_offers (db self))
                        (purchases (db self)))
                  (next_offer_id self) (next_purchase_id self)).

Definition assign_vendors (vs : gmap Z (gmap string pyval))
  : method BookMarketplace unit :=
  modify (λ self,
    mkMarketplace (mkDB (customers (db self)) vs (book_offers (db self))
                        (purchases (db self)))
                  (next_offer_id self) (next_purchase_id self)).

Definition step (c : call) : method BookMarketplace answer :=
  match c with
  | AssignCustomers cs => map_result (λ _, NoAnswer) (assign_customers cs)
  | AssignVendors vs => map_result (λ _, NoAnswer) (assign_vendors vs)
  | OfferHandler v b => map_result OfferReply (offer_handler v b)
  | PurchaseHandler c o p => map_result PurchaseReply (purchase_handler c o p)
  end.

(** The offer key a call returned to its caller, if it returned one. *)
Definition offer_key (cr : call * outcome answer) : option Z :=
  match cr with
  | (OfferHandler _ _, Return (OfferReply (Accepted k))) => Some k
  | _ => None
  end.

(** Every offer key in use lies below the counter that hands keys out. *)
Definition keys_below_counter (self : BookMarketplace) : Prop :=
  ∀ k, k ∈ dom (book_offers (db self)) → k < next_offer_id self.

(** The offer under a key is the one that was stored, up to its
    [available] flag. *)
Definition same_offer (o o' : offer) : Prop :=
  o' = mkOffer (title o) (author o) (year o) (edition o) (publisher o)
               (condition o) (description o) (price o) (vendor_id o)
               (available o').

Definition lookup_offer (self : BookMarketplace) (k : Z) : option offer :=
  book_offers (db self) !! k.

(** An offer key that is not in the store, and one whose offer is there
    but no longer available. *)
Definition offer_absent (k : Z) (self : BookMarketplace) : Prop :=
  lookup_offer self k = None.

Definition offer_unavailable (k : Z) (self : BookMarketplace) : Prop :=
  ∃ o, lookup_offer self k = Some o ∧ available o = false.

(** The grounds on which [purchase_handler] refuses, each with the
    message of its reply, in the order the handler tests them. *)
Inductive purchase_refused (self : BookMarketplace) (customer_id offer_id : Z)
    (offered : pyval) : string → Prop :=
| refused_customer :
    customers (db self) !! customer_id = None →
    purchase_refused self customer_id offer_id offered "Customer not found"
| refused_offer :
    is_Some (customers (db self) !! customer_id) →
    lookup_offer self offer_id = None →
    purchase_refused self customer_id offer_id offered "Book offer not available"
| refused_sold o :
    is_Some (customers (db self) !! customer_id) →
    lookup_offer self offer_id = Some o →
    available o = false →
    purchase_refused self customer_id offer_id offered "Book offer not available"
| refused_price o :
    is_Some (customers (db self) !! customer_id) →
    lookup_offer self offer_id = Some o →
    available o = true →
    py_ne (price o) offered = true →
    purchase_refused self customer_id offer_id offered "Price does not match".

(** What a call can do to the offers and their counter: nothing, advance
    the counter alone (an offer that raised on a missing field), store a
    new offer under the counter and advance it, or mark an offer sold. *)
Inductive offer_effect (s s' : BookMarketplace) : Prop :=
| offers_kept :
    book_offers (db s') = book_offers (db s) →
    next_offer_id s' = next_offer_id s → offer_effect s s'
| offer_skipped :
    book_offers (db s') = book_offers (db s) →
    next_offer_id s' = next_offer_id s + 1 → offer_effect s s'
| offer_added o :
    book_offers (db s') = <[next_offer_id s := o]> (book_offers (db s)) →
    next_offer_id s' = next_offer_id s + 1 → offer_effect s s'
| offer_sold k :
    book_offers (db s') = alter sold k (book_offers (db s)) →
    next_offer_id s' = next_offer_id s → offer_effect s s'.
(** The offer that a call which returned an offer key has stored: an
    available offer of the vendor with the eight fields of [book_info]. *)
Definition offer_stored (c : call) (self self' : BookMarketplace)
    (o : offer) : Prop :=
  match c with
  | OfferHandler v info =>
      vendor_id o = v ∧ available o = true
      ∧ info !! "title" = Some (title o)
      ∧ info !! "author" = Some (author o)
      ∧ info !! "year" = Some (year o)
      ∧ info !! "edition" = Some (edition o)
      ∧ info !! "publisher" = Some (publisher o)
      ∧ info !! "condition" = Some (condition o)
      ∧ info !! "description" = Some (description o)
      ∧ info !! "price" = Some (price o)
  | _ => False
  end.
End Marketplace.

(** ** What the claims about keys and about the error channel say *)

(** A purchase fails alike for a key that is absent and for one that is
    there but unavailable: same outcome, same object after the call. *)
Definition fails_alike {S A} (absent unavailable : Z → S → Prop)
    (purchase : Z → method S (reply A)) : Prop :=
  ∀ s k1 k2, absent k1 s → unavailable k2 s → purchase k1 s = purchase k2 s.

Section KeyedStore.
Context {S C A R : Type}.
(** The calls of a store, the key a call returned, the counter that
    hands keys out, the record under a key, and what it means for a
    record to be the same one. *)
Variable step : C → method S A.
Variable key_of : C * outcome A → option Z.
Variable counter : S → Z.
Variable lookup : S → Z → option R.
Variable same : R → R → Prop.

(** The store a client has after [calls] on the new store [s0], and the
    outcomes of these calls. *)
Definition after (s0 : S) (calls : list C) : S := (run step calls s0).2.

Definition outcomes (s0 : S) (calls : list C) : list (C * outcome A) :=
  (run step calls s0).1.

(** A key a call returns is in use for no record of the store, differs
    from every key returned earlier in the life of the store, and the
    counter is strictly larger after the call. *)
Definition keys_are_fresh (s0 : S) : Prop :=
  ∀ pre c k,
    key_of (c, (step c (after s0 pre)).1) = Some k →
    lookup (after s0 pre) k = None
    ∧ (k ∉ omap key_of (outcomes s0 pre))
    ∧ counter (after s0 pre) < counter (step c (after s0 pre)).2.

(** No call makes the counter smaller. *)
Definition counter_is_monotone (s0 : S) : Prop :=
  ∀ pre c, counter (after s0 pre) ≤ counter (step c (after s0 pre)).2.

(** The record under a key stays the same record, whatever calls follow. *)
Definition keys_are_not_reassigned (s0 : S) : Prop :=
  ∀ pre calls k r,
    lookup (after s0 pre) k = Some r →
    ∃ r', lookup (after s0 (pre ++ calls)) k = Some r' ∧ same r r'.

(** A key a call returns holds, after the call, the record that the call
    stored; [stored c s s' r] says what that record is, for the store [s]
    before the call and [s'] after it. *)
Definition keys_hold_what_was_stored (stored : C → S → S → R → Prop)
    (s0 : S) : Prop :=
  ∀ pre c k,
    key_of (c, (step c (after s0 pre)).1) = Some k →
    ∃ r, lookup (step c (after s0 pre)).2 k = Some r
         ∧ stored c (after s0 pre) (step c (after s0 pre)).2 r.
End KeyedStore.

(** ** The demo of [bookmarket_platform.py] *)

(** The platform as [BookMarketPlatform()] builds it, the principals named
    as the constructor names them. *)
Definition demo_platform : @Platform.BookMarketPlatform string _ _ :=
  Platform.BookMarketPlatform_init
    "Marketplace" "Alice" "Bob" "BookStore" "RareBooks".

(** The first book of [demo()]. *)
Definition demo_book : gmap string pyval :=
  {[ "title" := VStr "Introduction to Information Flow Security";
     "author" := VStr "A. C. Myers";
     "year" := VStr "2022";
     "edition" := VStr "1st";
     "publisher" := VStr "Security Press";
     "condition" := VStr "new";
     "description" :=
       VStr "A comprehensive introduction to secure information flow";
     "price" := VFloat 29.99 ]}.

(** The offer of the book by [bookstore] and its purchase by [alice]. *)
Definition demo_calls : list (@Platform.call string _ _) :=
  [Platform.HandleOffer "bookstore" (Platform.New demo_book);
   Platform.HandlePurchase "alice" 1 (VFloat 29.99)].

(** The platform after the two calls: book 1 is sold, no book 2 exists. *)
Definition demo_sold : @Platform.BookMarketPlatform string _ _ :=
  (run Platform.step demo_calls demo_platform).2.

(** ** The test of [denning_and_denning/test.py] *)

Definition test_customers : gmap Z (gmap string pyval) :=
  {[ 1 := {[ "name" := VStr "Alice Smith";
             "address" := VStr "123 Main St, Copenhagen";
             "opt_in_marketing" := VBool true ]};
     2 := {[ "name" := VStr "Bob Johnson";
             "address" := VStr "456 Oak Ave, Copenhagen";
             "opt_in_marketing" := VBool false ]} ]}.

Definition test_vendors : gmap Z (gmap string pyval) :=
  {[ 1 := {[ "name" := VStr "Book Haven" ]};
     2 := {[ "name" := VStr "Academic Press" ]} ]}.

Definition test_book_info : gmap string pyval :=
  {[ "title" := VStr "Python Programming for Beginners";
     "author" := VStr "Jane Doe";
     "year" := VInt 2024;
     "edition" := VStr "3rd";
     "publisher" := VStr "Tech Books";
     "condition" := VStr "new";
     "description" := VStr "A comprehensive guide to Python programming";
     "price" := VFloat 29.99 ]}.

Definition test_book_info2 : gmap string pyval :=
  {[ "title" := VStr "History of Denmark";
     "author" := VStr "Hans Jensen";
     "year" := VInt 2023;
     "edition" := VStr "1st";
     "publisher" := VStr "Nordic Press";
     "condition" := VStr "used";
     "description" :=
       VStr "A detailed history of Denmark from Vikings to modern day";
     "price" := VFloat 19.99 ]}.

(** The updating calls of [main()], in order: the two assignments, the
    two offers, the purchase of offer 1 and its second purchase. *)
Definition test_calls : list Marketplace.call :=
  [Marketplace.AssignCustomers test_customers;
   Marketplace.AssignVendors test_vendors;
   Marketplace.OfferHandler 1 test_book_info;
   Marketplace.OfferHandler 2 test_book_info2;
   Marketplace.PurchaseHandler 1 1 (VFloat 29.99);
   Marketplace.PurchaseHandler 2 1 (VFloat 29.99)].

(** ** What the handlers leave behind *)

(** A handler's outcome that is a reply with [success] true. *)
Definition accepted {A} (r : outcome (reply A)) : bool :=
  match r with
  | Return (Accepted _) => true
  | _ => false
  end.

(** The body of an accepted reply, [d] if there is none. *)
Definition body_of {A} (d : A) (r : outcome (reply A)) : A :=
  match r with
  | Return (Accepted a) => a
  | _ => d
  end.

Section PlatformSales.
Context {Principal : Type} {Principal_eq : EqDecision Principal}
        {Principal_countable : Countable Principal}.
Implicit Types s : @Platform.BookMarketPlatform Principal _ _.
Import Platform.

(** What a sale that [handle_purchase] has recorded looks like: book [k]
    was there and is now marked sold, a purchase of [k] by [cid] at [p]
    is stored under the old purchase counter, its data a new dict, with a
    label owned and readable by the same principals, the marketplace
    among them, and the counter has advanced; the dicts there were are
    as they were. *)
Definition sale_recorded s s' (cid : string) (k : Z) (p : pyval) : Prop :=
  (∃ b, lookup_book s k = Some b ∧ lookup_book s' k = Some (sold b))
  ∧ (∃ e, lookup_purchase s' (purchase_counter s) = Some e
          ∧ purchase_data e = length (dicts s)
          ∧ dict_at s' (purchase_data e) !! "book_id" = Some (VInt k)
          ∧ dict_at s' (purchase_data e) !! "customer_id" = Some (VStr cid)
          ∧ dict_at s' (purchase_data e) !! "price" = Some p
          ∧ owners (purchase_label e) = readers (purchase_label e)
          ∧ marketplace s ∈ owners (purchase_label e))
  ∧ purchase_counter s' = purchase_counter s + 1
  ∧ (∀ k', k' ≠ k → lookup_book s' k' = lookup_book s k')
  ∧ (∀ k', k' ≠ purchase_counter s →
           lookup_purchase s' k' = lookup_purchase s k')
  ∧ customers (db s') = customers (db s)
  ∧ vendors (db s') = vendors (db s)
  ∧ book_counter s' = book_counter s
  ∧ marketplace s' = marketplace s
  ∧ (∃ d, dicts s' = (dicts s ++ [d])%list).

End PlatformSales.

(** The fields [offer_handler] reads from [book_info], in the order of
    the dict literal. *)
Definition offer_fields : list string :=
  ["title"; "author"; "year"; "edition"; "publisher"; "condition";
   "description"; "price"].

Section MarketplaceSales.
Import Marketplace.
Implicit Types s : BookMarketplace.

(** What a sale that [purchase_handler] has recorded looks like. *)
Definition offer_sale_recorded s s' (cid k : Z) (p : pyval) : Prop :=
  (∃ o, lookup_offer s k = Some o ∧ lookup_offer s' k = Some (sold o))
  ∧ purchases (db s') !! next_purchase_id s
    = Some (mkPurchase k cid "2025-05-04 12:00:00" p)
  ∧ next_purchase_id s' = next_purchase_id s + 1
  ∧ (∀ k', k' ≠ k → lookup_offer s' k' = lookup_offer s k')
  ∧ (∀ k', k' ≠ next_purchase_id s →
           purchases (db s') !! k' = purchases (db s) !! k')
  ∧ customers (db s') = customers (db s)
  ∧ vendors (db s') = vendors (db s)
  ∧ next_offer_id s' = next_offer_id s.

(** A value that is a string. *)
Definition is_str (v : pyval) : bool :=
  match v with VStr _ => true | _ => false end.

(** The four values [search_handler] lowers. *)
Definition text_fields (o : offer) : list pyval :=
  [title o; author o; publisher o; description o].

End MarketplaceSales.

(** [try: body except SecurityException as e: handler(str(e))]: any other
    exception passes through, with the updates made before it. *)
Definition try_except {S A} (body : method S A) (handler : string → method S A)
  : method S A :=
  λ s, match body s with
       | (Raise (SecurityException msg), s') => handler msg s'
       | r => r
       end.

(** ** The labelled database ([denning_and_denning/bookmarket.py]) *)

Module BookMarket.
(** The dict a handler of the module returns when it has caught a
    [SecurityException]: [{"success": False, "error": str(e)}], or else
    what it got from the database. *)
Inductive handled (A : Type) :=
| Failed (error : string)
| Done (a : A).
Arguments Failed {A} error.
Arguments Done {A} a.

Section BookMarket.
(** [str] of a float, as Python prints it. *)
Variable float_str : float → string.

(** [str(v)], as an f-string formats a value. *)
Definition py_str (v : pyval) : string :=
  match v with
  | VNone => "None"
  | VBool b => if b then "True" else "False"
  | VInt z => pretty z
  | VFloat f => float_str f
  | VStr s => s
  end.

(** A labelled offer: the dict literal of [add_book_offer], every entry a
    cell of its own. *)
Record labeled_offer := mkOffer {
  offer_id : SecureVariable string;
  title : SecureVariable pyval;
  author : SecureVariable pyval;
  year : SecureVariable pyval;
  publisher : SecureVariable pyval;
  condition : SecureVariable pyval;
  description : SecureVariable pyval;
  price : SecureVariable pyval;
  vendor_id : SecureVariable pyval;
  available_view : SecureVariable bool;
  _available : SecureVariable bool
}.

(** [class BookMarketDB]: four cells. *)
Record BookMarketDB := mkDB {
  customers : SecureVariable (gmap string (gmap string pyval));
  vendors : SecureVariable (gmap string (gmap string pyval));
  book_offers : SecureVariable (list labeled_offer);
  purchases : SecureVariable (list (gmap string pyval))
}.

(** [BookMarketDB.__init__]: the two dicts are assigned to [.value]
    directly. *)
Definition BookMarketDB_init : BookMarketDB :=
  let customers0 : gmap string (gmap string pyval) :=
    {[ "c1" := {[ "name" := VStr "Alice"; "address" := VStr "123 Main St";
                  "opt_in" := VBool false ]};
       "c2" := {[ "name" := VStr "Bob"; "address" := VStr "456 Elm St";
                  "opt_in" := VBool true ]} ]} in
  let vendors0 : gmap string (gmap string pyval) :=
    {[ "v1" := {[ "name" := VStr "Vintage Books" ]};
       "v2" := {[ "name" := VStr "Academic Press" ]} ]} in
  mkDB (mkSecureVariable customers0 SecurityLevel.PLATFORM)
       (mkSecureVariable vendors0 SecurityLevel.PLATFORM)
       (mkSecureVariable [] SecurityLevel.PUBLIC)
       (mkSecureVariable [] SecurityLevel.PLATFORM).

(** Assignments to [.value] that go past [set_value]. *)
Definition set_offers (f : list labeled_offer → list labeled_offer)
    (self : BookMarketDB) : BookMarketDB :=
  mkDB (customers self) (vendors self)
       (mkSecureVariable (f (value (book_offers self)))
                         (security_level (book_offers self)))
       (purchases self).

Definition set_purchases_cell
    (f : SecureVariable (list (gmap string pyval))
         → SecureVariable (list (gmap string pyval)))
    (self : BookMarketDB) : BookMarketDB :=
  mkDB (customers self) (vendors self) (book_offers self) (f (purchases self)).

Definition set_value_of {A} (v : A) (cell : SecureVariable A) : SecureVariable A :=
  mkSecureVariable v (security_level cell).

Definition with_available_view (f : SecureVariable bool → SecureVariable bool)
    (o : labeled_offer) : labeled_offer :=
  mkOffer (offer_id o) (title o) (author o) (year o) (publisher o)
          (condition o) (description o) (price o) (vendor_id o)
          (f (available_view o)) (_available o).

Definition with_available (f : SecureVariable bool → SecureVariable bool)
    (o : labeled_offer) : labeled_offer :=
  mkOffer (offer_id o) (title o) (author o) (year o) (publisher o)
          (condition o) (description o) (price o) (vendor_id o)
          (available_view o) (f (_available o)).

(** [cell.get_value(context_level)] inside a method of the database: the
    cell is not changed by it. *)
Definition read {S A} (cell : SecureVariable A) (context_level : Z) : method S A :=
  eval (get_value cell context_level).1.

(** [SecureVariable(x, SecurityLevel.PUBLIC)]. *)
Definition public {A} (x : A) : SecureVariable A :=
  mkSecureVariable x SecurityLevel.PUBLIC.

(** The id [f"book_{len(self.book_offers.value) + 1}"]. *)
Definition next_id (offers : list labeled_offer) : string :=
  "book_" +:+ pretty (Z.of_nat (length offers) + 1).

(** [BookMarketDB.add_book_offer(offer_data, context_level)]. *)
Definition add_book_offer (offer_data : gmap string pyval) (context_level : Z)
  : method BookMarketDB string :=
  if negb (SecurityLevel.can_flow SecurityLevel.VENDOR context_level) then
    raise (SecurityException
             "Security violation: Only vendors can add book offers")
  else
    let! offers := gets (λ self, value (book_offers self)) in
    let new_id := next_id offers in
    let! t := eval (subscript offer_data "title") in
    let! a := eval (subscript offer_data "author") in
    let! y := eval (subscript offer_data "year") in
    let! p := eval (subscript offer_data "publisher") in
    let! c := eval (subscript offer_data "condition") in
    let! d := eval (subscript offer_data "description") in
    let! pr := eval (subscript offer_data "price") in
    let! v := eval (subscript offer_data "vendor_id") in
    let labeled :=
      mkOffer (public new_id) (public t) (public a) (public y) (public p)
              (public c) (public d) (public pr) (public v) (public true)
              (mkSecureVariable true SecurityLevel.PLATFORM) in
    let! _ := modify (set_offers (λ offers, (offers ++ [labeled])%list)) in
    ret (value (offer_id labeled)).

(** [BookMarketDB._update_availability_view(book_index, new_status,
    context_level)]: the view is assigned directly, past [set_value]. *)
Definition _update_availability_view (book_index : Z) (new_status : bool)
    (context_level : Z) : method BookMarketDB bool :=
  if context_level <? SecurityLevel.PLATFORM then
    raise (SecurityException
             "Security violation: Only platform can update availability view")
  else
    let! offers := gets (λ self, value (book_offers self)) in
    if (book_index <? 0) || (Z.of_nat (length offers) <=? book_index) then
      ret false
    else
      let! _ := modify (set_offers
                  (alter (with_available_view (set_value_of new_status))
                         (Z.to_nat book_index))) in
      ret true.

(** A call of [set_value] on a cell of the offer at [book_index]. *)
Definition set_in_offer (book_index : nat)
    (cell : labeled_offer → SecureVariable bool)
    (put : (SecureVariable bool → SecureVariable bool)
           → labeled_offer → labeled_offer)
    (book_found : labeled_offer) (new_value : bool)
    (source_level context_level : Z) : method BookMarketDB unit :=
  let '(r, cell') := set_value (cell book_found) new_value source_level
                       context_level in
  let! _ := modify (set_offers (alter (put (λ _, cell')) book_index)) in
  eval r.

(** The entries of a successful [purchase_book] reply. *)
Record purchase_ok := mkPurchaseOk {
  confirmation : gmap string pyval;
  vendor_notification : gmap string pyval
}.

Definition no_longer_available : reply purchase_ok :=
  Rejected "Book is no longer available".

(** [BookMarketDB.purchase_book(book_id, customer_id, price_check,
    context_level)]. The debug [print]s are left out, except for the
    subscript [customer['name']] that one of them evaluates. A [return]
    inside the first [try] is the [Some] of its result. *)
Definition purchase_book (book_id customer_id : string) (price_check : pyval)
    (context_level : Z) : method BookMarketDB (reply purchase_ok) :=
  if context_level <? SecurityLevel.CUSTOMER then
    raise (SecurityException
             "Security violation: Insufficient permissions for purchase")
  else
  let! offers := gets (λ self, value (book_offers self)) in
  match list_find (λ o, value (offer_id o) = book_id) offers with
  | None => ret (Rejected "Book not found")
  | Some (book_index, book_found) =>
  let! view := read (available_view book_found) context_level in
  let! early :=
    try_except
      (let! real_available :=
         read (_available book_found) SecurityLevel.PLATFORM in
       if negb real_available then
         let! _ :=
           (if view then
              set_in_offer book_index available_view with_available_view
                book_found false SecurityLevel.PUBLIC SecurityLevel.PLATFORM
            else ret tt) in
         ret (Some no_longer_available)
       else ret None)
      (λ _, if negb view then ret (Some no_longer_available) else ret None) in
  match early with
  | Some r => ret r
  | None =>
  let! actual_price := read (price book_found) context_level in
  if py_ne price_check actual_price then
    ret (Rejected ("Price mismatch. Expected: " +:+ py_str actual_price))
  else
  try_except
    (let! cs := (λ self, read (customers self) SecurityLevel.PLATFORM self) in
     match cs !! customer_id with
     | None => ret (Rejected "Customer not found")
     | Some customer =>
     let! _ := eval (subscript customer "name") in
     let! _ := set_in_offer book_index _available with_available book_found
                 false SecurityLevel.PLATFORM SecurityLevel.PLATFORM in
     let! _ := _update_availability_view (Z.of_nat book_index) false
                 SecurityLevel.PLATFORM in
     let! vendor := read (vendor_id book_found) context_level in
     let purchase_record : gmap string pyval :=
       {[ "book_id" := VStr book_id;
          "customer_id" := VStr customer_id;
          "vendor_id" := vendor;
          "price" := actual_price;
          "timestamp" := VStr "2025-05-05" ]} in
     let! ps := (λ self, read (purchases self) SecurityLevel.PLATFORM self) in
     let! _ := modify (set_purchases_cell
                 (set_value_of (ps ++ [purchase_record])%list)) in
     let! _ := (λ self,
                  let '(r, cell') :=
                    set_value (purchases self) (ps ++ [purchase_record])%list
                      SecurityLevel.PLATFORM SecurityLevel.PLATFORM in
                  (r, set_purchases_cell (λ _, cell') self)) in
     let! book_title := read (title book_found) context_level in
     let! shipping_address := eval (subscript customer "address") in
     let! customer_name := eval (subscript customer "name") in
     let conf : gmap string pyval :=
       {[ "book_title" := book_title;
          "price" := actual_price;
          "shipping_address" := shipping_address;
          "customer_name" := customer_name;
          "book_id" := VStr book_id ]} in
     let! opt_in := eval (subscript customer "opt_in") in
     let! customer_name' := eval (subscript customer "name") in
     let! shipping_address' := eval (subscript customer "address") in
     let note : gmap string pyval :=
       {[ "book_id" := VStr book_id;
          "customer_name" := customer_name';
          "shipping_address" := shipping_address' ]} in
     ret (Accepted (mkPurchaseOk conf note))
     end)
    (λ msg, ret (Rejected msg))
  end
  end.

(** A reply of [handle_purchase] that is a success. *)
Definition sale_done (r : outcome (handled (reply purchase_ok))) : bool :=
  match r with
  | Return (Done (Accepted _)) => true
  | _ => false
  end.

(** [handle_offer(offer_data)] on [global_db]; [Done] holds the
    [book_id] of [{"success": True, "book_id": book_id}]. *)
Definition handle_offer (offer_data : gmap string pyval)
  : method BookMarketDB (handled string) :=
  try_except
    (let! book_id := add_book_offer offer_data SecurityLevel.VENDOR in
     ret (Done book_id))
    (λ msg, ret (Failed msg)).

(** [handle_purchase(book_id, customer_id, price)] on [global_db];
    [Done] holds the dict [purchase_book] returned. *)
Definition handle_purchase (book_id customer_id : string) (price : pyval)
  : method BookMarketDB (handled (reply purchase_ok)) :=
  try_except
    (let! result := purchase_book book_id customer_id price
                      SecurityLevel.CUSTOMER in
     ret (Done result))
    (λ msg, ret (Failed msg)).

(** The levels [add_book_offer] gives to the cells of an offer. *)
Definition labelled_as_built (o : labeled_offer) : Prop :=
  security_level (offer_id o) = SecurityLevel.PUBLIC
  ∧ security_level (title o) = SecurityLevel.PUBLIC
  ∧ security_level (author o) = SecurityLevel.PUBLIC
  ∧ security_level (year o) = SecurityLevel.PUBLIC
  ∧ security_level (publisher o) = SecurityLevel.PUBLIC
  ∧ security_level (condition o) = SecurityLevel.PUBLIC
  ∧ security_level (description o) = SecurityLevel.PUBLIC
  ∧ security_level (price o) = SecurityLevel.PUBLIC
  ∧ security_level (vendor_id o) = SecurityLevel.PUBLIC
  ∧ security_level (available_view o) = SecurityLevel.PUBLIC
  ∧ security_level (_available o) = SecurityLevel.PLATFORM.

(** A database as the methods of the class build it: the four cells at
    the levels of [__init__], every offer labelled as [add_book_offer]
    labels it, and the offer at position [i] with the id [book_(i+1)]. *)
Definition as_built (self : BookMarketDB) : Prop :=
  security_level (customers self) = SecurityLevel.PLATFORM
  ∧ security_level (vendors self) = SecurityLevel.PLATFORM
  ∧ security_level (book_offers self) = SecurityLevel.PUBLIC
  ∧ security_level (purchases self) = SecurityLevel.PLATFORM
  ∧ Forall labelled_as_built (value (book_offers self))
  ∧ (∀ i o, value (book_offers self) !! i = Some o →
            value (offer_id o) = "book_" +:+ pretty (Z.of_nat i + 1)).

(** The fields [add_book_offer] reads from [offer_data], in the order of
    the dict literal. *)
Definition offer_data_fields : list string :=
  ["title"; "author"; "year"; "publisher"; "condition"; "description";
   "price"; "vendor_id"].

(** The calls of a client of the module: the two updating handlers, and
    the methods of the database with a context of the caller's choice. *)
Inductive call :=
| HandleOffer (offer_data : gmap string pyval)
| HandlePurchase (book_id customer_id : string) (price : pyval)
| AddBookOffer (offer_data : gmap string pyval) (context_level : Z)
| UpdateAvailabilityView (book_index : Z) (new_status : bool)
                         (context_level : Z)
| PurchaseBook (book_id customer_id : string) (price_check : pyval)
               (context_level : Z).

Inductive answer :=
| OfferHandled (r : handled string)
| PurchaseHandled (r : handled (reply purchase_ok))
| OfferId (book_id : string)
| Updated (done : bool)
| Purchase (r : reply purchase_ok).

Definition step (c : call) : method BookMarketDB answer :=
  match c with
  | HandleOffer d => map_result OfferHandled (handle_offer d)
  | HandlePurchase b c p => map_result PurchaseHandled (handle_purchase b c p)
  | AddBookOffer d l => map_result OfferId (add_book_offer d l)
  | UpdateAvailabilityView i v l =>
      map_result Updated (_update_availability_view i v l)
  | PurchaseBook b c p l => map_result Purchase (purchase_book b c p l)
  end.

(** The calls that do not set a public view back to [True]. *)
Definition no_view_reset (c : call) : bool :=
  match c with
  | UpdateAvailabilityView _ true _ => false
  | _ => true
  end.

(** The offer at position [i] is marked sold, in its real status and in
    its public view. *)
Definition sold_at (i : nat) (self : BookMarketDB) : Prop :=
  ∃ o, value (book_offers self) !! i = Some o
       ∧ value (_available o) = false ∧ value (available_view o) = false.


(** The database after the sale of the offer at position [i]: both
    availability cells of the offer hold [False], and [record] is appended
    to the purchases. *)
Definition after_sale (i : nat) (record : gmap string pyval)
    (db : BookMarketDB) : BookMarketDB :=
  set_purchases_cell
    (set_value_of (value (purchases db) ++ [record])%list)
    (set_offers
       (λ l, alter (with_available_view (set_value_of false)) i
               (alter (with_available (set_value_of false)) i l)) db).

(** The record [purchase_book] appends. *)
Definition purchase_record (b c : string) (o : labeled_offer)
  : gmap string pyval :=
  {[ "book_id" := VStr b;
     "customer_id" := VStr c;
     "vendor_id" := value (vendor_id o);
     "price" := value (price o);
     "timestamp" := VStr "2025-05-05" ]}.

(** What [purchase_book] does on a database as built, in a context of a
    customer or above. *)
Definition purchase_book_as_built (b c : string) (p : pyval)
    (db : BookMarketDB)
  : outcome (reply purchase_ok) * BookMarketDB :=
  match list_find (λ o, value (offer_id o) = b) (value (book_offers db)) with
  | None => (Return (Rejected "Book not found"), db)
  | Some (i, o) =>
      if negb (value (_available o)) && negb (value (available_view o)) then
        (Return (Rejected "Book is no longer available"), db)
      else if py_ne p (value (price o)) then
        (Return (Rejected ("Price mismatch. Expected: "
                           +:+ py_str (value (price o)))), db)
      else
        match value (customers db) !! c with
        | None => (Return (Rejected "Customer not found"), db)
        | Some customer =>
            match customer !! "name" with
            | None => (Raise (KeyError (VStr "name")), db)
            | Some name =>
                let db' := after_sale i (purchase_record b c o) db in
                match customer !! "address" with
                | None => (Raise (KeyError (VStr "address")), db')
                | Some address =>
                    match customer !! "opt_in" with
                    | None => (Raise (KeyError (VStr "opt_in")), db')
                    | Some _ =>
                        (Return (Accepted (mkPurchaseOk
                           {[ "book_title" := value (title o);
                              "price" := value (price o);
                              "shipping_address" := address;
                              "customer_name" := name;
                              "book_id" := VStr b ]}
                           {[ "book_id" := VStr b;
                              "customer_name" := name;
                              "shipping_address" := address ]})), db')
                    end
                end
            end
        end
  end.

(** The result dict of an offer, from the values of its cells. *)
Definition shown (o : labeled_offer) : gmap string pyval :=
  {[ "id" := VStr (value (offer_id o)); "title" := value (title o);
     "author" := value (author o); "year" := value (year o);
     "publisher" := value (publisher o); "condition" := value (condition o);
     "price" := value (price o); "vendor_id" := value (vendor_id o) ]}.

End BookMarket.
End BookMarket.

(** ** The searches *)

(** The truth value of a Python value. *)
Definition py_truthy (v : pyval) : bool :=
  match v with
  | VNone => false
  | VBool b => b
  | VInt z => negb (z =? 0)
  | VFloat f => negb (PrimFloat.eqb f 0)
  | VStr s => negb (bool_decide (s = ""))
  end.

(** A [str] is the string of its characters, each a code point below
    256. *)

(** [needle in hay] on strings. *)
Fixpoint contains (needle hay : string) : bool :=
  String.prefix needle hay
  || match hay with
     | EmptyString => false
     | String _ hay' => contains needle hay'
     end.

(** [s.split(",")[-1]]: what follows the last comma of [s], all of [s]
    when it has no comma. *)
Definition is_comma (c : Ascii.ascii) : bool :=
  (Ascii.N_of_ascii c =? 44)%N.

Fixpoint has_comma (s : string) : bool :=
  match s with
  | EmptyString => false
  | String c s => is_comma c || has_comma s
  end.

Fixpoint last_field (s : string) : string :=
  match s with
  | EmptyString => EmptyString
  | String c s' =>
      if has_comma s' then last_field s'
      else if is_comma c then s' else s
  end.

(** [s.strip()]: the white space of [str.isspace] is taken off both
    ends. *)
Definition is_space (c : Ascii.ascii) : bool :=
  let n := Ascii.N_of_ascii c in
  (((9 <=? n) && (n <=? 13)) || ((28 <=? n) && (n <=? 32))
   || (n =? 133) || (n =? 160))%N.

Fixpoint lstrip (s : string) : string :=
  match s with
  | EmptyString => EmptyString
  | String c s' => if is_space c then lstrip s' else s
  end.

Fixpoint rstrip (s : string) : string :=
  match s with
  | EmptyString => EmptyString
  | String c s' =>
      match rstrip s' with
      | EmptyString => if is_space c then EmptyString else String c EmptyString
      | r => String c r
      end
  end.

Definition strip (s : string) : string := rstrip (lstrip s).

(** A string of white space only, and a string with white space at its
    start or at its end. *)
Fixpoint all_space (s : string) : bool :=
  match s with
  | EmptyString => true
  | String c s => is_space c && all_space s
  end.

Definition starts_with_space (s : string) : bool :=
  match s with
  | EmptyString => false
  | String c _ => is_space c
  end.

Fixpoint ends_with_space (s : string) : bool :=
  match s with
  | EmptyString => false
  | String c EmptyString => is_space c
  | String _ s => ends_with_space s
  end.

(** The items of a dict with integer keys in the order of the keys. A
    dict is iterated in the order of insertion, and the stores insert
    under a counter that only grows. *)
Definition key_le {A} (x y : Z * A) : Prop := x.1 ≤ y.1.

Global Instance key_le_dec {A} (x y : Z * A) : Decision (key_le x y) :=
  decide (x.1 ≤ y.1).

Definition items_by_key {A} (m : gmap Z A) : list (Z * A) :=
  merge_sort key_le (map_to_list m).

(** What a search can raise: one of the exceptions above, or the
    [AttributeError] of [.lower()] on a value that is not a string. *)
Inductive raised :=
| Exn (e : exn)
| AttributeError (attr : string).

(** [v.lower()] for the [str.lower] given as [lower]. *)
Definition py_lower (lower : string → string) (v : pyval) : raised + string :=
  match v with
  | VStr s => inr (lower s)
  | _ => inl (AttributeError "lower")
  end.

(** Sequencing of steps that can raise. *)
Definition and_then {A B} (r : raised + A) (k : A → raised + B) : raised + B :=
  match r with
  | inl e => inl e
  | inr a => k a
  end.

(** An outcome among what can be raised. *)
Definition of_outcome {A} (r : outcome A) : raised + A :=
  match r with
  | Return v => inr v
  | Raise e => inl (Exn e)
  end.

(** *** [BookMarketPlatform.handle_search] *)

Module PlatformSearch.
Section PlatformSearch.
Context {Principal : Type} {Principal_eq : EqDecision Principal}
        {Principal_countable : Countable Principal}.
(** [str.lower]. *)
Variable lower : string → string.

(** One criterion of the query against the data of a book. *)
Definition criterion_holds (data : gmap string pyval) (kv : string * pyval)
  : bool :=
  match data !! kv.1 with
  | Some d =>
      if py_truthy kv.2 then
        match d, kv.2 with
        | VStr ds, VStr vs => contains (lower vs) (lower ds)
        | _, _ => py_eq d kv.2
        end
      else true
  | None => true
  end.

(** The loop over [query.items()]: no criterion fails. *)
Definition matches (query data : gmap string pyval) : bool :=
  forallb (criterion_holds data) (map_to_list query).

(** The dict [public_book_data]. *)
Definition public_book_data (book_id : Z) (data : gmap string pyval)
  : gmap string pyval :=
  let get key := default (VStr "") (data !! key) in
  {[ "book_id" := VInt book_id;
     "title" := get "title";
     "author" := get "author";
     "year" := get "year";
     "edition" := get "edition";
     "publisher" := get "publisher";
     "condition" := get "condition";
     "price" := get "price" ]}.

(** The entries of the reply besides ['success': True]. *)
Record search_reply := mkSearchReply {
  results : list (gmap string pyval);
  count : Z
}.

(** The loop over [self.db.books.items()]. *)
Definition search_books (query : gmap string pyval)
    (self : @Platform.BookMarketPlatform Principal _ _)
    (books : list (Z * @Platform.book_entry Principal _ _))
  : list (gmap string pyval) :=
  omap (λ kb : Z * @Platform.book_entry Principal _ _,
          let book_data := Platform.dict_at self (Platform.book_data kb.2) in
          if bool_decide (Platform.status kb.2 ≠ "available") then None
          else if matches query book_data then
            Some (public_book_data kb.1 book_data)
          else None) books.

(** [BookMarketPlatform.handle_search(customer_id, query)]; [None] is the
    anonymous search. The method assigns to no attribute of the
    platform; the record and the labels it builds for a registered
    customer are dropped at its end, and of that part only
    [list(customer_label.owners)[0]], which may raise, is kept. *)
Definition handle_search (customer_id : option string)
    (query : gmap string pyval)
    (self : @Platform.BookMarketPlatform Principal _ _)
  : outcome search_reply :=
  let registered :=
    match customer_id with
    | Some cid =>
        if bool_decide (cid = "") then None
        else Platform.customers (Platform.db self) !! cid
    | None => None
    end in
  let owner :=
    match registered with
    | Some customer_info =>
        match Platform.first_owner (Platform.customer_label customer_info) with
        | Return _ => Return tt
        | Raise e => Raise e
        end
    | None => Return tt
    end in
  match owner with
  | Raise e => Raise e
  | Return _ =>
      let found :=
        search_books query self
          (items_by_key (Platform.books (Platform.db self))) in
      Return (mkSearchReply found (Z.of_nat (length found)))
  end.
End PlatformSearch.
End PlatformSearch.

(** *** [BookMarketplace.search_handler] *)

Module MarketplaceSearch.
Section MarketplaceSearch.
Variable lower : string → string.

(** The loop over the four text fields of an offer: whether one of them
    contains the query, stopping at the first that does. *)
Fixpoint some_field_contains (query : string) (fields : list pyval)
  : raised + bool :=
  match fields with
  | [] => inr false
  | v :: fields =>
      match py_lower lower v with
      | inl e => inl e
      | inr s =>
          if contains (lower query) s then inr true
          else some_field_contains query fields
      end
  end.

(** The dict appended for an offer that matches. *)
Definition public_offer (offer_id : Z) (o : Marketplace.offer)
  : gmap string pyval :=
  {[ "offer_id" := VInt offer_id;
     "title" := Marketplace.title o;
     "author" := Marketplace.author o;
     "year" := Marketplace.year o;
     "condition" := Marketplace.condition o;
     "price" := Marketplace.price o ]}.

(** The loop over [self.db.book_offers.items()]. *)
Fixpoint search_offers (query : string) (offers : list (Z * Marketplace.offer))
  : raised + list (gmap string pyval) :=
  match offers with
  | [] => inr []
  | (offer_id, o) :: offers =>
      if negb (Marketplace.available o) then search_offers query offers
      else
        match some_field_contains query
                [Marketplace.title o; Marketplace.author o;
                 Marketplace.publisher o; Marketplace.description o] with
        | inl e => inl e
        | inr hit =>
            match search_offers query offers with
            | inl e => inl e
            | inr found =>
                inr (if hit then public_offer offer_id o :: found else found)
            end
        end
  end.

(** [BookMarketplace.search_handler(query)]; it assigns to no attribute
    of the marketplace. *)
Definition search_handler (query : string) (self : Marketplace.BookMarketplace)
  : raised + list (gmap string pyval) :=
  search_offers query
    (items_by_key (Marketplace.book_offers (Marketplace.db self))).
End MarketplaceSearch.
End MarketplaceSearch.

(** *** [BookMarketDB.search_books] and [handle_search] *)

Module BookMarketSearch.
Section BookMarketSearch.
Import BookMarket.
(** [str.lower], [str.isdigit] and [str] of a float. *)
Variable lower : string → string.
Variable isdigit : string → bool.
Variable float_str : float → string.

(** [cell.get_value(context_level)] inside the search. *)
Definition read_cell {A} (cell : SecureVariable A) (context_level : Z)
  : raised + A :=
  match (get_value cell context_level).1 with
  | Return v => inr v
  | Raise e => inl (Exn e)
  end.

(** The loop over the four text fields: each is read and lowered, and
    the loop stops at the first that contains the query. *)
Fixpoint text_matches (query : string) (context_level : Z)
    (cells : list (SecureVariable pyval)) : raised + bool :=
  match cells with
  | [] => inr false
  | cell :: cells =>
      and_then (read_cell cell context_level) (λ v,
      and_then (py_lower lower v) (λ field_value,
      if contains (lower query) field_value then inr true
      else text_matches query context_level cells))
  end.

(** The dict [result] of an offer that matches. *)
Definition result_of (o : labeled_offer) (context_level : Z)
  : raised + gmap string pyval :=
  and_then (read_cell (offer_id o) context_level) (λ i,
  and_then (read_cell (title o) context_level) (λ t,
  and_then (read_cell (author o) context_level) (λ a,
  and_then (read_cell (year o) context_level) (λ y,
  and_then (read_cell (publisher o) context_level) (λ p,
  and_then (read_cell (condition o) context_level) (λ c,
  and_then (read_cell (price o) context_level) (λ pr,
  and_then (read_cell (vendor_id o) context_level) (λ v,
  inr ({[ "id" := VStr i; "title" := t; "author" := a; "year" := y;
          "publisher" := p; "condition" := c; "price" := pr;
          "vendor_id" := v ]} : gmap string pyval))))))))).

(** Whether an offer that is in view matches the query. *)
Definition offer_matches (query : string) (context_level : Z)
    (o : labeled_offer) : raised + bool :=
  and_then (text_matches query context_level
              [title o; author o; publisher o; description o]) (λ m,
  if isdigit query then
    and_then (read_cell (year o) context_level) (λ y,
    inr (if bool_decide (BookMarket.py_str float_str y = query) then true
         else m))
  else inr m).

(** The loop over [self.book_offers.value]. *)
Fixpoint search_list (query : string) (context_level : Z)
    (offers : list labeled_offer) : raised + list (gmap string pyval) :=
  match offers with
  | [] => inr []
  | o :: offers =>
      and_then (read_cell (available_view o) context_level) (λ view,
      if negb view then search_list query context_level offers
      else
        and_then (offer_matches query context_level o) (λ m,
        and_then (if m then
                    and_then (result_of o context_level) (λ r, inr (Some r))
                  else inr None) (λ r,
        and_then (search_list query context_level offers) (λ found,
        inr (match r with Some r => r :: found | None => found end)))))
  end.

(** [BookMarketDB.search_books(query, context_level)]; the debug
    [print]s read [.value] of cells and cannot raise. The method assigns
    to no attribute of the database. *)
Definition search_books (query : string) (context_level : Z)
    (self : BookMarketDB) : raised + list (gmap string pyval) :=
  if context_level <? SecurityLevel.PUBLIC then
    inl (Exn (SecurityException "Invalid security context for search"))
  else search_list query context_level (value (book_offers self)).

(** [handle_search(search_query)] on [global_db]. *)
Definition handle_search (query : string) (self : BookMarketDB)
  : raised + handled (list (gmap string pyval)) :=
  match search_books query SecurityLevel.PUBLIC self with
  | inr found => inr (Done found)
  | inl (Exn (SecurityException msg)) => inr (Failed msg)
  | inl e => inl e
  end.
End BookMarketSearch.
End BookMarketSearch.

(** *** [BookMarketplace.get_marketing_data] and [_infer_category] *)

Module MarketplaceMarketing.
Section MarketplaceMarketing.
Import Marketplace.
(** [str.lower]. *)
Variable lower : string → string.

(** [BookMarketplace._infer_category(offer)]. *)
Definition _infer_category (o : offer) : raised + string :=
  and_then (py_lower lower (title o)) (λ title,
  inr (if contains "programming" title || contains "code" title
          || contains "python" title then "Computer Science"
       else if contains "history" title then "History"
       else if contains "novel" title || contains "fiction" title
       then "Fiction"
       else "General")).

(** [customer["address"].split(",")[-1].strip()]. *)
Definition location (address : string) : string :=
  strip (last_field address).

Definition customer_location (address : pyval) : raised + pyval :=
  match address with
  | VStr a => inr (VStr (location a))
  | _ => inl (AttributeError "split")
  end.

(** The dict appended for a purchase of a customer who has opted in. *)
Definition marketing_entry (customer : gmap string pyval) (o : offer)
  : raised + gmap string pyval :=
  and_then (of_outcome (subscript customer "name")) (λ name,
  and_then (of_outcome (subscript customer "address")) (λ address,
  and_then (customer_location address) (λ place,
  and_then (_infer_category o) (λ category,
  inr ({[ "customer_name" := name;
          "customer_location" := place;
          "book_title" := title o;
          "book_author" := author o;
          "book_category" := VStr category ]} : gmap string pyval))))).

(** [customer.get("opt_in_marketing", False)], as the condition of an
    [if]. *)
Definition opted_in (customer : gmap string pyval) : bool :=
  py_truthy (default (VBool false) (customer !! "opt_in_marketing")).

(** The loop over [self.db.purchases.items()]. *)
Fixpoint marketing_of (self : BookMarketplace) (ps : list (Z * purchase))
  : raised + list (gmap string pyval) :=
  match ps with
  | [] => inr []
  | (_, p) :: ps =>
      match customers (db self) !! purchase_customer_id p with
      | None => inl (Exn (KeyError (VInt (purchase_customer_id p))))
      | Some customer =>
          if opted_in customer then
            match book_offers (db self) !! purchase_offer_id p with
            | None => inl (Exn (KeyError (VInt (purchase_offer_id p))))
            | Some o =>
                and_then (marketing_entry customer o) (λ entry,
                and_then (marketing_of self ps) (λ data,
                inr (entry :: data)))
            end
          else marketing_of self ps
      end
  end.

(** [BookMarketplace.get_marketing_data()]; it assigns to no attribute
    of the marketplace. *)
Definition get_marketing_data (self : BookMarketplace)
  : raised + list (gmap string pyval) :=
  marketing_of self (items_by_key (purchases (db self))).
End MarketplaceMarketing.
End MarketplaceMarketing.

(** ** States for the examples *)

(** A closed equation, checked by evaluation on the virtual machine. *)
Ltac by_vm :=
  lazymatch goal with |- ?x = ?y => exact (@eq_refl _ x <: x = y) end.

(** The platform of the demo with the first book on offer. *)
Definition demo_offered : @Platform.BookMarketPlatform string _ _ :=
  after Platform.step demo_platform
    [Platform.HandleOffer "bookstore" (Platform.New demo_book)].

(** A book offered with a price and nothing else. *)
Definition untitled_book : gmap string pyval := {[ "price" := VFloat 29.99 ]}.

Definition demo_untitled : @Platform.BookMarketPlatform string _ _ :=
  after Platform.step demo_platform
    [Platform.HandleOffer "bookstore" (Platform.New untitled_book)].

(** The marketplace of the test with its customers and vendors assigned. *)
Definition test_registered : Marketplace.BookMarketplace :=
  after Marketplace.step Marketplace.BookMarketplace_init
    [Marketplace.AssignCustomers test_customers;
     Marketplace.AssignVendors test_vendors].

(** The same with the first book on offer. *)
Definition test_offered : Marketplace.BookMarketplace :=
  after Marketplace.step test_registered
    [Marketplace.OfferHandler 1 test_book_info].

(** The first book of the test without its price. *)
Definition book_without_price : gmap string pyval :=
  delete "price" test_book_info.

(** A customer record without a name, and the marketplace with that
    customer and the first book on offer. *)
Definition nameless_customer : gmap string pyval :=
  {[ "address" := VStr "789 Pine Rd, Copenhagen" ]}.

Definition test_nameless : Marketplace.BookMarketplace :=
  after Marketplace.step Marketplace.BookMarketplace_init
    [Marketplace.AssignCustomers {[ 3 := nameless_customer ]};
     Marketplace.AssignVendors test_vendors;
     Marketplace.OfferHandler 1 test_book_info].

(** ** The test of [denning_and_denning/bookmarket.py] *)

(** [str] on the prices of [test_system], which print as they are
    written. *)
Definition test_float_str (f : float) : string :=
  if (f =? 29.99)%float then "29.99"
  else if (f =? 39.99)%float then "39.99"
  else if (f =? 49.99)%float then "49.99"
  else "".

(** [str.lower] on the letters of ASCII. *)
Definition ascii_lower_char (c : Ascii.ascii) : Ascii.ascii :=
  let n := Ascii.N_of_ascii c in
  if ((65 <=? n) && (n <=? 90))%N then Ascii.ascii_of_N (n + 32) else c.

Fixpoint ascii_lower (s : string) : string :=
  match s with
  | EmptyString => EmptyString
  | String c s => String (ascii_lower_char c) (ascii_lower s)
  end.

(** [str.isdigit] on the digits of ASCII. *)
Fixpoint all_digits (s : string) : bool :=
  match s with
  | EmptyString => true
  | String c s =>
      let n := Ascii.N_of_ascii c in
      ((48 <=? n) && (n <=? 57))%N && all_digits s
  end.

Definition ascii_isdigit (s : string) : bool :=
  negb (bool_decide (s = "")) && all_digits s.

(** The first offer of [test_system]. *)
Definition test_offer_data : gmap string pyval :=
  {[ "title" := VStr "Introduction to Logic";
     "author" := VStr "P. Suppes";
     "year" := VInt 2002;
     "publisher" := VStr "Academic Press";
     "condition" := VStr "new";
     "description" := VStr "A comprehensive introduction to logic";
     "price" := VFloat 29.99;
     "vendor_id" := VStr "v1" ]}.

(** The second one. *)
Definition test_offer_data2 : gmap string pyval :=
  {[ "title" := VStr "Security Engineering";
     "author" := VStr "R. Anderson";
     "year" := VInt 2020;
     "publisher" := VStr "Wiley";
     "condition" := VStr "new";
     "description" :=
       VStr "Guide to building dependable distributed systems";
     "price" := VFloat 49.99;
     "vendor_id" := VStr "v2" ]}.

(** The database of the module after the first offer. *)
Definition test_db : BookMarket.BookMarketDB :=
  after (BookMarket.step test_float_str) BookMarket.BookMarketDB_init
    [BookMarket.HandleOffer test_offer_data].

(** The same after the purchase of the book and a call that sets its
    public view back to [True]: the real status and the view differ. *)
Definition test_db_out_of_sync : BookMarket.BookMarketDB :=
  after (BookMarket.step test_float_str) BookMarket.BookMarketDB_init
    [BookMarket.HandleOffer test_offer_data;
     BookMarket.HandlePurchase "book_1" "c1" (VFloat 29.99);
     BookMarket.UpdateAvailabilityView 0 true SecurityLevel.PLATFORM].

(** The offer of that database: sold, and in view. *)
Definition test_offer_out_of_sync : BookMarket.labeled_offer :=
  BookMarket.mkOffer
    (BookMarket.public "book_1")
    (BookMarket.public (VStr "Introduction to Logic"))
    (BookMarket.public (VStr "P. Suppes"))
    (BookMarket.public (VInt 2002))
    (BookMarket.public (VStr "Academic Press"))
    (BookMarket.public (VStr "new"))
    (BookMarket.public (VStr "A comprehensive introduction to logic"))
    (BookMarket.public (VFloat 29.99))
    (BookMarket.public (VStr "v1"))
    (BookMarket.public true)
    (mkSecureVariable false SecurityLevel.PLATFORM).

(** * Properties *)

(** ** The label order and the lattice operations *)

Section LabelLaws.
Context {Principal : Type} {Principal_eq : EqDecision Principal}
        {Principal_countable : Countable Principal}.
Implicit Types a b c S T L : SecurityLabel Principal.

Lemma flows_to_spec S T :
  flows_to S T = true ↔ owners T ⊆ owners S ∧ readers S ⊆ readers T.
Proof.
  unfold flows_to. rewrite andb_true_iff, !bool_decide_eq_true. done.
Qed.

Lemma label_eq a b : owners a = owners b → readers a = readers b → a = b.
Proof. destruct a, b; simpl; congruence. Qed.

(** C4: [flows_to] is the stated order on decentralized labels, and
    [can_flow] is [<=] on clearance levels. *)
Theorem flows_to_is_the_stated_order :
  (∀ S T, flows_to S T = true
          ↔ owners T ⊆ owners S ∧ readers S ⊆ readers T)
  ∧ (∀ s t : Z, SecurityLevel.can_flow s t = true ↔ s ≤ t).
Proof.
  split.
  - apply flows_to_spec.
  - intros s t. unfold SecurityLevel.can_flow. apply Z.leb_le.
Qed.

(** C5: [join] intersects the owners and unites the readers, so its
    readers contain those of both arguments and coincide with the
    intersection of the two reader sets only when these are equal;
    [meet] unites the owners and intersects the readers. *)
Theorem join_meet_components a b :
  owners (join a b) = owners a ∩ owners b
  ∧ readers (join a b) = readers a ∪ readers b
  ∧ readers a ⊆ readers (join a b)
  ∧ readers b ⊆ readers (join a b)
  ∧ (readers (join a b) = readers a ∩ readers b ↔ readers a = readers b)
  ∧ owners (meet a b) = owners a ∪ owners b
  ∧ readers (meet a b) = readers a ∩ readers b.
Proof.
  simpl. repeat split; try set_solver.
Qed.

(** C7: the lattice laws of the decentralized labels. *)
Theorem label_lattice_laws :
  (∀ a, flows_to a a = true)
  ∧ (∀ a b c, flows_to a b = true → flows_to b c = true → flows_to a c = true)
  ∧ (∀ a b, join a b = join b a)
  ∧ (∀ a b c, join a (join b c) = join (join a b) c)
  ∧ (∀ a, join a a = a)
  ∧ (∀ a b, meet a b = meet b a)
  ∧ (∀ a b c, meet a (meet b c) = meet (meet a b) c)
  ∧ (∀ a, meet a a = a)
  ∧ (∀ a b, flows_to a (join a b) = true ∧ flows_to b (join a b) = true)
  ∧ (∀ a b, flows_to (meet a b) a = true ∧ flows_to (meet a b) b = true).
Proof.
  repeat apply conj.
  - intros a. apply flows_to_spec. done.
  - intros a b c [? ?]%flows_to_spec [? ?]%flows_to_spec.
    apply flows_to_spec. split; etrans; eauto.
  - intros a b. apply label_eq; simpl; set_solver.
  - intros a b c. apply label_eq; simpl; set_solver.
  - intros a. apply label_eq; simpl; set_solver.
  - intros a b. apply label_eq; simpl; set_solver.
  - intros a b c. apply label_eq; simpl; set_solver.
  - intros a. apply label_eq; simpl; set_solver.
  - intros a b. split; apply flows_to_spec; simpl; set_solver.
  - intros a b. split; apply flows_to_spec; simpl; set_solver.
Qed.

(** C2: the declassification gate. A request by [P] for the readers [R]
    returns exactly when [P] is an owner; it then returns a label with
    the owners of [L] and the readers [R]; otherwise it raises the
    [SecurityException] of the refusal; [L] itself is as before. *)
Theorem declassify_gate (show : Principal → string) L (P : Principal)
    (R : gset Principal) :
  (is_Return (declassify show L P (Some R)).1 = true ↔ P ∈ owners L)
  ∧ (P ∈ owners L →
     ∃ L', (declassify show L P (Some R)).1 = Return L'
           ∧ owners L' = owners L ∧ readers L' = R)
  ∧ (P ∉ owners L →
     (declassify show L P (Some R)).1
     = Raise (SecurityException (declassify_msg show P)))
  ∧ (declassify show L P (Some R)).2 = L.
Proof.
  unfold declassify. case_bool_decide as HP; simpl.
  - repeat split; try done. intros _. eexists. done.
  - repeat split; try done.
Qed.

(** Without [new_readers] the gate returns a copy of the label. *)
Lemma declassify_default_readers (show : Principal → string) L (P : Principal) :
  P ∈ owners L → declassify show L P None = (Return L, L).
Proof.
  intros HP. unfold declassify. rewrite bool_decide_eq_true_2 by done.
  by destruct L.
Qed.
End LabelLaws.

(** C3: consent of one owner is enough for the gate. On the label owned
    by [Customer1] a request by [Customer1] returns, and on the label owned
    by [Mediator] it raises; but on a label owned by both [Customer1] and
    [Vendor1] the request by [Customer1] alone returns as well, although
    the owner [Vendor1] took no part in it. *)
Theorem declassify_by_one_of_two_owners :
  let R : gset string := {["Customer1"; "Vendor1"; "Mediator"]} in
  let own1 : SecurityLabel string := mkLabel {["Customer1"]} {["Customer1"]} in
  let med : SecurityLabel string := mkLabel {["Mediator"]} {["Mediator"]} in
  let both : SecurityLabel string :=
    mkLabel {["Customer1"; "Vendor1"]} {["Customer1"]} in
  (declassify id own1 "Customer1" (Some R)).1 = Return (mkLabel (owners own1) R)
  ∧ (declassify id med "Customer1" (Some R)).1
    = Raise (SecurityException "Principal Customer1 not authorized to declassify")
  ∧ "Vendor1" ∈ owners both
  ∧ (declassify id both "Customer1" (Some R)).1 = Return (mkLabel (owners both) R).
Proof.
  cbv zeta. unfold declassify. simpl owners.
  split; [|split; [|split]].
  - rewrite bool_decide_eq_true_2 by set_solver. done.
  - rewrite bool_decide_eq_false_2 by set_solver. done.
  - set_solver.
  - rewrite bool_decide_eq_true_2 by set_solver. done.
Qed.

(** ** The labelled cell *)

(** C1: no read-up. [get_value] returns the stored value exactly when the
    level of the cell is at most the level of the context, raises the
    [SecurityException] of the violation otherwise, and in both cases
    leaves the cell, its value and its level, as it was. *)
Theorem get_value_no_read_up {A} (cell : SecureVariable A) (C : Z) :
  ((get_value cell C).1 = Return (value cell) ↔ security_level cell ≤ C)
  ∧ (is_Return (get_value cell C).1 = true ↔ security_level cell ≤ C)
  ∧ (¬ security_level cell ≤ C ↔
     (get_value cell C).1
     = Raise (SecurityException (access_msg (security_level cell) C)))
  ∧ (get_value cell C).2 = cell.
Proof.
  unfold get_value, SecurityLevel.can_flow.
  destruct (Z.leb_spec (security_level cell) C); simpl.
  - repeat split; try done; try lia.
  - repeat split; try done; try lia.
Qed.

(** C6: the write contract. [set_value] returns, with the value replaced
    by [v], exactly when both the source level and the context level are
    at most the level of the cell; otherwise it raises the
    [SecurityException] of the violation and the cell is as before; the
    level of the cell is the same in every case. *)
Theorem set_value_contract {A} (cell : SecureVariable A) (v : A) (s c : Z) :
  (is_Return (set_value cell v s c).1 = true
   ↔ s ≤ security_level cell ∧ c ≤ security_level cell)
  ∧ (s ≤ security_level cell ∧ c ≤ security_level cell →
     set_value cell v s c
     = (Return tt, mkSecureVariable v (security_level cell)))
  ∧ (¬ (s ≤ security_level cell ∧ c ≤ security_level cell) →
     set_value cell v s c
     = (Raise (SecurityException (assign_msg s (security_level cell) c)), cell))
  ∧ security_level (set_value cell v s c).2 = security_level cell.
Proof.
  unfold set_value, SecurityLevel.can_flow.
  destruct (Z.leb_spec s (security_level cell));
    destruct (Z.leb_spec c (security_level cell)); simpl;
    repeat split; try done; try lia.
Qed.

(** ** Refused purchases *)

(** Unfolding the calls of a handler down to pairs of outcome and object. *)
Ltac unfold_method :=
  unfold map_result, bind, gets, modify, ret, eval, raise in *.

(** Facts on subscripts, results and new dicts that the proofs share. *)
Lemma subscript_Return (d : gmap string pyval) f v :
  subscript d f = Return v ↔ d !! f = Some v.
Proof. unfold subscript. destruct (d !! f); split; congruence. Qed.

Lemma subscript_Raise (d : gmap string pyval) f e :
  subscript d f = Raise e ↔ d !! f = None ∧ e = KeyError (VStr f).
Proof.
  unfold subscript. destruct (d !! f); split; try done.
  - by intros [? _].
  - by intros [= <-].
  - by intros [_ ->].
Qed.

Lemma map_result_state {S A B} (f : A → B) (m : method S A) (x : S) :
  (map_result f m x).2 = (m x).2.
Proof. unfold map_result. unfold_method. by destruct (m x) as [[?|?] ?]. Qed.

Lemma lookup_new_dict {A} (h : list A) d :
  (h ++ [d])%list !! length h = Some d.
Proof. by rewrite lookup_app_r, Nat.sub_diag by lia. Qed.

Section PlatformPurchase.
Context {Principal : Type} {Principal_eq : EqDecision Principal}
        {Principal_countable : Countable Principal}.
Implicit Types s : @Platform.BookMarketPlatform Principal _ _.
Import Platform.

Lemma first_owner_elem (l : SecurityLabel Principal) p :
  first_owner l = Return p → p ∈ owners l.
Proof.
  unfold first_owner. destruct (elements (owners l)) as [|q qs] eqn:He; [done|].
  intros [= <-]. apply elem_of_elements. rewrite He. left.
Qed.

Lemma first_owner_empty (l : SecurityLabel Principal) :
  first_owner l = Raise IndexError ↔ owners l = ∅.
Proof.
  unfold first_owner. destruct (elements (owners l)) as [|q qs] eqn:He.
  - split; [|done]. intros _. by apply elements_empty_inv, leibniz_equiv in He.
  - split; [done|]. intros Ho. rewrite Ho, elements_empty in He. done.
Qed.

Ltac purchase_cases :=
  unfold handle_purchase, mark_sold, on_db, add_purchase, new_dict, getitem;
  unfold_method; cbn.

(** The platform after [handle_purchase], whatever its outcome. *)
Lemma handle_purchase_updates s cid k p :
  (handle_purchase cid k p s).2 = s
  ∨ ∃ ci b v vi cp vp,
      purchase_checked s cid k p ci b v vi cp vp
      ∧ (handle_purchase cid k p s).2 = after_purchase s cid k v p cp vp.
Proof.
  unfold purchase_checked, lookup_book. purchase_cases.
  destruct (customers (db s) !! cid) as [ci|] eqn:Hc; [|by left].
  destruct (books (db s) !! k) as [b|] eqn:Hb; [|by left].
  case_bool_decide as Hst; [by left|].
  destruct (subscript (dict_at s (book_data b)) "price") as [pr|] eqn:Hpr;
    [|by left].
  destruct (py_ne pr p) eqn:Hne; [by left|].
  destruct (subscript (dict_at s (book_data b)) "vendor_id") as [v|] eqn:Hvid;
    [|by left].
  destruct (vendors_subscript (vendors (db s)) v) as [vi|] eqn:Hvi; [|by left].
  destruct (first_owner (customer_label ci)) as [cp|] eqn:Hcp; [|by left].
  destruct (first_owner (vendor_label vi)) as [vp|] eqn:Hvp; [|by left].
  apply subscript_Return in Hpr, Hvid.
  right. exists ci, b, v, vi, cp, vp.
  split; [by eauto 10|].
  unfold after_purchase, purchase_dict. cbn.
  repeat (case_match; simplify_eq/=); done.
Qed.

Lemma handle_purchase_key s cid k p a :
  (handle_purchase cid k p s).1 = Return (Accepted a) →
  purchase_id a = purchase_counter s
  ∧ ∃ ci b v vi cp vp,
      purchase_checked s cid k p ci b v vi cp vp
      ∧ (handle_purchase cid k p s).2 = after_purchase s cid k v p cp vp.
Proof.
  intros Ha.
  destruct (handle_purchase_updates s cid k p) as [Hs|Hs].
  { exfalso. revert Ha Hs. purchase_cases.
    repeat (case_match; simplify_eq/=); try done.
    all: intros _ Hs; apply (f_equal (λ s, next_purchase_id (db s))) in Hs;
      simpl in Hs; lia. }
  split; [|done]. revert Ha. purchase_cases.
  repeat (case_match; simplify_eq/=); try done.
  all: by intros [= <-].
Qed.

Lemma handle_purchase_refusal s cid bid p msg :
  purchase_refused s cid bid p msg →
  handle_purchase cid bid p s = (Return (Rejected msg), s).
Proof.
  unfold handle_purchase, getitem. unfold_method.
  destruct 1 as [Hc|[ci Hc] Hb|b [ci Hc] Hb Hs|b pr [ci Hc] Hb Hs Hp Hne];
    unfold lookup_book in *; rewrite Hc; try rewrite Hb; try done.
  - rewrite bool_decide_eq_true_2 by done. done.
  - rewrite bool_decide_eq_false_2 by (intros ?; done).
    unfold subscript. rewrite Hp, Hne. done.
Qed.

Lemma handle_purchase_rejected s s' cid bid p msg :
  handle_purchase cid bid p s = (Return (Rejected msg), s') →
  purchase_refused s cid bid p msg ∧ s' = s.
Proof.
  unfold handle_purchase, getitem. unfold_method.
  destruct (customers (db s) !! cid) as [ci|] eqn:Hc.
  2: { intros [= <- <-]. split; [by constructor|done]. }
  destruct (books (db s) !! bid) as [bi|] eqn:Hb.
  2: { intros [= <- <-]. split; [by constructor|done]. }
  case_bool_decide as Hs.
  { intros [= <- <-]. split; [by econstructor|done]. }
  unfold subscript at 1.
  destruct (dict_at s (book_data bi) !! "price") as [pr|] eqn:Hp; [|done].
  destruct (py_ne pr p) eqn:Hne.
  { intros [= <- <-]. split; [by econstructor|done]. }
  unfold mark_sold, on_db, add_purchase, new_dict. unfold_method. cbn.
  repeat (case_match; try congruence).
Qed.
End PlatformPurchase.

Section MarketplacePurchase.
Import Marketplace.
Implicit Types s : BookMarketplace.

Lemma purchase_handler_refusal s cid oid p msg :
  purchase_refused s cid oid p msg →
  purchase_handler cid oid p s = (Return (Rejected msg), s).
Proof.
  unfold purchase_handler. unfold_method.
  destruct 1 as [Hc|[ci Hc] Ho|o [ci Hc] Ho Ha|o [ci Hc] Ho Ha Hne];
    unfold lookup_offer in *; rewrite Hc; try rewrite Ho; try done.
  - rewrite Ha. done.
  - rewrite Ha, Hne. done.
Qed.

Lemma purchase_handler_rejected s s' cid oid p msg :
  purchase_handler cid oid p s = (Return (Rejected msg), s') →
  purchase_refused s cid oid p msg ∧ s' = s.
Proof.
  unfold purchase_handler. unfold_method.
  destruct (customers (db s) !! cid) as [ci|] eqn:Hc.
  2: { intros [= <- <-]. split; [by constructor|done]. }
  destruct (book_offers (db s) !! oid) as [o|] eqn:Ho.
  2: { intros [= <- <-]. split; [by constructor|done]. }
  destruct (available o) eqn:Ha; simpl.
  2: { intros [= <- <-]. split; [by econstructor|done]. }
  destruct (py_ne (price o) p) eqn:Hne.
  { intros [= <- <-]. split; [by econstructor|done]. }
  unfold mark_sold. unfold_method. cbn.
  repeat (case_match; try congruence).
Qed.
End MarketplacePurchase.

(** C10: a purchase that returns an unsuccessful reply leaves the store as
    it was. In both stores the handler returns the reply [Rejected msg]
    exactly on one of its grounds of refusal (unknown customer, unknown or
    unavailable book, price mismatch), and the object after the call is
    then the object before it: no status, no purchase record and no
    counter has changed. *)
Theorem refused_purchase_changes_nothing :
  (∀ (Principal : Type) (Principal_eq : EqDecision Principal)
     (Principal_countable : Countable Principal)
     (s s' : @Platform.BookMarketPlatform Principal _ _) cid bid p msg,
      Platform.handle_purchase cid bid p s = (Return (Rejected msg), s')
      ↔ Platform.purchase_refused s cid bid p msg ∧ s' = s)
  ∧ (∀ (s s' : Marketplace.BookMarketplace) cid oid p msg,
      Marketplace.purchase_handler cid oid p s = (Return (Rejected msg), s')
      ↔ Marketplace.purchase_refused s cid oid p msg ∧ s' = s).
Proof.
  split; intros.
  - split; [apply handle_purchase_rejected|].
    intros [? ->]. by apply handle_purchase_refusal.
  - split; [apply purchase_handler_rejected|].
    intros [? ->]. by apply purchase_handler_refusal.
Qed.


(** ** The error channel of a purchase *)

Section PlatformErrorChannel.
Context {Principal : Type} {Principal_eq : EqDecision Principal}
        {Principal_countable : Countable Principal}.
Implicit Types s : @Platform.BookMarketPlatform Principal _ _.
Import Platform.

Lemma book_unavailable_status s k st :
  status <$> lookup_book s k = Some st →
  st ≠ "available" → book_unavailable k s.
Proof.
  intros Hst Hne. destruct (lookup_book s k) as [b|] eqn:Hb; [|done].
  exists b. split; [done|]. by injection Hst as ->.
Qed.

Lemma handle_purchase_absent s cid p k :
  is_Some (customers (db s) !! cid) → book_absent k s →
  handle_purchase cid k p s = (Return (Rejected "Book not found"), s).
Proof. intros. apply handle_purchase_refusal. by constructor. Qed.

Lemma handle_purchase_unavailable s cid p k :
  is_Some (customers (db s) !! cid) → book_unavailable k s →
  handle_purchase cid k p s = (Return (Rejected "Book is not available"), s).
Proof.
  intros ? [b [? ?]]. apply handle_purchase_refusal. by econstructor.
Qed.

Lemma handle_purchase_distinguishes s cid p k1 k2 :
  is_Some (customers (db s) !! cid) →
  book_absent k1 s → book_unavailable k2 s →
  handle_purchase cid k1 p s ≠ handle_purchase cid k2 p s.
Proof.
  intros Hc Ha Hu.
  rewrite handle_purchase_absent, handle_purchase_unavailable by done.
  discriminate.
Qed.
End PlatformErrorChannel.

(** C8, as stated, fails on the labelled platform: after the demo's offer
    and purchase, the registered customer [alice] is refused the sold
    book 1 with [Book is not available] and book 2, which does not exist,
    with [Book not found], so the two purchases do not fail alike. *)
Lemma platform_purchase_tells_absent_from_unavailable :
  ¬ fails_alike Platform.book_absent Platform.book_unavailable
      (λ k, Platform.handle_purchase (Principal := string)
              "alice" k (VFloat 29.99)).
Proof.
  intros Hf.
  assert (Hc : is_Some (Platform.customers (Platform.db demo_sold) !! "alice")).
  { apply (fmap_is_Some Platform.marketing_opt_in). exists false.
    vm_compute. reflexivity. }
  assert (Ha : Platform.book_absent 2 demo_sold) by (vm_compute; reflexivity).
  assert (Hu : Platform.book_unavailable 1 demo_sold).
  { apply (book_unavailable_status _ _ "sold"); [|discriminate].
    vm_compute. reflexivity. }
  exact (handle_purchase_distinguishes demo_sold "alice" (VFloat 29.99) 2 1
           Hc Ha Hu (Hf demo_sold 2 1 Ha Hu)).
Qed.

(** C8, amended: [purchase_handler] of the unlabelled marketplace fails
    alike on an absent and on an unavailable offer, the store unchanged:
    with [Book offer not available] for a registered customer and with
    [Customer not found] for any other; [handle_purchase] of the
    labelled platform refuses a registered customer with
    [Book not found] on an absent book and with [Book is not available]
    on an unavailable one, the store unchanged in both cases. *)
Theorem purchase_error_channel :
  (∀ (s : Marketplace.BookMarketplace) cid p k1 k2,
     Marketplace.offer_absent k1 s →
     Marketplace.offer_unavailable k2 s →
     (is_Some (Marketplace.customers (Marketplace.db s) !! cid) →
      Marketplace.purchase_handler cid k1 p s
      = (Return (Rejected "Book offer not available"), s)
      ∧ Marketplace.purchase_handler cid k2 p s
        = (Return (Rejected "Book offer not available"), s))
     ∧ (Marketplace.customers (Marketplace.db s) !! cid = None →
        Marketplace.purchase_handler cid k1 p s
        = (Return (Rejected "Customer not found"), s)
        ∧ Marketplace.purchase_handler cid k2 p s
          = (Return (Rejected "Customer not found"), s)))
  ∧ (∀ cid p,
       fails_alike Marketplace.offer_absent Marketplace.offer_unavailable
         (λ k, Marketplace.purchase_handler cid k p))
  ∧ (∀ (Principal : Type) (Principal_eq : EqDecision Principal)
       (Principal_countable : Countable Principal)
       (s : @Platform.BookMarketPlatform Principal _ _) cid p k1 k2,
       is_Some (Platform.customers (Platform.db s) !! cid) →
       Platform.book_absent k1 s →
       Platform.book_unavailable k2 s →
       Platform.handle_purchase cid k1 p s
       = (Return (Rejected "Book not found"), s)
       ∧ Platform.handle_purchase cid k2 p s
         = (Return (Rejected "Book is not available"), s)).
Proof.
  assert (Hm : ∀ (s : Marketplace.BookMarketplace) cid p k1 k2,
     Marketplace.offer_absent k1 s →
     Marketplace.offer_unavailable k2 s →
     (is_Some (Marketplace.customers (Marketplace.db s) !! cid) →
      Marketplace.purchase_handler cid k1 p s
      = (Return (Rejected "Book offer not available"), s)
      ∧ Marketplace.purchase_handler cid k2 p s
        = (Return (Rejected "Book offer not available"), s))
     ∧ (Marketplace.customers (Marketplace.db s) !! cid = None →
        Marketplace.purchase_handler cid k1 p s
        = (Return (Rejected "Customer not found"), s)
        ∧ Marketplace.purchase_handler cid k2 p s
          = (Return (Rejected "Customer not found"), s))).
  { intros s cid p k1 k2 Ha [o [Ho Hav]]. split.
    - intros Hc. split; apply purchase_handler_refusal.
      + by constructor.
      + by econstructor.
    - intros Hc. split; apply purchase_handler_refusal; by constructor. }
  split; [exact Hm|]. split.
  - intros cid p s k1 k2 Ha Hu.
    destruct (Hm s cid p k1 k2 Ha Hu) as [Hreg Hnot].
    destruct (Marketplace.customers (Marketplace.db s) !! cid) as [c|] eqn:Hc.
    + destruct Hreg as [-> ->]; [by eexists|done].
    + destruct Hnot as [-> ->]; done.
  - intros ??? s cid p k1 k2 Hc Ha Hu. split.
    + by apply handle_purchase_absent.
    + by apply handle_purchase_unavailable.
Qed.

(** ** Keys of a store that hands them out from a counter *)

Section KeyedStoreLaws.
Context {S C A R : Type}.
Variable step : C → method S A.
Variable key_of : C * outcome A → option Z.
Variable counter : S → Z.
Variable lookup : S → Z → option R.
Variable same : R → R → Prop.
Variable inv : S → Prop.

Hypothesis inv_step : ∀ c s, inv s → inv (step c s).2.
Hypothesis inv_below : ∀ s k r, inv s → lookup s k = Some r → k < counter s.
Hypothesis counter_step : ∀ c s, counter s ≤ counter (step c s).2.
Hypothesis key_step : ∀ c s k,
  key_of (c, (step c s).1) = Some k →
  k = counter s ∧ counter s < counter (step c s).2.
Hypothesis same_refl : ∀ r, same r r.
Hypothesis same_trans : ∀ r1 r2 r3, same r1 r2 → same r2 r3 → same r1 r3.
Hypothesis persist_step : ∀ c s k r,
  inv s → lookup s k = Some r →
  ∃ r', lookup (step c s).2 k = Some r' ∧ same r r'.

Lemma run_cons c calls s :
  run step (c :: calls) s
  = ((c, (step c s).1) :: (run step calls (step c s).2).1,
     (run step calls (step c s).2).2).
Proof.
  simpl. destruct (step c s) as [r s1]. simpl.
  destruct (run step calls s1). done.
Qed.

Lemma after_cons s c calls :
  after step s (c :: calls) = after step (step c s).2 calls.
Proof. unfold after. rewrite run_cons. done. Qed.

Lemma outcomes_cons s c calls :
  outcomes step s (c :: calls)
  = (c, (step c s).1) :: outcomes step (step c s).2 calls.
Proof. unfold outcomes. rewrite run_cons. done. Qed.

Lemma after_app s pre calls :
  after step s (pre ++ calls) = after step (after step s pre) calls.
Proof.
  revert s. induction pre as [|c pre IH]; intros s; [done|].
  rewrite <- app_comm_cons, !after_cons. apply IH.
Qed.

Lemma after_inv s calls : inv s → inv (after step s calls).
Proof.
  revert s. induction calls as [|c calls IH]; intros s Hs; [done|].
  rewrite after_cons. apply IH, inv_step, Hs.
Qed.

Lemma after_counter s calls : counter s ≤ counter (after step s calls).
Proof.
  revert s. induction calls as [|c calls IH]; intros s; [done|].
  rewrite after_cons. etrans; [apply (counter_step c)|apply IH].
Qed.

Lemma outcomes_below s calls k :
  k ∈ omap key_of (outcomes step s calls) →
  counter s ≤ k < counter (after step s calls).
Proof.
  revert s. induction calls as [|c calls IH]; intros s.
  - unfold outcomes. simpl. intros Hk. by apply elem_of_nil in Hk.
  - rewrite outcomes_cons, after_cons. simpl.
    pose proof (counter_step c s).
    pose proof (after_counter (step c s).2 calls).
    destruct (key_of (c, (step c s).1)) as [k'|] eqn:Hk'.
    + apply key_step in Hk' as [-> ?].
      intros [->|Hk]%elem_of_cons; [lia|]. apply IH in Hk. lia.
    + intros Hk. apply IH in Hk. lia.
Qed.

Lemma after_persists s calls k r :
  inv s → lookup s k = Some r →
  ∃ r', lookup (after step s calls) k = Some r' ∧ same r r'.
Proof.
  revert s r. induction calls as [|c calls IH]; intros s r Hs Hk.
  - exists r. done.
  - rewrite after_cons.
    destruct (persist_step c s k r Hs Hk) as [r1 [Hk1 Hr1]].
    destruct (IH _ r1 (inv_step c s Hs) Hk1) as [r2 [Hk2 Hr2]].
    exists r2. eauto.
Qed.

Lemma keyed_store s0 :
  inv s0 →
  keys_are_fresh step key_of counter lookup s0
  ∧ counter_is_monotone step counter s0
  ∧ keys_are_not_reassigned step lookup same s0.
Proof.
  intros H0. split; [|split].
  - intros pre c k Hk. apply key_step in Hk as [-> Hlt].
    split; [|split; [|done]].
    + destruct (lookup (after step s0 pre) (counter (after step s0 pre)))
        as [r|] eqn:Hr; [|done].
      apply inv_below in Hr; [lia|]. by apply after_inv.
    + intros Hin. apply outcomes_below in Hin. lia.
  - intros pre c. apply counter_step.
  - intros pre calls k r Hk. rewrite after_app.
    apply after_persists; [by apply after_inv|done].
Qed.
End KeyedStoreLaws.

(** *** The books and the purchases of the labelled platform *)

Section PlatformKeys.
Context {Principal : Type} {Principal_eq : EqDecision Principal}
        {Principal_countable : Countable Principal}.
Implicit Types s : @Platform.BookMarketPlatform Principal _ _.
Import Platform.

Ltac run_step :=
  unfold step, handle_offer, handle_purchase, set_marketing_opt_in,
    mark_sold, on_db, add_customer, add_vendor, add_book, add_purchase,
    pass, new_dict, getitem, setitem;
  unfold_method; cbn.

Lemma step_book_effect c s : book_effect s (step c s).2.
Proof.
  destruct c; run_step; repeat (case_match; simplify_eq/=);
    first [ by apply books_kept | by eapply book_added | by eapply book_sold ].
Qed.

Lemma step_purchase_effect c s : purchase_effect s (step c s).2.
Proof.
  destruct c; run_step; repeat (case_match; simplify_eq/=);
    first [ by apply purchases_kept | by eapply purchase_added ].
Qed.

Lemma step_book_counter c s : book_counter s ≤ book_counter (step c s).2.
Proof. destruct (step_book_effect c s); lia. Qed.

Lemma step_purchase_counter c s :
  purchase_counter s ≤ purchase_counter (step c s).2.
Proof. destruct (step_purchase_effect c s); lia. Qed.

Lemma step_book_key c s k :
  book_key (c, (step c s).1) = Some k →
  k = book_counter s ∧ book_counter s < book_counter (step c s).2.
Proof.
  destruct c; simpl; try done; run_step;
    repeat (case_match; simplify_eq/=); try done;
    intros; simplify_eq/=; unfold book_counter; simpl; lia.
Qed.

Lemma step_purchase_key c s k :
  purchase_key (c, (step c s).1) = Some k →
  k = purchase_counter s
  ∧ purchase_counter s < purchase_counter (step c s).2.
Proof.
  destruct c; simpl; try done; run_step;
    repeat (case_match; simplify_eq/=); try done;
    intros; simplify_eq/=; unfold purchase_counter; simpl; lia.
Qed.

Lemma step_keys_below c s :
  keys_below_counter s → keys_below_counter (step c s).2.
Proof.
  intros [Hb Hp].
  destruct (step_book_effect c s) as [Eb Nb|b Eb Nb|k Eb Nb];
    destruct (step_purchase_effect c s) as [Ep Np|p Ep Np];
    unfold keys_below_counter, book_counter, purchase_counter in *;
    rewrite Eb, Ep, Nb, Np; split; intros k';
    rewrite ?dom_insert, ?dom_alter, ?elem_of_union, ?elem_of_singleton;
    intros; destruct_or?; subst; try lia;
    first [ specialize (Hb _ ltac:(eassumption))
          | specialize (Hp _ ltac:(eassumption)) ]; lia.
Qed.

Lemma book_below_counter s k b :
  keys_below_counter s → lookup_book s k = Some b → k < book_counter s.
Proof. intros [Hb _] Hk. apply Hb, elem_of_dom. by exists b. Qed.

Lemma purchase_below_counter s k p :
  keys_below_counter s → lookup_purchase s k = Some p →
  k < purchase_counter s.
Proof. intros [_ Hp] Hk. apply Hp, elem_of_dom. by exists p. Qed.

Lemma step_book_persists c s k b :
  keys_below_counter s → lookup_book s k = Some b →
  ∃ b', lookup_book (step c s).2 k = Some b' ∧ same_book b b'.
Proof.
  intros Hs Hk. pose proof (book_below_counter s k b Hs Hk).
  unfold lookup_book in *.
  destruct (step_book_effect c s) as [Eb Nb|b0 Eb Nb|k0 Eb Nb]; rewrite Eb.
  - exists b. done.
  - exists b. rewrite lookup_insert_ne by lia. done.
  - destruct (decide (k0 = k)) as [->|].
    + exists (sold b). rewrite lookup_alter_eq, Hk. done.
    + exists b. rewrite lookup_alter_ne by done. done.
Qed.

Lemma step_purchase_persists c s k p :
  keys_below_counter s → lookup_purchase s k = Some p →
  ∃ p', lookup_purchase (step c s).2 k = Some p' ∧ p = p'.
Proof.
  intros Hs Hk. pose proof (purchase_below_counter s k p Hs Hk).
  unfold lookup_purchase in *.
  destruct (step_purchase_effect c s) as [Ep Np|p0 Ep Np]; rewrite Ep.
  - exists p. done.
  - exists p. rewrite lookup_insert_ne by lia. done.
Qed.

Lemma same_book_trans (b1 b2 b3 : @book_entry Principal _ _) :
  same_book b1 b2 → same_book b2 b3 → same_book b1 b3.
Proof. intros [? ?] [? ?]. split; congruence. Qed.

Lemma init_keys_below (m a b bs rb : Principal) :
  keys_below_counter (BookMarketPlatform_init m a b bs rb).
Proof. split; intros k; simpl; rewrite dom_empty; set_solver. Qed.

Lemma step_book_stored c s k :
  book_key (c, (step c s).1) = Some k →
  ∃ b, lookup_book (step c s).2 k = Some b ∧ book_stored c s (step c s).2 b.
Proof.
  destruct c as [| |a l| |v a| |]; simpl; try done.
  - destruct a as [d|ref]; run_step; intros [= <-]; eexists;
      unfold lookup_book; simpl; rewrite lookup_insert_eq;
      (split; [done|]); (split; [done|]); simpl.
    + apply lookup_new_dict.
    + done.
  - destruct a as [d|ref]; run_step.
    all: destruct (vendors (db s) !! v) as [vi|] eqn:Hv; [|done].
    all: destruct (first_owner (vendor_label vi)) as [p|] eqn:Hp; [|done].
    all: cbn; intros [= <-]; eexists; unfold lookup_book; simpl;
      rewrite lookup_insert_eq; (split; [done|]); simpl; split.
    1,3: exists vi, p; split; [done|]; split;
      [by apply first_owner_elem|done].
    + by rewrite list_lookup_alter_eq, lookup_new_dict.
    + by rewrite list_lookup_alter_eq.
Qed.

Lemma step_purchase_stored c s k :
  purchase_key (c, (step c s).1) = Some k →
  ∃ e, lookup_purchase (step c s).2 k = Some e
       ∧ purchase_stored c s (step c s).2 e.
Proof.
  destruct c as [| | |a l| |cid bid p|]; simpl; try done.
  - destruct a as [d|ref]; run_step; intros [= <-]; eexists;
      unfold lookup_purchase; simpl; rewrite lookup_insert_eq;
      (split; [done|]); (split; [done|]); simpl.
    + apply lookup_new_dict.
    + done.
  - unfold map_result, bind, ret.
    destruct (handle_purchase cid bid p s) as [[[msg|a]|e] s1] eqn:Hh;
      try done.
    simpl. intros [= <-].
    assert (H1 : (handle_purchase cid bid p s).1 = Return (Accepted a))
      by (by rewrite Hh).
    destruct (handle_purchase_key s cid bid p a H1)
      as (-> & ci & b & v & vi & cp & vp & Hchk & Hs).
    rewrite Hh in Hs. simpl in Hs. subst s1.
    destruct Hchk as (Hc & Hb & _ & _ & Hv & Hvi & Hcp & Hvp).
    eexists. unfold lookup_purchase, purchase_counter. simpl.
    rewrite lookup_insert_eq. split; [done|].
    exists b, ci, v, vi, cp, vp.
    repeat (split; [first [done | by apply first_owner_elem]|]).
    apply lookup_new_dict.
Qed.

Lemma step_dicts_effect c s : dicts_effect c s (step c s).2.
Proof.
  intros ref d Hd.
  assert (Happ : ∀ d', (dicts s ++ [d'])%list !! ref = Some d).
  { intros d'. by apply lookup_app_l_Some. }
  pose proof (lookup_lt_Some _ _ _ Hd) as Hlt.
  destruct c as [i a l|i a l|a l|a l|v a|cid bid p|cid o].
  1-4: left; destruct a; run_step; done.
  - destruct a as [d'|ref']; run_step.
    all: destruct (vendors (db s) !! v) as [vi|];
      [|left; simpl; first [done|apply Happ]].
    all: destruct (first_owner (vendor_label vi)) as [p|];
      [|left; simpl; first [done|apply Happ]].
    all: cbn.
    + left. rewrite list_lookup_alter_ne by lia. apply Happ.
    + destruct (decide (ref' = ref)) as [->|Hne].
      * right. exists v. split; [done|].
        by rewrite list_lookup_alter_eq, Hd.
      * left. by rewrite list_lookup_alter_ne.
  - left. simpl. rewrite map_result_state.
    destruct (handle_purchase_updates s cid bid p)
      as [->|(ci & b & v & vi & cp & vp & _ & ->)]; [done|].
    unfold after_purchase. simpl. apply Happ.
  - left. run_step. repeat (case_match; simplify_eq/=); done.
Qed.
Lemma platform_book_keys (m a b bs rb : Principal) :
  let s0 := BookMarketPlatform_init m a b bs rb in
  keys_are_fresh step book_key book_counter lookup_book s0
  ∧ counter_is_monotone step book_counter s0
  ∧ keys_are_not_reassigned step lookup_book same_book s0.
Proof.
  apply (keyed_store step book_key book_counter lookup_book same_book
           keys_below_counter);
    eauto using step_keys_below, book_below_counter, step_book_counter,
      step_book_key, same_book_trans, step_book_persists, init_keys_below.
  by split.
Qed.

Lemma platform_purchase_keys (m a b bs rb : Principal) :
  let s0 := BookMarketPlatform_init m a b bs rb in
  keys_are_fresh step purchase_key purchase_counter lookup_purchase s0
  ∧ counter_is_monotone step purchase_counter s0
  ∧ keys_are_not_reassigned step lookup_purchase eq s0.
Proof.
  apply (keyed_store step purchase_key purchase_counter lookup_purchase eq
           keys_below_counter);
    eauto using step_keys_below, purchase_below_counter,
      step_purchase_counter, step_purchase_key, step_purchase_persists,
      init_keys_below.
  congruence.
Qed.
End PlatformKeys.

(** *** The offers of the unlabelled marketplace *)

Section MarketplaceKeys.
Import Marketplace.
Implicit Types s : BookMarketplace.

Ltac run_step :=
  unfold step, offer_handler, purchase_handler, mark_sold,
    assign_customers, assign_vendors;
  unfold_method; cbn.

Lemma step_offer_effect c s : offer_effect s (step c s).2.
Proof.
  destruct c; run_step; repeat (case_match; simplify_eq/=);
    first [ by apply offers_kept | by apply offer_skipped
          | by eapply offer_added | by eapply offer_sold ].
Qed.

Lemma step_offer_counter c s : next_offer_id s ≤ next_offer_id (step c s).2.
Proof. destruct (step_offer_effect c s); lia. Qed.

Lemma step_offer_key c s k :
  offer_key (c, (step c s).1) = Some k →
  k = next_offer_id s ∧ next_offer_id s < next_offer_id (step c s).2.
Proof.
  destruct c; simpl; try done; run_step;
    repeat (case_match; simplify_eq/=); try done;
    intros; simplify_eq/=; lia.
Qed.

Lemma step_offers_below c s :
  keys_below_counter s → keys_below_counter (step c s).2.
Proof.
  intros Ho.
  destruct (step_offer_effect c s) as [Eo No|Eo No|o Eo No|k Eo No];
    unfold keys_below_counter in *; rewrite Eo, No; intros k';
    rewrite ?dom_insert, ?dom_alter, ?elem_of_union, ?elem_of_singleton;
    intros; destruct_or?; subst; try lia;
    specialize (Ho _ ltac:(eassumption)); lia.
Qed.

Lemma offer_below_counter s k o :
  keys_below_counter s → lookup_offer s k = Some o → k < next_offer_id s.
Proof. intros Ho Hk. apply Ho, elem_of_dom. by exists o. Qed.

Lemma same_offer_refl o : same_offer o o.
Proof. by destruct o. Qed.

Lemma same_offer_trans o1 o2 o3 :
  same_offer o1 o2 → same_offer o2 o3 → same_offer o1 o3.
Proof. unfold same_offer. intros -> ->. done. Qed.

Lemma step_offer_persists c s k o :
  keys_below_counter s → lookup_offer s k = Some o →
  ∃ o', lookup_offer (step c s).2 k = Some o' ∧ same_offer o o'.
Proof.
  intros Hs Hk. pose proof (offer_below_counter s k o Hs Hk).
  unfold lookup_offer in *.
  destruct (step_offer_effect c s) as [Eo No|Eo No|o0 Eo No|k0 Eo No];
    rewrite Eo.
  - exists o. split; [done|apply same_offer_refl].
  - exists o. split; [done|apply same_offer_refl].
  - exists o. rewrite lookup_insert_ne by lia.
    split; [done|apply same_offer_refl].
  - destruct (decide (k0 = k)) as [->|].
    + exists (sold o). rewrite lookup_alter_eq, Hk. done.
    + exists o. rewrite lookup_alter_ne by done.
      split; [done|apply same_offer_refl].
Qed.

Lemma step_offer_stored c s k :
  offer_key (c, (step c s).1) = Some k →
  ∃ o, lookup_offer (step c s).2 k = Some o
       ∧ offer_stored c s (step c s).2 o.
Proof.
  destruct c as [| |v info|]; simpl; try done. run_step.
  case_bool_decide as Hv; [done|].
  destruct (subscript info "title") as [?|?] eqn:H1; [|done].
  destruct (subscript info "author") as [?|?] eqn:H2; [|done].
  destruct (subscript info "year") as [?|?] eqn:H3; [|done].
  destruct (subscript info "edition") as [?|?] eqn:H4; [|done].
  destruct (subscript info "publisher") as [?|?] eqn:H5; [|done].
  destruct (subscript info "condition") as [?|?] eqn:H6; [|done].
  destruct (subscript info "description") as [?|?] eqn:H7; [|done].
  destruct (subscript info "price") as [?|?] eqn:H8; [|done].
  rewrite subscript_Return in *. cbn. intros [= <-].
  unfold lookup_offer. simpl. eexists. rewrite lookup_insert_eq.
  split; [done|]. simpl. done.
Qed.

Lemma marketplace_offer_keys :
  keys_are_fresh step offer_key next_offer_id lookup_offer
    BookMarketplace_init
  ∧ counter_is_monotone step next_offer_id BookMarketplace_init
  ∧ keys_are_not_reassigned step lookup_offer same_offer
      BookMarketplace_init.
Proof.
  apply (keyed_store step offer_key next_offer_id lookup_offer same_offer
           keys_below_counter);
    eauto using step_offers_below, offer_below_counter, step_offer_counter,
      step_offer_key, same_offer_refl, same_offer_trans,
      step_offer_persists.
  intros k. simpl. rewrite dom_empty. set_solver.
Qed.
End MarketplaceKeys.

(** C9: keys are fresh, the counters only grow, and a key is never given
    to another record. For the books and the purchases of a platform as
    its constructor builds it, and for the offers of a new marketplace,
    after any sequence of calls: a key that a call returns ([add_book] and
    [handle_offer], [add_purchase] and [handle_purchase],
    [offer_handler]) is in use for no record, differs from every key
    returned before, and the counter is strictly larger after the call; no
    call makes a counter smaller; the record under a key stays the
    record that was stored there, whatever calls follow: a book keeps its
    data object and its label, a purchase its data object and its label,
    an offer its fields, a book or an offer up to its status; and the key
    a call returns holds the record that the call stored. On the
    platform the data of a record is the dict of the caller, not a copy,
    and a call leaves a dict that is there as it is, unless it is an
    offer of that very dict, which writes the id of the vendor into
    it. *)
Theorem keys_fresh_monotone_never_reassigned :
  (∀ (Principal : Type) (Principal_eq : EqDecision Principal)
     (Principal_countable : Countable Principal)
     (marketplace alice bob bookstore rarebooks : Principal),
     let s0 :=
       Platform.BookMarketPlatform_init marketplace alice bob bookstore
         rarebooks in
     (keys_are_fresh Platform.step Platform.book_key Platform.book_counter
        Platform.lookup_book s0
      ∧ counter_is_monotone Platform.step Platform.book_counter s0
      ∧ keys_are_not_reassigned Platform.step Platform.lookup_book
          Platform.same_book s0
      ∧ keys_hold_what_was_stored Platform.step Platform.book_key
          Platform.lookup_book Platform.book_stored s0)
     ∧ (keys_are_fresh Platform.step Platform.purchase_key
          Platform.purchase_counter Platform.lookup_purchase s0
        ∧ counter_is_monotone Platform.step Platform.purchase_counter s0
        ∧ keys_are_not_reassigned Platform.step Platform.lookup_purchase
            eq s0
        ∧ keys_hold_what_was_stored Platform.step Platform.purchase_key
            Platform.lookup_purchase Platform.purchase_stored s0)
     ∧ (∀ pre c,
          Platform.dicts_effect c (after Platform.step s0 pre)
            (Platform.step c (after Platform.step s0 pre)).2))
  ∧ (keys_are_fresh Marketplace.step Marketplace.offer_key
       Marketplace.next_offer_id Marketplace.lookup_offer
       Marketplace.BookMarketplace_init
     ∧ counter_is_monotone Marketplace.step Marketplace.next_offer_id
         Marketplace.BookMarketplace_init
     ∧ keys_are_not_reassigned Marketplace.step Marketplace.lookup_offer
         Marketplace.same_offer Marketplace.BookMarketplace_init
     ∧ keys_hold_what_was_stored Marketplace.step Marketplace.offer_key
         Marketplace.lookup_offer Marketplace.offer_stored
         Marketplace.BookMarketplace_init).
Proof.
  split.
  - intros ??? m a b bs rb s0. split; [|split].
    + destruct (platform_book_keys m a b bs rb) as (? & ? & ?).
      repeat (split; [done|]). intros pre c k. apply step_book_stored.
    + destruct (platform_purchase_keys m a b bs rb) as (? & ? & ?).
      repeat (split; [done|]). intros pre c k. apply step_purchase_stored.
    + intros pre c. apply step_dicts_effect.
  - destruct marketplace_offer_keys as (? & ? & ?).
    repeat (split; [done|]). intros pre c k. apply step_offer_stored.
Qed.

(** One dict offered twice: the two books share it, and the second offer
    has written its vendor into the data of the first book as well. *)
Example one_dict_offered_twice :
  let s := after Platform.step demo_platform
             [Platform.HandleOffer "bookstore" (Platform.New demo_book);
              Platform.HandleOffer "rarebooks" (Platform.Held 4%nat)] in
  Platform.book_data <$> Platform.lookup_book s 1 = Some 4%nat
  ∧ Platform.book_data <$> Platform.lookup_book s 2 = Some 4%nat
  ∧ Platform.dict_at s 4%nat !! "vendor_id" = Some (VStr "rarebooks")
  ∧ Platform.status <$> Platform.lookup_book s 1 = Some "available".
Proof. vm_compute. done. Qed.

(** ** The demo and the test, run *)

(** The demo of the platform: the offer returns book key 1, the purchase
    returns purchase key 1 and leaves the book sold under its key. *)
Example demo_keys :
  omap Platform.book_key (outcomes Platform.step demo_platform demo_calls) = [1]
  ∧ omap Platform.purchase_key (outcomes Platform.step demo_platform demo_calls)
    = [1]
  ∧ Platform.status <$> Platform.lookup_book demo_sold 1 = Some "sold"
  ∧ Platform.book_counter demo_sold = 2.
Proof. vm_compute. done. Qed.

(** A wrong price on the platform is refused and changes nothing. *)
Example demo_wrong_price :
  let s := after Platform.step demo_platform
             [Platform.HandleOffer "bookstore" (Platform.New demo_book)] in
  Platform.handle_purchase "alice" 1 (VFloat 39.99) s
  = (Return (Rejected "Price does not match"), s).
Proof.
  cbv zeta. apply handle_purchase_refusal.
  eapply (Platform.refused_price _ _ _ _
            (Platform.mkBook 4%nat
               (mkLabel {["BookStore"]} {["BookStore"; "Marketplace"]})
               "available") (VFloat 29.99)).
  - apply (fmap_is_Some Platform.marketing_opt_in). exists false.
    vm_compute. reflexivity.
  - vm_compute. reflexivity.
  - reflexivity.
  - vm_compute. reflexivity.
  - vm_compute. reflexivity.
Qed.

(** The test of the marketplace: the offers return the keys 1 and 2, and
    the second purchase of offer 1 is refused. *)
Example test_outcomes :
  omap Marketplace.offer_key
    (outcomes Marketplace.step Marketplace.BookMarketplace_init test_calls)
  = [1; 2]
  ∧ snd <$> last (outcomes Marketplace.step Marketplace.BookMarketplace_init
                    test_calls)
    = Some (Return (Marketplace.PurchaseReply
                      (Rejected "Book offer not available"))).
Proof. vm_compute. done. Qed.

(** The last check of [test_system()] in [bookmarket.py]: the customers,
    a cell at level [PLATFORM], cannot be read in a [PUBLIC] context. *)
Example customers_not_public (customers : gmap string (gmap string pyval)) :
  get_value (mkSecureVariable customers SecurityLevel.PLATFORM)
    SecurityLevel.PUBLIC
  = (Raise (SecurityException
              "Security violation: Cannot access level 3 data in context 0"),
     mkSecureVariable customers SecurityLevel.PLATFORM).
Proof. reflexivity. Qed.

(** ** More on the label order *)

Section LabelOrder.
Context {Principal : Type} {Principal_eq : EqDecision Principal}
        {Principal_countable : Countable Principal}.
Implicit Types a b c L : SecurityLabel Principal.

(** X1: [flows_to] is antisymmetric: two labels that flow to each other
    have the same owners and the same readers. *)
Theorem flows_to_antisymmetric a b :
  flows_to a b = true → flows_to b a = true → a = b.
Proof.
  intros [? ?]%flows_to_spec [? ?]%flows_to_spec.
  apply label_eq; set_solver.
Qed.

(** X2: [join] is the least upper bound and [meet] the greatest lower
    bound of [flows_to]: a join flows to [c] exactly when both arguments
    do, and [c] flows to a meet exactly when it flows to both arguments. *)
Theorem join_least_meet_greatest a b c :
  (flows_to (join a b) c = true
   ↔ flows_to a c = true ∧ flows_to b c = true)
  ∧ (flows_to c (meet a b) = true
     ↔ flows_to c a = true ∧ flows_to c b = true).
Proof.
  rewrite !flows_to_spec. simpl. split; split; set_solver.
Qed.

(** The order is the one of the lattice: [a] flows to [b] exactly
    when their join is [b], and exactly when their meet is [a]; and each
    operation absorbs the other. *)
Lemma flows_to_by_join_and_meet a b :
  (flows_to a b = true ↔ join a b = b)
  ∧ (flows_to a b = true ↔ meet a b = a)
  ∧ join a (meet a b) = a
  ∧ meet a (join a b) = a.
Proof.
  rewrite !flows_to_spec. split; [|split; [|split]].
  - split.
    + intros [? ?]. apply label_eq; simpl; set_solver.
    + intros Hj. rewrite <- Hj. simpl. set_solver.
  - split.
    + intros [? ?]. apply label_eq; simpl; set_solver.
    + intros Hm. rewrite <- Hm. simpl. set_solver.
  - apply label_eq; simpl; set_solver.
  - apply label_eq; simpl; set_solver.
Qed.

(** X3: what a declassification does to the flow. The label the gate
    returns is above the original exactly when the new readers contain the
    old ones, and below it exactly when the old readers contain the new
    ones. *)
Theorem declassify_flow (show : Principal → string) L L' (P : Principal)
    (R : gset Principal) :
  (declassify show L P (Some R)).1 = Return L' →
  (flows_to L L' = true ↔ readers L ⊆ R)
  ∧ (flows_to L' L = true ↔ R ⊆ readers L).
Proof.
  unfold declassify. case_bool_decide; [|done]. intros [= <-].
  rewrite !flows_to_spec. simpl. set_solver.
Qed.

End LabelOrder.

Lemma flows_to_antisymmetric_witness :
  let a : SecurityLabel string := mkLabel {["Alice"]} {["Alice"; "Marketplace"]} in
  let b : SecurityLabel string := mkLabel {["Alice"]} {["Marketplace"; "Alice"]} in
  a = b.
Proof.
  apply flows_to_antisymmetric; vm_compute; reflexivity.
Defined.

Lemma declassify_flow_witness :
  let L : SecurityLabel string := mkLabel {["Alice"]} {["Alice"; "Marketplace"]} in
  let R : gset string := {["Alice"; "Marketplace"; "BookStore"]} in
  (flows_to L (mkLabel {["Alice"]} R) = true ↔ readers L ⊆ R)
  ∧ (flows_to (mkLabel {["Alice"]} R) L = true ↔ R ⊆ readers L).
Proof.
  cbv zeta. apply (declassify_flow id _ _ "Alice"). vm_compute. reflexivity.
Defined.

(** ** More on the labelled cell *)

(** X4: write, then read. After a write that returned, every context
    that may read the cell reads the value that was written. *)
Theorem write_then_read {A} (cell cell' : SecureVariable A) (v : A) (s c C : Z) :
  set_value cell v s c = (Return tt, cell') →
  security_level cell ≤ C →
  get_value cell' C = (Return v, cell').
Proof.
  unfold set_value, get_value, SecurityLevel.can_flow.
  destruct (_ && _); [|done]. intros [= <-] HC. simpl.
  apply Z.leb_le in HC. rewrite HC. done.
Qed.

Lemma write_then_read_witness :
  get_value (mkSecureVariable false SecurityLevel.PLATFORM) SecurityLevel.PLATFORM
  = (Return false, mkSecureVariable false SecurityLevel.PLATFORM).
Proof.
  apply (write_then_read (mkSecureVariable true SecurityLevel.PLATFORM) _ false
           SecurityLevel.PLATFORM SecurityLevel.PLATFORM).
  - reflexivity.
  - vm_compute. discriminate.
Defined.

(** X5: one context both reads and writes a cell exactly at the level of
    the cell: below it the read raises, above it the write raises. *)
Theorem read_and_write_at_own_level {A} (cell : SecureVariable A) (v : A) (c : Z) :
  is_Return (get_value cell c).1 && is_Return (set_value cell v c c).1 = true
  ↔ c = security_level cell.
Proof.
  unfold set_value, get_value, SecurityLevel.can_flow.
  destruct (Z.leb_spec (security_level cell) c);
    destruct (Z.leb_spec c (security_level cell)); simpl; split; try done; lia.
Qed.

(** ** More on the handlers of the platform *)

Section PlatformHandlers.
Context {Principal : Type} {Principal_eq : EqDecision Principal}
        {Principal_countable : Countable Principal}.
Implicit Types s : @Platform.BookMarketPlatform Principal _ _.
Import Platform.

Ltac offer_cases :=
  unfold handle_offer, on_db, add_book, setitem; unfold_method.

Ltac purchase_cases :=
  unfold handle_purchase, mark_sold, on_db, add_purchase, new_dict, getitem;
  unfold_method; cbn.

Lemma handle_offer_accepted s s' v ref a :
  handle_offer v ref s = (Return (Accepted a), s') →
  offer_book_id a = book_counter s
  ∧ (∃ vi p,
       vendors (db s) !! v = Some vi ∧ p ∈ owners (vendor_label vi)
       ∧ lookup_book s' (offer_book_id a)
         = Some (mkBook ref (mkLabel {[p]} {[p; marketplace s]}) "available"))
  ∧ (∀ k, k ≠ offer_book_id a → lookup_book s' k = lookup_book s k)
  ∧ dicts s' !! ref = <["vendor_id" := VStr v]> <$> dicts s !! ref
  ∧ (∀ ref', ref' ≠ ref → dicts s' !! ref' = dicts s !! ref')
  ∧ (∀ k b, lookup_book s k = Some b → book_data b = ref →
            is_Some (dicts s !! ref) →
            dict_at s' (book_data b) !! "vendor_id" = Some (VStr v))
  ∧ customers (db s') = customers (db s)
  ∧ vendors (db s') = vendors (db s)
  ∧ purchases (db s') = purchases (db s)
  ∧ purchase_counter s' = purchase_counter s
  ∧ marketplace s' = marketplace s.
Proof.
  offer_cases.
  destruct (vendors (db s) !! v) as [vi|] eqn:Hv; [|done].
  destruct (first_owner (vendor_label vi)) as [p|] eqn:Hp; [|done].
  cbn. intros [= <- <-]. unfold lookup_book, book_counter, dict_at. simpl.
  split; [done|]. split.
  { exists vi, p. split; [done|]. split; [by apply first_owner_elem|].
    by rewrite lookup_insert_eq. }
  split. { intros k Hk. by rewrite lookup_insert_ne. }
  split. { by rewrite list_lookup_alter_eq. }
  split. { intros ref' Hne. by rewrite list_lookup_alter_ne. }
  split; [|done].
  intros k b _ -> [d Hd]. rewrite list_lookup_alter_eq, Hd. simpl.
  by rewrite lookup_insert_eq.
Qed.

(** X6: offer, then look up. After an accepted offer the book is stored
    under the returned key, which is the old counter, with status
    [available] and a label owned by an owner of the vendor and readable
    by that owner and the marketplace; its data is the dict of the
    caller itself, into which the id of the vendor has been written. No
    other dict and no other entry is touched; but a book stored earlier
    with that same dict reads the new vendor from its data. *)
Theorem offer_then_lookup s s' v ref a :
  handle_offer v ref s = (Return (Accepted a), s') →
  offer_book_id a = book_counter s
  ∧ (∃ vi p,
       vendors (db s) !! v = Some vi ∧ p ∈ owners (vendor_label vi)
       ∧ lookup_book s' (offer_book_id a)
         = Some (mkBook ref (mkLabel {[p]} {[p; marketplace s]}) "available"))
  ∧ (∀ k, k ≠ offer_book_id a → lookup_book s' k = lookup_book s k)
  ∧ dicts s' !! ref = <["vendor_id" := VStr v]> <$> dicts s !! ref
  ∧ (∀ ref', ref' ≠ ref → dicts s' !! ref' = dicts s !! ref')
  ∧ (∀ k b, lookup_book s k = Some b → book_data b = ref →
            is_Some (dicts s !! ref) →
            dict_at s' (book_data b) !! "vendor_id" = Some (VStr v))
  ∧ customers (db s') = customers (db s)
  ∧ vendors (db s') = vendors (db s)
  ∧ purchases (db s') = purchases (db s)
  ∧ purchase_counter s' = purchase_counter s
  ∧ marketplace s' = marketplace s.
Proof. apply handle_offer_accepted. Qed.

(** X7: an offer that is not accepted changes nothing. The handler
    rejects exactly the vendor ids that are not registered, raises
    [IndexError] exactly for a registered vendor whose label has no owner,
    and in both cases the platform is as before. *)
Theorem refused_offer_changes_nothing s v ref :
  (vendors (db s) !! v = None
   ↔ handle_offer v ref s = (Return (Rejected "Vendor not found"), s))
  ∧ ((∃ vi, vendors (db s) !! v = Some vi ∧ owners (vendor_label vi) = ∅)
     ↔ handle_offer v ref s = (Raise IndexError, s))
  ∧ (∀ r s', handle_offer v ref s = (r, s') → accepted r = false → s' = s).
Proof.
  offer_cases.
  destruct (vendors (db s) !! v) as [vi|] eqn:Hv.
  - pose proof (first_owner_empty (vendor_label vi)) as He.
    destruct (first_owner (vendor_label vi)) as [p|e] eqn:Hp; cbn.
    + split; [done|]. split.
      * split; [|done]. intros [vi' [[= <-] Ho]]. by apply He in Ho.
      * by intros r s' [= <- <-].
    + split; [done|]. split.
      * split.
        -- intros [vi' [[= <-] Ho]]. apply He in Ho. by injection Ho as ->.
        -- intros [= ->]. exists vi. split; [done|]. by apply He.
      * by intros r s' [= <- <-].
  - split; [done|]. split.
    + split; [by intros [? [? ?]]|done].
    + by intros r s' [= <- <-].
Qed.

Lemma after_purchase_recorded s cid k p ci b v vi cp vp :
  purchase_checked s cid k p ci b v vi cp vp →
  sale_recorded s (after_purchase s cid k v p cp vp) cid k p.
Proof.
  intros (Hc & Hb & Hst & _ & _ & _ & Hcp & Hvp).
  unfold sale_recorded, after_purchase, lookup_book, lookup_purchase,
    purchase_counter, book_counter, dict_at, purchase_dict in *. simpl.
  split. { exists b. by rewrite lookup_alter_eq, Hb. }
  split.
  { eexists. rewrite lookup_insert_eq. split; [done|]. simpl.
    rewrite lookup_new_dict. simpl.
    repeat (split; [done|]). set_solver. }
  split; [done|].
  split. { intros k' Hk'. by rewrite lookup_alter_ne. }
  split. { intros k' Hk'. by rewrite lookup_insert_ne. }
  repeat (split; [done|]). by eexists.
Qed.

Lemma handle_purchase_effect s cid k p :
  (handle_purchase cid k p s).2 = s
  ∨ sale_recorded s (handle_purchase cid k p s).2 cid k p.
Proof.
  destruct (handle_purchase_updates s cid k p)
    as [?|(ci & b & v & vi & cp & vp & Hchk & ->)]; [by left|].
  right. by eapply after_purchase_recorded.
Qed.

(** X8: what never happens in a purchase: a book marked sold without its
    purchase record, or a record without the book marked sold. Whatever
    the outcome, reply or exception, the platform after [handle_purchase]
    is either the platform before it or the one with the whole sale
    recorded. *)
Theorem purchase_sells_and_records_together s cid k p :
  (handle_purchase cid k p s).2 = s
  ∨ sale_recorded s (handle_purchase cid k p s).2 cid k p.
Proof. apply handle_purchase_effect. Qed.

(** A read of a dict after the dict of the purchase has been made is a
    read of the dict as it was. *)
Lemma read_after_purchase (h : list (gmap string pyval)) d ref key x :
  default ∅ ((h ++ [d])%list !! ref) !! key = Some x →
  d !! key = None →
  default ∅ (h !! ref) !! key = Some x.
Proof.
  intros Hx Hd. destruct (decide (ref < length h)%nat) as [Hlt|Hge].
  - by rewrite lookup_app_l in Hx.
  - destruct (decide (ref = length h)) as [->|Hne].
    + rewrite lookup_new_dict in Hx. simpl in Hx. congruence.
    + rewrite lookup_ge_None_2 in Hx by (rewrite length_app; simpl; lia).
      done.
Qed.

Lemma read_before_purchase (h : list (gmap string pyval)) d ref key x :
  default ∅ (h !! ref) !! key = Some x →
  (h ++ [d])%list !! ref = h !! ref.
Proof.
  intros Hx. destruct (h !! ref) as [d0|] eqn:Hd; [|done].
  by apply lookup_app_l_Some.
Qed.

Lemma handle_purchase_accepted s s' cid k p a :
  handle_purchase cid k p s = (Return (Accepted a), s') →
  sale_recorded s s' cid k p
  ∧ purchase_id a = purchase_counter s
  ∧ purchase_message a = "Purchase successful"
  ∧ ∃ b pr ci v vi t vn ad cn,
      lookup_book s k = Some b ∧ status b = "available"
      ∧ dict_at s (book_data b) !! "price" = Some pr
      ∧ py_ne pr p = false
      ∧ customers (db s) !! cid = Some ci
      ∧ dict_at s (book_data b) !! "vendor_id" = Some v
      ∧ vendors_subscript (vendors (db s)) v = Return vi
      ∧ dict_at s (book_data b) !! "title" = Some t
      ∧ dict_at s (vendor_data vi) !! "name" = Some vn
      ∧ dict_at s (customer_data ci) !! "address" = Some ad
      ∧ dict_at s (customer_data ci) !! "name" = Some cn
      ∧ customer_confirmation a
        = {[ "purchase_id" := VInt (purchase_counter s);
             "book_title" := t;
             "price" := p;
             "vendor" := vn;
             "status" := VStr "Confirmed" ]}
      ∧ vendor_confirmation a
        = {[ "purchase_id" := VInt (purchase_counter s);
             "book_title" := t;
             "price" := p;
             "customer_name" := cn;
             "customer_address" := ad;
             "status" := VStr "Confirmed - Please ship to customer" ]}.
Proof.
  intros Hp.
  assert (Ha : (handle_purchase cid k p s).1 = Return (Accepted a))
    by (by rewrite Hp).
  destruct (handle_purchase_key s cid k p a Ha)
    as (Hid & ci & b & v & vi & cp & vp & Hchk & Hs).
  rewrite Hp in Hs. simpl in Hs. subst s'.
  split; [by eapply after_purchase_recorded|]. split; [done|].
  destruct Hchk as (Hc & Hb & Hst & (pr & Hpr & Hne) & Hv & Hvi & Hcp & Hvp).
  clear Hp Hid. revert Ha. unfold lookup_book in *. purchase_cases.
  rewrite Hc, Hb. rewrite bool_decide_eq_false_2 by (by intros ?).
  unfold subscript at 1. rewrite Hpr, Hne.
  unfold subscript at 1. rewrite Hv. simpl. rewrite Hvi, Hcp, Hvp. cbn.
  unfold dict_at, purchase_counter. simpl.
  set (h' := (dicts s ++ _)%list).
  destruct (subscript (default ∅ (h' !! book_data b)) "title")
    as [t|] eqn:Ht; [|done].
  destruct (subscript (default ∅ (h' !! vendor_data vi)) "name")
    as [vn|] eqn:Hvn; [|done].
  destruct (subscript (default ∅ (h' !! customer_data ci)) "address")
    as [ad|] eqn:Had; [|done].
  destruct (subscript (default ∅ (h' !! customer_data ci)) "name")
    as [cn|] eqn:Hcn; [|done].
  apply subscript_Return in Ht, Hvn, Had, Hcn.
  apply read_after_purchase in Ht, Hvn, Had, Hcn; try done.
  intros Hret.
  assert (Hbody : purchase_message a = "Purchase successful"
            ∧ customer_confirmation a
              = {[ "purchase_id" := VInt (next_purchase_id (db s));
                   "book_title" := t; "price" := p; "vendor" := vn;
                   "status" := VStr "Confirmed" ]}
            ∧ vendor_confirmation a
              = {[ "purchase_id" := VInt (next_purchase_id (db s));
                   "book_title" := t; "price" := p;
                   "customer_name" := cn; "customer_address" := ad;
                   "status" := VStr "Confirmed - Please ship to customer" ]}).
  { revert Hret. repeat (case_match; simplify_eq/=); try done.
    all: by intros [= <-]. }
  destruct Hbody as (Hm & Hcc & Hvc). split; [done|].
  exists b, pr, ci, v, vi, t, vn, ad, cn.
  repeat (split; [done|]). done.
Qed.

(** X9: an accepted purchase. The whole sale is recorded, the returned
    purchase id is the old counter, the book was available at the offered
    price. The confirmation for the customer is the purchase id, the
    title of the book, the price, the name of the vendor and [Confirmed],
    and nothing else: no entry of it is read from the data of the
    customer. The confirmation for the vendor is the purchase id, the
    title, the price, the name and the address of the customer, and its
    status. *)
Theorem accepted_purchase_is_recorded s s' cid k p a :
  handle_purchase cid k p s = (Return (Accepted a), s') →
  sale_recorded s s' cid k p
  ∧ purchase_id a = purchase_counter s
  ∧ purchase_message a = "Purchase successful"
  ∧ ∃ b pr ci v vi t vn ad cn,
      lookup_book s k = Some b ∧ status b = "available"
      ∧ dict_at s (book_data b) !! "price" = Some pr
      ∧ py_ne pr p = false
      ∧ customers (db s) !! cid = Some ci
      ∧ dict_at s (book_data b) !! "vendor_id" = Some v
      ∧ vendors_subscript (vendors (db s)) v = Return vi
      ∧ dict_at s (book_data b) !! "title" = Some t
      ∧ dict_at s (vendor_data vi) !! "name" = Some vn
      ∧ dict_at s (customer_data ci) !! "address" = Some ad
      ∧ dict_at s (customer_data ci) !! "name" = Some cn
      ∧ customer_confirmation a
        = {[ "purchase_id" := VInt (purchase_counter s);
             "book_title" := t;
             "price" := p;
             "vendor" := vn;
             "status" := VStr "Confirmed" ]}
      ∧ vendor_confirmation a
        = {[ "purchase_id" := VInt (purchase_counter s);
             "book_title" := t;
             "price" := p;
             "customer_name" := cn;
             "customer_address" := ad;
             "status" := VStr "Confirmed - Please ship to customer" ]}.
Proof. apply handle_purchase_accepted. Qed.

Lemma step_keeps_unavailable c s k :
  keys_below_counter s → book_unavailable k s →
  book_unavailable k (step c s).2.
Proof.
  intros Hs [b [Hb Hst]]. pose proof (book_below_counter s k b Hs Hb).
  unfold book_unavailable, lookup_book in *.
  destruct (step_book_effect c s) as [Eb Nb|b0 Eb Nb|k0 Eb Nb]; rewrite Eb.
  - by exists b.
  - exists b. rewrite lookup_insert_ne by lia. done.
  - destruct (decide (k0 = k)) as [->|].
    + exists (sold b). rewrite lookup_alter_eq, Hb. done.
    + exists b. rewrite lookup_alter_ne by done. done.
Qed.

Lemma after_keeps_unavailable calls s k :
  keys_below_counter s → book_unavailable k s →
  book_unavailable k (after step s calls).
Proof.
  intros Hs Hk.
  apply (after_inv step (λ s, keys_below_counter s ∧ book_unavailable k s));
    [|done].
  intros c s1 [? ?]. split; [by apply step_keys_below|].
  by apply step_keeps_unavailable.
Qed.

Lemma handle_purchase_keys_below s cid k p :
  keys_below_counter s → keys_below_counter (handle_purchase cid k p s).2.
Proof.
  intros Hs. pose proof (step_keys_below (HandlePurchase cid k p) s Hs) as H.
  simpl in H. by rewrite map_result_state in H.
Qed.

(** X10: a book is sold once. On a platform as its constructor builds
    it, after any calls: once a purchase of book [k] has been accepted,
    whatever calls follow, every further purchase of [k], by whichever
    customer and at whichever price, is rejected and changes nothing. *)
Theorem sold_book_is_not_sold_again (m a b bs rb : Principal)
    pre cid1 p1 k mid cid2 p2 :
  let s := after step (BookMarketPlatform_init m a b bs rb) pre in
  let s2 := after step (handle_purchase cid1 k p1 s).2 mid in
  accepted (handle_purchase cid1 k p1 s).1 = true →
  handle_purchase cid2 k p2 s2 = (Return (Rejected "Customer not found"), s2)
  ∨ handle_purchase cid2 k p2 s2
    = (Return (Rejected "Book is not available"), s2).
Proof.
  intros s s2 Hacc.
  assert (Hs : keys_below_counter s).
  { apply (after_inv step keys_below_counter);
      [apply step_keys_below|apply init_keys_below]. }
  destruct (handle_purchase cid1 k p1 s) as [r s1] eqn:Hp.
  destruct r as [[msg|acc]|e]; try done.
  apply handle_purchase_accepted in Hp as Hrec.
  destruct Hrec as [[[b0 [Hb0 Hb1]] _] _].
  assert (Hu : book_unavailable k s2).
  { apply after_keeps_unavailable.
    - pose proof (handle_purchase_keys_below s cid1 k p1 Hs) as H1.
      by rewrite Hp in H1.
    - exists (sold b0). done. }
  destruct (customers (db s2) !! cid2) as [ci|] eqn:Hc.
  - right. by apply handle_purchase_unavailable.
  - left. apply handle_purchase_refusal. by constructor.
Qed.

(** X11: a purchase that raises after the sale. When every check of
    [handle_purchase] passes but the data of the book has no title, the
    call raises [KeyError('title')], and the sale is recorded all the
    same: the book is sold and the purchase stored. *)
Theorem purchase_of_untitled_book_raises_after_the_sale
    s cid k p ci cp b pr v vi vp :
  customers (db s) !! cid = Some ci →
  first_owner (customer_label ci) = Return cp →
  lookup_book s k = Some b →
  status b = "available" →
  dict_at s (book_data b) !! "price" = Some pr →
  py_ne pr p = false →
  dict_at s (book_data b) !! "vendor_id" = Some (VStr v) →
  vendors (db s) !! v = Some vi →
  first_owner (vendor_label vi) = Return vp →
  dict_at s (book_data b) !! "title" = None →
  (handle_purchase cid k p s).1 = Raise (KeyError (VStr "title"))
  ∧ sale_recorded s (handle_purchase cid k p s).2 cid k p.
Proof.
  intros Hc Hcp Hb Hst Hpr Hne Hv Hvi Hvp Ht.
  assert (Hr : handle_purchase cid k p s
               = (Raise (KeyError (VStr "title")),
                  after_purchase s cid k (VStr v) p cp vp)).
  { unfold lookup_book in *. purchase_cases. rewrite Hc, Hb.
    rewrite bool_decide_eq_false_2 by (by intros ?).
    unfold subscript at 1. rewrite Hpr, Hne.
    unfold subscript at 1. rewrite Hv. simpl. rewrite Hvi, Hcp, Hvp. cbn.
    unfold dict_at in *. simpl.
    rewrite (read_before_purchase _ _ _ _ _ Hpr).
    unfold subscript at 1. rewrite Ht. done. }
  rewrite Hr. split; [done|]. simpl.
  apply (after_purchase_recorded s cid k p ci b (VStr v) vi cp vp).
  unfold purchase_checked. simpl. rewrite Hvi. eauto 10.
Qed.

(** X12: opting in or out touches one flag. For a registered customer
    [set_marketing_opt_in] is accepted and sets the flag of that customer;
    for any other id it is rejected and changes nothing; in both cases
    the data and the label of every customer, the dicts, the vendors, the
    books, the purchases, both counters and the marketplace principal are
    as before. *)
Theorem opt_in_touches_one_flag s cid o :
  let s' := (set_marketing_opt_in cid o s).2 in
  (accepted (set_marketing_opt_in cid o s).1
   = bool_decide (is_Some (customers (db s) !! cid)))
  ∧ (customers (db s) !! cid = None →
     set_marketing_opt_in cid o s = (Return (Rejected "Customer not found"), s))
  ∧ marketing_opt_in <$> customers (db s') !! cid
    = (λ _, o) <$> customers (db s) !! cid
  ∧ (∀ c, c ≠ cid → customers (db s') !! c = customers (db s) !! c)
  ∧ (∀ c, customer_data <$> customers (db s') !! c
          = customer_data <$> customers (db s) !! c)
  ∧ (∀ c, customer_label <$> customers (db s') !! c
          = customer_label <$> customers (db s) !! c)
  ∧ dicts s' = dicts s
  ∧ vendors (db s') = vendors (db s)
  ∧ books (db s') = books (db s)
  ∧ purchases (db s') = purchases (db s)
  ∧ book_counter s' = book_counter s
  ∧ purchase_counter s' = purchase_counter s
  ∧ marketplace s' = marketplace s.
Proof.
  unfold set_marketing_opt_in, on_db. unfold_method. cbn.
  case_bool_decide as Hd; cbn.
  - apply elem_of_dom in Hd as Hsome. destruct Hsome as [ci Hci].
    rewrite bool_decide_eq_true_2 by eauto.
    split; [done|]. split; [by rewrite Hci|]. split.
    { by rewrite lookup_alter_eq, Hci. }
    split. { intros c Hc. by rewrite lookup_alter_ne. }
    split. { intros c. destruct (decide (cid = c)) as [->|].
             - rewrite lookup_alter_eq. by destruct (customers (db s) !! c).
             - by rewrite lookup_alter_ne. }
    split. { intros c. destruct (decide (cid = c)) as [->|].
             - rewrite lookup_alter_eq. by destruct (customers (db s) !! c).
             - by rewrite lookup_alter_ne. }
    done.
  - apply not_elem_of_dom in Hd. rewrite Hd.
    rewrite bool_decide_eq_false_2 by (by intros [? ?]).
    by destruct s as [[]].
Qed.
End PlatformHandlers.

Lemma offer_then_lookup_witness :
  Platform.dicts (Platform.handle_offer "rarebooks" 4%nat demo_offered).2
    !! 4%nat
  = <["vendor_id" := VStr "rarebooks"]>
      <$> Platform.dicts demo_offered !! 4%nat.
Proof.
  refine (proj1 (proj2 (proj2 (proj2 (offer_then_lookup demo_offered
            (Platform.handle_offer "rarebooks" 4%nat demo_offered).2
            "rarebooks" 4%nat
            (Platform.mkOfferAccepted "Book offer accepted" 2) _))))).
  by_vm.
Defined.

Lemma accepted_purchase_is_recorded_witness :
  let r := Platform.handle_purchase "alice" 1 (VFloat 29.99) demo_offered in
  Platform.purchase_id
    (body_of (Platform.mkPurchaseAccepted "" 0 ∅ ∅) r.1)
  = Platform.purchase_counter demo_offered.
Proof.
  refine (proj1 (proj2 (accepted_purchase_is_recorded demo_offered
            (Platform.handle_purchase "alice" 1 (VFloat 29.99) demo_offered).2
            "alice" 1 (VFloat 29.99)
            (body_of (Platform.mkPurchaseAccepted "" 0 ∅ ∅)
               (Platform.handle_purchase "alice" 1 (VFloat 29.99)
                  demo_offered).1) _))).
  by_vm.
Defined.

Lemma sold_book_is_not_sold_again_witness :
  let s := after Platform.step demo_platform
             [Platform.HandleOffer "bookstore" (Platform.New demo_book)] in
  let s2 := after Platform.step
              (Platform.handle_purchase "alice" 1 (VFloat 29.99) s).2
              [Platform.HandleOffer "rarebooks" (Platform.Held 4%nat)] in
  Platform.handle_purchase "bob" 1 (VFloat 29.99) s2
  = (Return (Rejected "Customer not found"), s2)
  ∨ Platform.handle_purchase "bob" 1 (VFloat 29.99) s2
    = (Return (Rejected "Book is not available"), s2).
Proof.
  refine (sold_book_is_not_sold_again
            "Marketplace" "Alice" "Bob" "BookStore" "RareBooks"
            [Platform.HandleOffer "bookstore" (Platform.New demo_book)]
            "alice" (VFloat 29.99) 1
            [Platform.HandleOffer "rarebooks" (Platform.Held 4%nat)]
            "bob" (VFloat 29.99) _).
  by_vm.
Defined.

Lemma purchase_of_untitled_book_witness :
  (Platform.handle_purchase "alice" 1 (VFloat 29.99) demo_untitled).1
  = Raise (KeyError (VStr "title")).
Proof.
  refine (proj1 (purchase_of_untitled_book_raises_after_the_sale
            demo_untitled "alice" 1 (VFloat 29.99)
            (Platform.mkCustomer 0%nat
               (mkLabel {["Alice"]} {["Alice"; "Marketplace"]}) false)
            "Alice"
            (Platform.mkBook 4%nat
               (mkLabel {["BookStore"]} {["BookStore"; "Marketplace"]})
               "available")
            (VFloat 29.99) "bookstore"
            (Platform.mkVendor 2%nat
               (mkLabel {["BookStore"]} {["BookStore"; "Marketplace"]}))
            "BookStore" _ _ _ _ _ _ _ _ _ _));
    by_vm.
Defined.

(** ** More on the handlers of the marketplace *)

Section MarketplaceHandlers.
Import Marketplace.
Implicit Types s : BookMarketplace.

Ltac offer_cases :=
  unfold offer_handler; unfold_method; cbn.

Ltac sale_cases :=
  unfold purchase_handler, mark_sold; unfold_method; cbn.

(** X13: an offer that lacks a field. For a registered vendor
    [offer_handler] raises exactly when [book_info] lacks one of the eight
    fields; the exception is the [KeyError] of a missing field, no offer
    is stored, and yet the offer counter has advanced: the key is spent. *)
Theorem offer_lacking_a_field_spends_a_key s v info :
  v ∈ dom (vendors (db s)) →
  ((∃ e, (offer_handler v info s).1 = Raise e)
   ↔ ∃ f, f ∈ offer_fields ∧ info !! f = None)
  ∧ (∀ e, (offer_handler v info s).1 = Raise e →
       (∃ f, f ∈ offer_fields ∧ info !! f = None ∧ e = KeyError (VStr f))
       ∧ (offer_handler v info s).2 = set_next_offer_id (λ n, n + 1) s).
Proof.
  intros Hv. offer_cases. rewrite bool_decide_eq_false_2 by (by intros ?).
  unfold offer_fields.
  destruct (subscript info "title") as [?|?] eqn:H1;
  [destruct (subscript info "author") as [?|?] eqn:H2;
  [destruct (subscript info "year") as [?|?] eqn:H3;
  [destruct (subscript info "edition") as [?|?] eqn:H4;
  [destruct (subscript info "publisher") as [?|?] eqn:H5;
  [destruct (subscript info "condition") as [?|?] eqn:H6;
  [destruct (subscript info "description") as [?|?] eqn:H7;
  [destruct (subscript info "price") as [?|?] eqn:H8|]|]|]|]|]|]|];
  rewrite ?subscript_Return, ?subscript_Raise in *; destruct_and?; cbn.
  1: { split.
       - split; [by intros [? ?]|]. intros [f [Hf Hn]].
         set_unfold in Hf. destruct_or?; subst; congruence.
       - done. }
  all: split; [split; [intros _|by eauto]; eexists; split; [|done];
               set_solver|].
  all: intros e' [= <-]; split; [|done]; eexists; split; [|done]; set_solver.
Qed.

(** X14: offer, then look up. An accepted offer returns the old counter
    as its key and stores under it an available offer of the vendor with
    the eight fields of [book_info]; every other offer is as before. *)
Theorem offer_handler_then_lookup s v info :
  accepted (offer_handler v info s).1 = true →
  (offer_handler v info s).1 = Return (Accepted (next_offer_id s))
  ∧ (∃ o, lookup_offer (offer_handler v info s).2 (next_offer_id s) = Some o
          ∧ vendor_id o = v ∧ available o = true
          ∧ info !! "title" = Some (title o)
          ∧ info !! "author" = Some (author o)
          ∧ info !! "year" = Some (year o)
          ∧ info !! "edition" = Some (edition o)
          ∧ info !! "publisher" = Some (publisher o)
          ∧ info !! "condition" = Some (condition o)
          ∧ info !! "description" = Some (description o)
          ∧ info !! "price" = Some (price o))
  ∧ (∀ k, k ≠ next_offer_id s →
          lookup_offer (offer_handler v info s).2 k = lookup_offer s k)
  ∧ v ∈ dom (vendors (db s)).
Proof.
  offer_cases. case_bool_decide as Hv; [done|].
  destruct (subscript info "title") as [?|?] eqn:H1; [|done].
  destruct (subscript info "author") as [?|?] eqn:H2; [|done].
  destruct (subscript info "year") as [?|?] eqn:H3; [|done].
  destruct (subscript info "edition") as [?|?] eqn:H4; [|done].
  destruct (subscript info "publisher") as [?|?] eqn:H5; [|done].
  destruct (subscript info "condition") as [?|?] eqn:H6; [|done].
  destruct (subscript info "description") as [?|?] eqn:H7; [|done].
  destruct (subscript info "price") as [?|?] eqn:H8; [|done].
  rewrite subscript_Return in *. cbn. intros _. unfold lookup_offer. simpl.
  split; [done|]. split; [|split; [|done]].
  - eexists. rewrite lookup_insert_eq. split; [done|]. simpl. done.
  - intros k Hk. by rewrite lookup_insert_ne.
Qed.

Lemma purchase_handler_effect s cid k p :
  (purchase_handler cid k p s).2 = s
  ∨ offer_sale_recorded s (purchase_handler cid k p s).2 cid k p.
Proof.
  sale_cases.
  destruct (customers (db s) !! cid) as [c|] eqn:Hc; [|by left].
  destruct (book_offers (db s) !! k) as [o|] eqn:Ho; [|by left].
  destruct (available o); [|by left]. simpl.
  destruct (py_ne (price o) p); [by left|].
  right.
  assert (Hsale : offer_sale_recorded s
    (mkMarketplace
       (mkDB (customers (db s)) (vendors (db s))
          (alter sold k (book_offers (db s)))
          (<[next_purchase_id s := mkPurchase k cid "2025-05-04 12:00:00" p]>
             (purchases (db s))))
       (next_offer_id s) (next_purchase_id s + 1)) cid k p).
  { unfold offer_sale_recorded, lookup_offer. simpl.
    split; [|split; [|split; [|split; [|split]]]]; try done.
    - exists o. by rewrite lookup_alter_eq, Ho.
    - by rewrite lookup_insert_eq.
    - intros k' Hk'. by rewrite lookup_alter_ne.
    - intros k' Hk'. by rewrite lookup_insert_ne. }
  repeat (case_match; simplify_eq/=); apply Hsale.
Qed.

(** X15: what never happens in a purchase on the marketplace: an offer
    marked sold without its purchase record, or the reverse. Whatever the
    outcome, the marketplace after [purchase_handler] is either the one
    before it or the one with the whole sale recorded. *)
Theorem offer_is_sold_and_recorded_together s cid k p :
  (purchase_handler cid k p s).2 = s
  ∨ offer_sale_recorded s (purchase_handler cid k p s).2 cid k p.
Proof. apply purchase_handler_effect. Qed.

Lemma purchase_handler_accepted s cid k p :
  accepted (purchase_handler cid k p s).1 = true →
  offer_sale_recorded s (purchase_handler cid k p s).2 cid k p
  ∧ ∃ a c o,
      (purchase_handler cid k p s).1 = Return (Accepted a)
      ∧ customers (db s) !! cid = Some c
      ∧ lookup_offer s k = Some o ∧ available o = true
      ∧ py_ne (price o) p = false
      ∧ vendor_confirmation a !! "shipping_address" = c !! "address"
      ∧ vendor_confirmation a !! "customer_name" = c !! "name"
      ∧ is_Some (c !! "address") ∧ is_Some (c !! "name")
      ∧ dom (customer_confirmation a)
        = {["purchase_id"; "book_title"; "price"]}
      ∧ customer_confirmation a !! "purchase_id"
        = Some (VInt (next_purchase_id s)).
Proof.
  intros Hacc.
  destruct (purchase_handler_effect s cid k p) as [Hsame|Hsale].
  { exfalso. revert Hacc Hsame. sale_cases.
    repeat (case_match; simplify_eq/=); try done.
    intros _ Hs. apply (f_equal next_purchase_id) in Hs. simpl in Hs. lia. }
  split; [done|]. clear Hsale. revert Hacc. unfold lookup_offer. sale_cases.
  destruct (customers (db s) !! cid) as [c|] eqn:Hc; [|done].
  destruct (book_offers (db s) !! k) as [o|] eqn:Ho; [|done].
  destruct (available o) eqn:Ha; [|done]. simpl.
  destruct (py_ne (price o) p) eqn:Hne; [done|].
  unfold subscript.
  destruct (c !! "name") as [n|] eqn:Hn; [|done].
  destruct (c !! "address") as [ad|] eqn:Had; [|done].
  cbn. intros _. eexists _, c, o. split; [done|].
  repeat (split; [done|]). done.
Qed.

(** X16: an accepted purchase on the marketplace. The whole sale is
    recorded; the offer was available at the offered price; the name and
    the address of the customer go into the confirmation for the vendor,
    while the confirmation for the customer has the purchase id, the
    title and the price and nothing else. *)
Theorem accepted_offer_purchase s cid k p :
  accepted (purchase_handler cid k p s).1 = true →
  offer_sale_recorded s (purchase_handler cid k p s).2 cid k p
  ∧ ∃ a c o,
      (purchase_handler cid k p s).1 = Return (Accepted a)
      ∧ customers (db s) !! cid = Some c
      ∧ lookup_offer s k = Some o ∧ available o = true
      ∧ py_ne (price o) p = false
      ∧ vendor_confirmation a !! "shipping_address" = c !! "address"
      ∧ vendor_confirmation a !! "customer_name" = c !! "name"
      ∧ is_Some (c !! "address") ∧ is_Some (c !! "name")
      ∧ dom (customer_confirmation a)
        = {["purchase_id"; "book_title"; "price"]}
      ∧ customer_confirmation a !! "purchase_id"
        = Some (VInt (next_purchase_id s)).
Proof. apply purchase_handler_accepted. Qed.

Lemma step_keeps_sold c s k :
  keys_below_counter s → offer_unavailable k s →
  offer_unavailable k (step c s).2.
Proof.
  intros Hs [o [Ho Ha]]. pose proof (offer_below_counter s k o Hs Ho).
  unfold offer_unavailable, lookup_offer in *.
  destruct (step_offer_effect c s) as [Eo No|Eo No|o0 Eo No|k0 Eo No];
    rewrite Eo.
  - by exists o.
  - by exists o.
  - exists o. rewrite lookup_insert_ne by lia. done.
  - destruct (decide (k0 = k)) as [->|].
    + exists (sold o). rewrite lookup_alter_eq, Ho. done.
    + exists o. rewrite lookup_alter_ne by done. done.
Qed.

Lemma purchase_handler_keys_below s cid k p :
  keys_below_counter s → keys_below_counter (purchase_handler cid k p s).2.
Proof.
  intros Hs. pose proof (step_offers_below (PurchaseHandler cid k p) s Hs) as H.
  unfold step, map_result in H. unfold_method.
  destruct (purchase_handler cid k p s) as [[r|e] s1]; done.
Qed.

(** X17: an offer is sold once. On a new marketplace, after any calls:
    once a purchase of offer [k] has been accepted, whatever calls follow,
    every further purchase of [k] is rejected, with the reply of an
    unknown customer or with [Book offer not available], and changes
    nothing. *)
Theorem sold_offer_is_not_sold_again pre cid1 p1 k mid cid2 p2 :
  let s := after step BookMarketplace_init pre in
  let s2 := after step (purchase_handler cid1 k p1 s).2 mid in
  accepted (purchase_handler cid1 k p1 s).1 = true →
  purchase_handler cid2 k p2 s2 = (Return (Rejected "Customer not found"), s2)
  ∨ purchase_handler cid2 k p2 s2
    = (Return (Rejected "Book offer not available"), s2).
Proof.
  intros s s2 Hacc.
  assert (Hs : keys_below_counter s).
  { apply (after_inv step keys_below_counter); [apply step_offers_below|].
    intros k'. simpl. rewrite dom_empty. set_solver. }
  apply purchase_handler_accepted in Hacc as [[[o [Ho Ho']] _] _].
  assert (Hu : offer_unavailable k s2).
  { apply (after_inv step (λ s, keys_below_counter s ∧ offer_unavailable k s)).
    - intros c s1 [? ?]. split; [by apply step_offers_below|].
      by apply step_keeps_sold.
    - split; [by apply purchase_handler_keys_below|].
      by exists (sold o). }
  destruct Hu as [o2 [Ho2 Ha2]].
  destruct (customers (db s2) !! cid2) as [c|] eqn:Hc.
  - right. apply purchase_handler_refusal. by econstructor.
  - left. apply purchase_handler_refusal. by constructor.
Qed.

(** X18: a purchase that raises after the sale. When every check of
    [purchase_handler] passes but the record of the customer has no name,
    the call raises [KeyError('name')], and the sale is recorded all the
    same: the offer is sold and the purchase stored. *)
Theorem purchase_by_nameless_customer_raises_after_the_sale s cid k p c o :
  customers (db s) !! cid = Some c →
  lookup_offer s k = Some o →
  available o = true →
  py_ne (price o) p = false →
  c !! "name" = None →
  (purchase_handler cid k p s).1 = Raise (KeyError (VStr "name"))
  ∧ offer_sale_recorded s (purchase_handler cid k p s).2 cid k p.
Proof.
  intros Hc Ho Ha Hne Hn. unfold lookup_offer in *.
  assert (Hr : (purchase_handler cid k p s).1 = Raise (KeyError (VStr "name"))).
  { sale_cases. rewrite Hc, Ho, Ha. simpl. rewrite Hne.
    unfold subscript. rewrite Hn. done. }
  split; [done|].
  destruct (purchase_handler_effect s cid k p) as [Hsame|Hsale]; [|done].
  exfalso. revert Hsame. sale_cases. rewrite Hc, Ho, Ha. simpl. rewrite Hne.
  unfold subscript. rewrite Hn. simpl.
  intros Hs. apply (f_equal next_purchase_id) in Hs. simpl in Hs. lia.
Qed.
End MarketplaceHandlers.

Lemma offer_lacking_a_field_witness :
  (∃ e, (Marketplace.offer_handler 1 book_without_price test_registered).1
        = Raise e)
  ↔ ∃ f, f ∈ offer_fields ∧ book_without_price !! f = None.
Proof.
  refine (proj1 (offer_lacking_a_field_spends_a_key test_registered 1
                   book_without_price _)).
  apply (elem_of_dom_2 _ 1 {[ "name" := VStr "Book Haven" ]}). by_vm.
Defined.

Lemma offer_handler_then_lookup_witness :
  (Marketplace.offer_handler 1 test_book_info test_registered).1
  = Return (Accepted (Marketplace.next_offer_id test_registered)).
Proof.
  refine (proj1 (offer_handler_then_lookup test_registered 1 test_book_info _)).
  by_vm.
Defined.

Lemma accepted_offer_purchase_witness :
  offer_sale_recorded test_offered
    (Marketplace.purchase_handler 1 1 (VFloat 29.99) test_offered).2
    1 1 (VFloat 29.99).
Proof.
  refine (proj1 (accepted_offer_purchase test_offered 1 1 (VFloat 29.99) _)).
  by_vm.
Defined.

Lemma sold_offer_is_not_sold_again_witness :
  let s := after Marketplace.step Marketplace.BookMarketplace_init
             [Marketplace.AssignCustomers test_customers;
              Marketplace.AssignVendors test_vendors;
              Marketplace.OfferHandler 1 test_book_info] in
  let s2 := after Marketplace.step
              (Marketplace.purchase_handler 1 1 (VFloat 29.99) s).2
              [Marketplace.OfferHandler 2 test_book_info2] in
  Marketplace.purchase_handler 2 1 (VFloat 29.99) s2
  = (Return (Rejected "Customer not found"), s2)
  ∨ Marketplace.purchase_handler 2 1 (VFloat 29.99) s2
    = (Return (Rejected "Book offer not available"), s2).
Proof.
  refine (sold_offer_is_not_sold_again
            [Marketplace.AssignCustomers test_customers;
             Marketplace.AssignVendors test_vendors;
             Marketplace.OfferHandler 1 test_book_info]
            1 (VFloat 29.99) 1
            [Marketplace.OfferHandler 2 test_book_info2] 2 (VFloat 29.99) _).
  by_vm.
Defined.

Lemma purchase_by_nameless_customer_witness :
  (Marketplace.purchase_handler 3 1 (VFloat 29.99) test_nameless).1
  = Raise (KeyError (VStr "name")).
Proof.
  refine (proj1 (purchase_by_nameless_customer_raises_after_the_sale
            test_nameless 3 1 (VFloat 29.99) nameless_customer
            (Marketplace.mkOffer
               (VStr "Python Programming for Beginners") (VStr "Jane Doe")
               (VInt 2024) (VStr "3rd") (VStr "Tech Books") (VStr "new")
               (VStr "A comprehensive guide to Python programming")
               (VFloat 29.99) 1 true)
            _ _ _ _ _));
    by_vm.
Defined.

(** ** The labelled database of [bookmarket.py] *)

Section BookMarketDB.
Import BookMarket.
Variable float_str : float → string.
Implicit Types db : BookMarketDB.
Implicit Types o : labeled_offer.

Lemma get_value_allowed {A} (cell : SecureVariable A) (C : Z) :
  security_level cell ≤ C → (get_value cell C).1 = Return (value cell).
Proof.
  intros HC. unfold get_value, SecurityLevel.can_flow.
  apply Z.leb_le in HC. by rewrite HC.
Qed.

Lemma alter_at_same {A} (f : A → A) (l : list A) i x :
  l !! i = Some x → f x = x → alter f i l = l.
Proof.
  intros Hi Hf. apply list_eq. intros j.
  destruct (decide (i = j)) as [<-|].
  - by rewrite list_lookup_alter_eq, Hi; simpl; rewrite Hf.
  - by rewrite list_lookup_alter_ne.
Qed.

Ltac offer_cases :=
  unfold add_book_offer; unfold_method; cbn.

Lemma add_book_offer_effect d ctx db :
  let r := add_book_offer d ctx db in
  let offers := value (book_offers db) in
  (is_Return r.1 = true
   ↔ SecurityLevel.VENDOR ≤ ctx
     ∧ ∀ f, f ∈ offer_data_fields → is_Some (d !! f))
  ∧ (is_Return r.1 = false → r.2 = db)
  ∧ (is_Return r.1 = true →
     r.1 = Return (next_id offers)
     ∧ ∃ o, r.2 = set_offers (λ l, (l ++ [o])%list) db
            ∧ value (offer_id o) = next_id offers
            ∧ value (available_view o) = true
            ∧ value (_available o) = true
            ∧ labelled_as_built o
            ∧ d !! "title" = Some (value (title o))
            ∧ d !! "author" = Some (value (author o))
            ∧ d !! "year" = Some (value (year o))
            ∧ d !! "publisher" = Some (value (publisher o))
            ∧ d !! "condition" = Some (value (condition o))
            ∧ d !! "description" = Some (value (description o))
            ∧ d !! "price" = Some (value (price o))
            ∧ d !! "vendor_id" = Some (value (vendor_id o))).
Proof.
  cbv zeta. offer_cases. unfold SecurityLevel.can_flow, offer_data_fields.
  destruct (Z.leb_spec SecurityLevel.VENDOR ctx) as [Hctx|Hctx]; simpl.
  2: { split; [split; [done|intros [? _]; lia]|done]. }
  unfold subscript.
  destruct (d !! "title") as [?|] eqn:H1;
  [destruct (d !! "author") as [?|] eqn:H2;
  [destruct (d !! "year") as [?|] eqn:H3;
  [destruct (d !! "publisher") as [?|] eqn:H4;
  [destruct (d !! "condition") as [?|] eqn:H5;
  [destruct (d !! "description") as [?|] eqn:H6;
  [destruct (d !! "price") as [?|] eqn:H7;
  [destruct (d !! "vendor_id") as [?|] eqn:H8|]|]|]|]|]|]|]; cbn.
  1: { split; [split; [intros _|done]|].
       - split; [done|]. intros f Hf. set_unfold in Hf.
         destruct_or?; subst; eauto.
       - split; [done|]. intros _. split; [done|]. eexists. split; [done|].
         simpl. repeat split; done. }
  all: split; [split; [done|]|done].
  all: intros [_ Hall].
  1: destruct (Hall "vendor_id") as [? ?]; [set_solver|congruence].
  1: destruct (Hall "price") as [? ?]; [set_solver|congruence].
  1: destruct (Hall "description") as [? ?]; [set_solver|congruence].
  1: destruct (Hall "condition") as [? ?]; [set_solver|congruence].
  1: destruct (Hall "publisher") as [? ?]; [set_solver|congruence].
  1: destruct (Hall "year") as [? ?]; [set_solver|congruence].
  1: destruct (Hall "author") as [? ?]; [set_solver|congruence].
  1: destruct (Hall "title") as [? ?]; [set_solver|congruence].
Qed.

(** X19: an offer is appended, or nothing changes. [add_book_offer]
    returns exactly when the context is at least [VENDOR] and
    [offer_data] has the eight fields; it then returns the id
    [book_(n+1)] for a database of [n] offers and appends one offer with
    that id, the data of [offer_data], both availability cells [True] and
    the levels of the dict literal; when it raises, for the context or
    for a missing field, the database is as before and no id is spent. *)
Theorem add_book_offer_appends_or_changes_nothing d ctx db :
  let r := add_book_offer d ctx db in
  let offers := value (book_offers db) in
  (is_Return r.1 = true
   ↔ SecurityLevel.VENDOR ≤ ctx
     ∧ ∀ f, f ∈ offer_data_fields → is_Some (d !! f))
  ∧ (is_Return r.1 = false → r.2 = db)
  ∧ (is_Return r.1 = true →
     r.1 = Return (next_id offers)
     ∧ ∃ o, r.2 = set_offers (λ l, (l ++ [o])%list) db
            ∧ value (offer_id o) = next_id offers
            ∧ value (available_view o) = true
            ∧ value (_available o) = true
            ∧ labelled_as_built o
            ∧ d !! "title" = Some (value (title o))
            ∧ d !! "author" = Some (value (author o))
            ∧ d !! "year" = Some (value (year o))
            ∧ d !! "publisher" = Some (value (publisher o))
            ∧ d !! "condition" = Some (value (condition o))
            ∧ d !! "description" = Some (value (description o))
            ∧ d !! "price" = Some (value (price o))
            ∧ d !! "vendor_id" = Some (value (vendor_id o))).
Proof. apply add_book_offer_effect. Qed.

Lemma alter_at_ext {A} (f g : A → A) (l : list A) i x :
  l !! i = Some x → f x = g x → alter f i l = alter g i l.
Proof.
  intros Hi Hf. apply list_eq. intros j.
  destruct (decide (i = j)) as [<-|].
  - by rewrite !list_lookup_alter_eq, Hi; simpl; rewrite Hf.
  - by rewrite !list_lookup_alter_ne.
Qed.

Lemma purchase_book_on_as_built b c p ctx db :
  as_built db → SecurityLevel.CUSTOMER ≤ ctx →
  purchase_book float_str b c p ctx db = purchase_book_as_built float_str b c p db.
Proof.
  intros Hdb Hctx. pose proof Hdb as (Lc & Lv & Lo & Lp & Hlab & Hid).
  unfold purchase_book, purchase_book_as_built.
  destruct (Z.ltb_spec ctx SecurityLevel.CUSTOMER) as [?|_]; [lia|].
  unfold bind at 1, gets at 1.
  destruct (list_find _ _) as [[i o]|] eqn:Hfind; [|done].
  apply list_find_Some in Hfind as (Hi & Hb & _).
  pose proof (proj1 (Forall_lookup _ _) Hlab i o Hi)
    as (Li & Lt & La & Ly & Lpu & Lco & Lde & Lpr & Lve & Lvi & Lav).
  pose proof (lookup_lt_Some _ _ _ Hi) as Hlen.
  assert (Hpub : SecurityLevel.PUBLIC ≤ ctx)
    by (unfold SecurityLevel.CUSTOMER, SecurityLevel.PUBLIC in *; lia).
  assert (Hsame : set_offers
            (alter (with_available_view (λ _, available_view o)) i) db = db).
  { unfold set_offers. rewrite (alter_at_same _ _ i o Hi).
    - by destruct db as [? ? [] ?].
    - unfold with_available_view. by destruct o. }
  unfold bind at 1, read at 1, eval at 1.
  rewrite (get_value_allowed (available_view o)) by lia.
  unfold bind at 1, try_except at 1, bind at 1, read at 1, eval at 1.
  rewrite (get_value_allowed (_available o)) by lia.
  destruct (value (_available o)) eqn:Hreal;
    destruct (value (available_view o)) eqn:Hview; simpl; [| | |done].
  3: unfold set_in_offer, set_value, SecurityLevel.can_flow; rewrite Lvi;
    unfold bind at 2, modify at 1, eval at 1; simpl; rewrite Hsame.
  all: unfold bind at 1, read at 1, eval at 1;
    rewrite (get_value_allowed (price o)) by lia;
    destruct (py_ne p (value (price o))); [done|];
    unfold try_except at 1, bind at 1, read at 1, eval at 1;
    rewrite (get_value_allowed (customers db)) by lia;
    destruct (value (customers db) !! c) as [cu|]; [|done];
    unfold bind at 1, eval at 1, subscript at 1;
    destruct (cu !! "name") as [n|] eqn:Hn; [|done].
  all: unfold set_in_offer, _update_availability_view, read;
    unfold set_value, SecurityLevel.can_flow, SecurityLevel.PLATFORM;
    rewrite Lav; unfold_method; simpl;
    rewrite length_alter, Nat2Z.id;
    replace (Z.of_nat i <? 0) with false by (symmetry; apply Z.ltb_ge; lia);
    replace (Z.of_nat (length (value (book_offers db))) <=? Z.of_nat i)
      with false by (symmetry; apply Z.leb_gt; lia);
    simpl; rewrite (get_value_allowed (vendor_id o)) by lia;
    rewrite (get_value_allowed (purchases db)) by (rewrite Lp; done);
    rewrite Lp; simpl;
    rewrite (get_value_allowed (title o)) by lia;
    unfold subscript; rewrite Hn;
    destruct (cu !! "address"); [|try done];
    [destruct (cu !! "opt_in"); try done|].
  all: f_equal; unfold after_sale, set_purchases_cell, set_offers,
    set_value_of, purchase_record; simpl; rewrite Lp; f_equal; f_equal;
    f_equal; apply (alter_at_ext _ _ _ _ o Hi); unfold with_available;
    by rewrite Lav.
Qed.

(** *** The database stays as built *)

Lemma init_as_built : as_built BookMarketDB_init.
Proof.
  unfold as_built. simpl. repeat split; try done;
    intros i o Hi; by rewrite lookup_nil in Hi.
Qed.

Lemma as_built_append db o :
  as_built db → labelled_as_built o →
  value (offer_id o) = next_id (value (book_offers db)) →
  as_built (set_offers (λ l, (l ++ [o])%list) db).
Proof.
  intros (Lc & Lv & Lo & Lp & Hlab & Hid) Ho Hido.
  unfold as_built. simpl. repeat split; try done.
  - apply Forall_app. split; [done|]. by apply Forall_singleton.
  - intros i o' Hi. apply lookup_app_Some in Hi as [Hi|[Hlen Hi]].
    + by apply Hid.
    + apply list_lookup_singleton_Some in Hi as [Hi <-].
      rewrite Hido. unfold next_id. do 2 f_equal. lia.
Qed.

Lemma as_built_alter db (f : labeled_offer → labeled_offer) i :
  as_built db →
  (∀ o, labelled_as_built o → labelled_as_built (f o)) →
  (∀ o, offer_id (f o) = offer_id o) →
  as_built (set_offers (alter f i) db).
Proof.
  intros (Lc & Lv & Lo & Lp & Hlab & Hid) Hf Hfid.
  unfold as_built. simpl. repeat split; try done.
  - apply Forall_lookup. intros j o Hj.
    destruct (decide (i = j)) as [<-|].
    + rewrite list_lookup_alter_eq in Hj.
      destruct (value (book_offers db) !! i) as [o0|] eqn:Hi; [|done].
      injection Hj as <-. apply Hf. by apply (proj1 (Forall_lookup _ _) Hlab i).
    + rewrite list_lookup_alter_ne in Hj by done.
      by apply (proj1 (Forall_lookup _ _) Hlab j).
  - intros j o Hj. destruct (decide (i = j)) as [<-|].
    + rewrite list_lookup_alter_eq in Hj.
      destruct (value (book_offers db) !! i) as [o0|] eqn:Hi; [|done].
      injection Hj as <-. rewrite Hfid. by apply Hid.
    + rewrite list_lookup_alter_ne in Hj by done. by apply Hid.
Qed.

Lemma as_built_after_sale db i record :
  as_built db → as_built (after_sale i record db).
Proof.
  intros Hdb. unfold after_sale.
  assert (H1 : as_built (set_offers
     (alter (with_available_view (set_value_of false) ∘
             with_available (set_value_of false)) i) db)).
  { apply as_built_alter; [done| |done].
    intros o (?&?&?&?&?&?&?&?&?&?&?). by repeat split. }
  destruct H1 as (Lc & Lv & Lo & Lp & Hlab & Hid).
  unfold as_built. simpl in *. rewrite list_alter_alter_eq.
  destruct Hdb as (? & ? & ? & Lp' & _). by repeat split.
Qed.

Lemma add_book_offer_as_built d ctx db :
  as_built db → as_built (add_book_offer d ctx db).2.
Proof.
  intros Hdb.
  destruct (add_book_offer_effect d ctx db)
    as (_ & Hno & Hyes).
  destruct (is_Return (add_book_offer d ctx db).1) eqn:Hr.
  - destruct (Hyes eq_refl) as (_ & o & -> & Hid & _ & _ & Hlab & _).
    by apply as_built_append.
  - by rewrite Hno.
Qed.

Lemma update_view_as_built idx v ctx db :
  as_built db → as_built (_update_availability_view idx v ctx db).2.
Proof.
  intros Hdb. unfold _update_availability_view. unfold_method.
  destruct (ctx <? SecurityLevel.PLATFORM); [done|].
  destruct (_ || _); [done|]. simpl.
  apply as_built_alter; [done| |done].
  intros o (?&?&?&?&?&?&?&?&?&?&?). by repeat split.
Qed.

Lemma purchase_book_as_built_effect b c p db :
  (purchase_book_as_built float_str b c p db).2 = db
  ∨ ∃ i o, list_find (λ o, value (offer_id o) = b) (value (book_offers db))
           = Some (i, o)
           ∧ (purchase_book_as_built float_str b c p db).2
             = after_sale i (purchase_record b c o) db.
Proof.
  unfold purchase_book_as_built.
  destruct (list_find _ _) as [[i o]|]; [|by left].
  repeat (case_match; simpl; try (by left)); right; by exists i, o.
Qed.

Lemma purchase_book_keeps_as_built b c p ctx db :
  as_built db → as_built (purchase_book float_str b c p ctx db).2.
Proof.
  intros Hdb. destruct (Z.ltb_spec ctx SecurityLevel.CUSTOMER) as [Hlt|Hge].
  - unfold purchase_book. apply Z.ltb_lt in Hlt. by rewrite Hlt.
  - rewrite purchase_book_on_as_built by done.
    destruct (purchase_book_as_built_effect b c p db)
      as [->|(i & o & _ & ->)]; [done|].
    by apply as_built_after_sale.
Qed.

Lemma try_except_state {S A} (body : method S A) (f : string → A) s :
  (try_except body (λ msg, ret (f msg)) s).2 = (body s).2.
Proof.
  unfold try_except, ret. destruct (body s) as [[a|[msg|k|]] s']; done.
Qed.

Lemma handle_offer_state d db :
  (handle_offer d db).2 = (add_book_offer d SecurityLevel.VENDOR db).2.
Proof.
  unfold handle_offer. rewrite try_except_state.
  apply (map_result_state Done).
Qed.

Lemma handle_purchase_state b c p db :
  (handle_purchase float_str b c p db).2
  = (purchase_book float_str b c p SecurityLevel.CUSTOMER db).2.
Proof.
  unfold handle_purchase. rewrite try_except_state.
  apply (map_result_state Done).
Qed.

Lemma step_as_built c db :
  as_built db → as_built (step float_str c db).2.
Proof.
  intros Hdb. destruct c; simpl; rewrite map_result_state.
  - rewrite handle_offer_state. by apply add_book_offer_as_built.
  - rewrite handle_purchase_state. by apply purchase_book_keeps_as_built.
  - by apply add_book_offer_as_built.
  - by apply update_view_as_built.
  - by apply purchase_book_keeps_as_built.
Qed.

Lemma after_as_built calls :
  as_built (after (step float_str) BookMarketDB_init calls).
Proof.
  apply (after_inv (step float_str) as_built);
    [apply step_as_built|apply init_as_built].
Qed.

Lemma find_by_position db i o :
  as_built db → value (book_offers db) !! i = Some o →
  list_find (λ o', value (offer_id o') = value (offer_id o))
    (value (book_offers db)) = Some (i, o).
Proof.
  intros (_ & _ & _ & _ & _ & Hid) Hi. apply list_find_Some.
  split; [done|]. split; [done|]. intros j o' Hj Hlt Heq.
  rewrite (Hid _ _ Hi), (Hid _ _ Hj) in Heq.
  apply (inj (String.app "book_")) in Heq.
  apply (inj pretty) in Heq. lia.
Qed.

(** X20: the ids of the offers. On the database of the module, after
    any calls, the offer at position [i] has the id [book_(i+1)], so the
    ids are pairwise distinct, and looking an offer up by its id, as
    [purchase_book] does, finds that offer and no other. *)
Theorem offers_are_found_by_their_id calls :
  let db := after (step float_str) BookMarketDB_init calls in
  as_built db
  ∧ NoDup ((λ o, value (offer_id o)) <$> value (book_offers db))
  ∧ ∀ i o, value (book_offers db) !! i = Some o →
           list_find (λ o', value (offer_id o') = value (offer_id o))
             (value (book_offers db)) = Some (i, o).
Proof.
  intros db.
  assert (Hdb : as_built db).
  { apply (after_inv (step float_str) as_built);
      [apply step_as_built|apply init_as_built]. }
  split; [done|]. split; [|intros i o; by apply find_by_position].
  apply NoDup_alt. intros i j s Hi Hj.
  apply list_lookup_fmap_Some in Hi as (oi & -> & Hi).
  apply list_lookup_fmap_Some in Hj as (oj & Heq & Hj).
  pose proof (find_by_position db i oi Hdb Hi) as Fi.
  pose proof (find_by_position db j oj Hdb Hj) as Fj.
  rewrite Heq in Fi. rewrite Fi in Fj. by injection Fj.
Qed.

(** *** Purchases on a database as built *)

Lemma after_sale_lookup db i o record :
  value (book_offers db) !! i = Some o →
  value (book_offers (after_sale i record db)) !! i
  = Some (with_available_view (set_value_of false)
            (with_available (set_value_of false) o))
  ∧ (∀ j, j ≠ i → value (book_offers (after_sale i record db)) !! j
                  = value (book_offers db) !! j)
  ∧ value (purchases (after_sale i record db))
    = (value (purchases db) ++ [record])%list
  ∧ customers (after_sale i record db) = customers db
  ∧ vendors (after_sale i record db) = vendors db.
Proof.
  intros Hi. unfold after_sale. simpl. split; [|split; [|done]].
  - by rewrite !list_lookup_alter_eq, Hi.
  - intros j Hj. by rewrite !list_lookup_alter_ne.
Qed.

Lemma purchase_book_accepted b c p ctx db :
  as_built db → SecurityLevel.CUSTOMER ≤ ctx →
  accepted (purchase_book float_str b c p ctx db).1 = true →
  ∃ i o cu a,
    list_find (λ o, value (offer_id o) = b) (value (book_offers db))
    = Some (i, o)
    ∧ (value (_available o) = true ∨ value (available_view o) = true)
    ∧ py_ne p (value (price o)) = false
    ∧ value (customers db) !! c = Some cu
    ∧ (purchase_book float_str b c p ctx db).1 = Return (Accepted a)
    ∧ confirmation a !! "shipping_address" = cu !! "address"
    ∧ vendor_notification a !! "shipping_address" = cu !! "address"
    ∧ is_Some (cu !! "address")
    ∧ let db' := (purchase_book float_str b c p ctx db).2 in
      (∃ o', value (book_offers db') !! i = Some o'
             ∧ value (available_view o') = false
             ∧ value (_available o') = false
             ∧ value (offer_id o') = b ∧ price o' = price o)
      ∧ (∀ j, j ≠ i → value (book_offers db') !! j
                      = value (book_offers db) !! j)
      ∧ value (purchases db')
        = (value (purchases db) ++ [purchase_record b c o])%list
      ∧ customers db' = customers db
      ∧ vendors db' = vendors db.
Proof.
  intros Hdb Hctx. rewrite purchase_book_on_as_built by done.
  unfold purchase_book_as_built.
  destruct (list_find _ _) as [[i o]|] eqn:Hfind; [|done].
  apply list_find_Some in Hfind as Hfound. destruct Hfound as (Hi & Hb & _).
  destruct (value (_available o)) eqn:Hreal;
    destruct (value (available_view o)) eqn:Hview; simpl; try done.
  all: destruct (py_ne p (value (price o))) eqn:Hne; [done|].
  all: destruct (value (customers db) !! c) as [cu|] eqn:Hc; [|done].
  all: destruct (cu !! "name") as [n|] eqn:Hn; [|done].
  all: destruct (cu !! "address") as [ad|] eqn:Had; [|done].
  all: destruct (cu !! "opt_in") as [op|] eqn:Hop; [|done].
  all: intros _; exists i, o, cu; eexists.
  all: split; [done|]; split; [by auto|]; split; [done|]; split; [done|].
  all: split; [done|]; simpl.
  all: split; [done|]; split; [done|].
  all: split; [by eexists|].
  all: destruct (after_sale_lookup db i o (purchase_record b c o) Hi)
    as (Hl & Hothers & Hps & Hcs & Hvs).
  all: split; [|done]; eexists; split; [exact Hl|]; done.
Qed.

(** X21: an accepted purchase on the labelled database. On a database
    as built and in a context of a customer or above, an accepted
    [purchase_book] found the offer with that id, with its real status or
    its public view still [True], at the offered price, for a registered
    customer; afterwards both availability cells of the offer hold
    [False], one record of the purchase is appended, the other offers, the
    customers and the vendors are as before, and the address of the
    customer is in the confirmation and in the notification of the
    vendor. *)
Theorem accepted_purchase_book b c p ctx db :
  as_built db → SecurityLevel.CUSTOMER ≤ ctx →
  accepted (purchase_book float_str b c p ctx db).1 = true →
  ∃ i o cu a,
    list_find (λ o, value (offer_id o) = b) (value (book_offers db))
    = Some (i, o)
    ∧ (value (_available o) = true ∨ value (available_view o) = true)
    ∧ py_ne p (value (price o)) = false
    ∧ value (customers db) !! c = Some cu
    ∧ (purchase_book float_str b c p ctx db).1 = Return (Accepted a)
    ∧ confirmation a !! "shipping_address" = cu !! "address"
    ∧ vendor_notification a !! "shipping_address" = cu !! "address"
    ∧ is_Some (cu !! "address")
    ∧ let db' := (purchase_book float_str b c p ctx db).2 in
      (∃ o', value (book_offers db') !! i = Some o'
             ∧ value (available_view o') = false
             ∧ value (_available o') = false
             ∧ value (offer_id o') = b ∧ price o' = price o)
      ∧ (∀ j, j ≠ i → value (book_offers db') !! j
                      = value (book_offers db) !! j)
      ∧ value (purchases db')
        = (value (purchases db) ++ [purchase_record b c o])%list
      ∧ customers db' = customers db
      ∧ vendors db' = vendors db.
Proof. apply purchase_book_accepted. Qed.

(** X22: a purchase that is refused on the labelled database. Below the
    level of a customer [purchase_book] raises; on a database as built
    and from that level on, a reply that is not a success carries one of
    four messages, and in every one of these cases the database is as
    before. *)
Theorem refused_purchase_book_changes_nothing b c p ctx db :
  (ctx < SecurityLevel.CUSTOMER →
   purchase_book float_str b c p ctx db
   = (Raise (SecurityException
               "Security violation: Insufficient permissions for purchase"),
      db))
  ∧ (as_built db → SecurityLevel.CUSTOMER ≤ ctx →
     ∀ msg, (purchase_book float_str b c p ctx db).1 = Return (Rejected msg) →
       (purchase_book float_str b c p ctx db).2 = db
       ∧ (msg = "Book not found"
          ∨ msg = "Book is no longer available"
          ∨ (∃ v, msg = "Price mismatch. Expected: " +:+ py_str float_str v)
          ∨ msg = "Customer not found")).
Proof.
  split.
  - intros Hlt. unfold purchase_book. apply Z.ltb_lt in Hlt. by rewrite Hlt.
  - intros Hdb Hctx msg. rewrite purchase_book_on_as_built by done.
    unfold purchase_book_as_built.
    repeat (case_match; simpl; try done); intros [= <-]; split; try done;
      eauto 6.
Qed.

(** X23: when a book is no longer available. On a database as built
    and in a context of a customer or above, the purchase of an offer
    that is there is refused as no longer available exactly when both its
    real status and its public view are [False]. With the real status
    [False] and the view still [True] the purchase goes on: the write
    that would bring the view in line is made in the platform context on
    a public cell, [set_value] raises, and the handler of the exception
    lets the purchase continue. *)
Theorem no_longer_available_needs_both_flags b c p ctx db i o :
  as_built db → SecurityLevel.CUSTOMER ≤ ctx →
  value (book_offers db) !! i = Some o →
  value (offer_id o) = b →
  ((purchase_book float_str b c p ctx db).1
   = Return (Rejected "Book is no longer available")
   ↔ value (_available o) = false ∧ value (available_view o) = false)
  ∧ is_Return
      (set_value (available_view o) false SecurityLevel.PUBLIC
         SecurityLevel.PLATFORM).1 = false.
Proof.
  intros Hdb Hctx Hi Hb. subst b.
  pose proof (find_by_position db i o Hdb Hi) as Hfind.
  rewrite purchase_book_on_as_built by done.
  unfold purchase_book_as_built. rewrite Hfind. split.
  - destruct (value (_available o)), (value (available_view o)); simpl.
    4: done.
    all: split; [|by intros [? ?]].
    all: repeat (case_match; simpl; try done).
  - destruct Hdb as (_ & _ & _ & _ & Hlab & _).
    pose proof (proj1 (Forall_lookup _ _) Hlab i o Hi)
      as (_&_&_&_&_&_&_&_&_& Lvi & _).
    unfold set_value, SecurityLevel.can_flow. rewrite Lvi. done.
Qed.

(** X24: the declassification point. [_update_availability_view]
    raises below the level of the platform and returns [False] for an
    index that is out of range, the database unchanged in both cases;
    from the platform level on and for the index of an offer it replaces
    the value of the public view of that offer and nothing else, although
    [set_value] on that cell, in the same context and from whatever
    source level, raises whenever the context is above the level of the
    cell. *)
Theorem update_view_goes_past_the_write_check idx v ctx db :
  (ctx < SecurityLevel.PLATFORM →
   _update_availability_view idx v ctx db
   = (Raise (SecurityException
        "Security violation: Only platform can update availability view"),
      db))
  ∧ (SecurityLevel.PLATFORM ≤ ctx →
     (idx < 0 ∨ Z.of_nat (length (value (book_offers db))) ≤ idx →
      _update_availability_view idx v ctx db = (Return false, db))
     ∧ ∀ o, 0 ≤ idx → value (book_offers db) !! Z.to_nat idx = Some o →
         (_update_availability_view idx v ctx db).1 = Return true
         ∧ (let db' := (_update_availability_view idx v ctx db).2 in
            value (book_offers db') !! Z.to_nat idx
            = Some (with_available_view (set_value_of v) o)
            ∧ (∀ j, j ≠ Z.to_nat idx →
                    value (book_offers db') !! j = value (book_offers db) !! j)
            ∧ customers db' = customers db ∧ vendors db' = vendors db
            ∧ purchases db' = purchases db)
         ∧ (∀ src, security_level (available_view o) < ctx →
              is_Return (set_value (available_view o) v src ctx).1 = false)).
Proof.
  unfold _update_availability_view. unfold_method. split.
  - intros Hlt. apply Z.ltb_lt in Hlt. by rewrite Hlt.
  - intros Hge. apply Z.ltb_ge in Hge. rewrite Hge. split.
    + intros [Hneg|Hbig].
      * apply Z.ltb_lt in Hneg. by rewrite Hneg.
      * apply Z.leb_le in Hbig. rewrite Hbig. by rewrite orb_true_r.
    + intros o Hidx Ho. pose proof (lookup_lt_Some _ _ _ Ho) as Hlen.
      replace (idx <? 0) with false by (symmetry; apply Z.ltb_ge; lia).
      replace (Z.of_nat (length (value (book_offers db))) <=? idx)
        with false by (symmetry; apply Z.leb_gt; lia).
      simpl. split; [done|]. split.
      * split; [by rewrite list_lookup_alter_eq, Ho|].
        split; [|done]. intros j Hj. by rewrite list_lookup_alter_ne.
      * intros src Hlev. unfold set_value, SecurityLevel.can_flow.
        replace (ctx <=? security_level (available_view o)) with false
          by (symmetry; apply Z.leb_gt; lia).
        by rewrite andb_false_r.
Qed.

Lemma handle_purchase_on_as_built b c p db :
  as_built db →
  handle_purchase float_str b c p db
  = match purchase_book_as_built float_str b c p db with
    | (Return r, db') => (Return (Done r), db')
    | (Raise e, db') => (Raise e, db')
    end.
Proof.
  intros Hdb. unfold handle_purchase, try_except. unfold_method.
  rewrite purchase_book_on_as_built by done.
  unfold purchase_book_as_built.
  repeat (case_match; simplify_eq/=; try done).
Qed.

(** X25: the handlers do not fail on a database as built. [handle_offer]
    never returns its error reply: the vendor context it runs in is the
    one [add_book_offer] asks for; [handle_purchase] never returns it
    either, and returns exactly what [purchase_book] returns in the
    context of a customer. *)
Theorem handlers_report_no_security_error d b c p db :
  as_built db →
  (∀ e, (handle_offer d db).1 ≠ Return (Failed e))
  ∧ (∀ e, (handle_purchase float_str b c p db).1 ≠ Return (Failed e))
  ∧ (∀ r, (purchase_book float_str b c p SecurityLevel.CUSTOMER db).1
          = Return r →
          handle_purchase float_str b c p db
          = (Return (Done r),
             (purchase_book float_str b c p SecurityLevel.CUSTOMER db).2)).
Proof.
  intros Hdb. split; [|split].
  - intros e. unfold handle_offer, try_except, add_book_offer. unfold_method.
    unfold SecurityLevel.can_flow, SecurityLevel.VENDOR, subscript. simpl.
    repeat (case_match; simplify_eq/=; try done).
  - intros e. rewrite handle_purchase_on_as_built by done.
    by destruct (purchase_book_as_built float_str b c p db) as [[r|e'] db'].
  - intros r. rewrite handle_purchase_on_as_built by done.
    rewrite purchase_book_on_as_built by done.
    destruct (purchase_book_as_built float_str b c p db) as [[r'|e'] db']; [|done].
    by intros [= ->].
Qed.

Lemma step_keeps_sold_at c db i :
  as_built db → no_view_reset c = true → sold_at i db →
  sold_at i (step float_str c db).2.
Proof.
  intros Hdb Hc (o & Hi & Hreal & Hview).
  assert (Happ : ∀ d ctx, sold_at i (add_book_offer d ctx db).2).
  { intros d ctx.
    destruct (add_book_offer_effect d ctx db)
      as (_ & Hno & Hyes).
    destruct (is_Return (add_book_offer d ctx db).1) eqn:Hr.
    - destruct (Hyes eq_refl) as (_ & o' & -> & _). exists o. simpl.
      split; [by apply lookup_app_l_Some|done].
    - rewrite Hno by done. by exists o. }
  assert (Hpur : ∀ b cu p ctx, sold_at i (purchase_book float_str b cu p ctx db).2).
  { intros b cu p ctx.
    destruct (Z.ltb_spec ctx SecurityLevel.CUSTOMER) as [Hlt|Hge].
    - unfold purchase_book. apply Z.ltb_lt in Hlt. rewrite Hlt. by exists o.
    - rewrite purchase_book_on_as_built by done.
      destruct (purchase_book_as_built_effect b cu p db)
        as [->|(j & oj & Hfind & ->)]; [by exists o|].
      apply list_find_Some in Hfind as (Hj & _).
      destruct (after_sale_lookup db j oj (purchase_record b cu oj) Hj)
        as (Hl & Hothers & _).
      destruct (decide (j = i)) as [->|Hne].
      + eexists. split; [exact Hl|]. done.
      + exists o. by rewrite Hothers. }
  destruct c; simpl; rewrite map_result_state.
  - rewrite handle_offer_state. apply Happ.
  - rewrite handle_purchase_state. apply Hpur.
  - apply Happ.
  - destruct new_status; [done|].
    unfold _update_availability_view. unfold_method.
    destruct (context_level <? SecurityLevel.PLATFORM); [by exists o|].
    destruct (_ || _); [by exists o|]. simpl.
    destruct (decide (Z.to_nat book_index = i)) as [->|Hne].
    + exists (with_available_view (set_value_of false) o). simpl.
      rewrite list_lookup_alter_eq, Hi. done.
    + exists o. simpl. by rewrite list_lookup_alter_ne.
  - apply Hpur.
Qed.

Lemma after_keeps_sold_at calls db i :
  as_built db → forallb no_view_reset calls = true → sold_at i db →
  as_built (after (step float_str) db calls)
  ∧ sold_at i (after (step float_str) db calls).
Proof.
  revert db. induction calls as [|c calls IH]; intros db Hdb Hcalls Hs.
  - done.
  - simpl in Hcalls. apply andb_true_iff in Hcalls as [Hc Hcalls].
    rewrite after_cons. apply IH; [by apply step_as_built|done|].
    by apply step_keeps_sold_at.
Qed.

(** X26: a book is sold once, unless its view is set back. On the
    database of the module, after any calls: once [handle_purchase] has
    accepted the purchase of a book, and whatever calls follow that do
    not set a public view back to [True], every further purchase of that
    book through the handler is refused as no longer available and
    changes nothing. *)
Theorem book_is_sold_once_by_the_handler pre b c p mid c2 p2 :
  let db := after (step float_str) BookMarketDB_init pre in
  let sold := (handle_purchase float_str b c p db).2 in
  let db2 := after (step float_str) sold mid in
  sale_done (handle_purchase float_str b c p db).1 = true →
  forallb no_view_reset mid = true →
  handle_purchase float_str b c2 p2 db2
  = (Return (Done (Rejected "Book is no longer available")), db2).
Proof.
  intros db sold db2 Ha Hmid.
  assert (Hdb : as_built db).
  { apply (after_inv (step float_str) as_built);
      [apply step_as_built|apply init_as_built]. }
  assert (Hsold : as_built sold ∧ ∃ i o,
            value (book_offers sold) !! i = Some o
            ∧ value (offer_id o) = b ∧ sold_at i sold).
  { subst sold. rewrite handle_purchase_state.
    split; [by apply purchase_book_keeps_as_built|].
    assert (Hacc : accepted
              (purchase_book float_str b c p SecurityLevel.CUSTOMER db).1
            = true).
    { revert Ha. rewrite handle_purchase_on_as_built by done.
      rewrite purchase_book_on_as_built by done.
      destruct (purchase_book_as_built float_str b c p db) as [[[?|?]|?] ?]; done. }
    apply purchase_book_accepted in Hacc; [|done..].
    destruct Hacc as (i & o & cu & a' & _ & _ & _ & _ & _ & _ & _ & _ &
                      (o' & Ho' & Hv & Hr & Hid & _) & _).
    exists i, o'. split; [done|]. split; [done|]. by exists o'. }
  destruct Hsold as (Hsb & i & o & Hi & Hid & Hs).
  destruct (after_keeps_sold_at mid sold i Hsb Hmid Hs) as (Hdb2 & o2 & Hi2 & Hr2 & Hv2).
  fold db2 in Hdb2, Hi2.
  assert (Hid2 : value (offer_id o2) = b).
  { destruct Hsb as (_&_&_&_&_& Hpos). destruct Hdb2 as (_&_&_&_&_& Hpos2).
    rewrite (Hpos2 _ _ Hi2), <- Hid. symmetry. by apply Hpos. }
  rewrite handle_purchase_on_as_built by done.
  unfold purchase_book_as_built.
  rewrite <- Hid2, (find_by_position db2 i o2 Hdb2 Hi2), Hr2, Hv2. done.
Qed.
End BookMarketDB.

Lemma accepted_purchase_book_witness :
  ∃ i o, list_find (λ o, value (BookMarket.offer_id o) = "book_1")
           (value (BookMarket.book_offers test_db)) = Some (i, o).
Proof.
  edestruct (accepted_purchase_book test_float_str "book_1" "c1"
               (VFloat 29.99) SecurityLevel.CUSTOMER test_db)
    as (i & o & _ & _ & Hfind & _).
  - apply after_as_built.
  - reflexivity.
  - by_vm.
  - by exists i, o.
Defined.

Lemma no_longer_available_witness :
  ((BookMarket.purchase_book test_float_str "book_1" "c2" (VFloat 29.99)
      SecurityLevel.CUSTOMER test_db_out_of_sync).1
   = Return (Rejected "Book is no longer available")
   ↔ value (BookMarket._available test_offer_out_of_sync) = false
     ∧ value (BookMarket.available_view test_offer_out_of_sync) = false)
  ∧ is_Return
      (set_value (BookMarket.available_view test_offer_out_of_sync) false
         SecurityLevel.PUBLIC SecurityLevel.PLATFORM).1 = false.
Proof.
  apply (no_longer_available_needs_both_flags test_float_str "book_1" "c2"
           (VFloat 29.99) SecurityLevel.CUSTOMER test_db_out_of_sync 0%nat
           test_offer_out_of_sync).
  - apply after_as_built.
  - reflexivity.
  - by_vm.
  - reflexivity.
Defined.

Lemma handlers_report_no_security_error_witness :
  (∀ e, (BookMarket.handle_offer test_offer_data2 test_db).1
        ≠ Return (BookMarket.Failed e))
  ∧ (∀ e, (BookMarket.handle_purchase test_float_str "book_1" "c1"
             (VFloat 29.99) test_db).1 ≠ Return (BookMarket.Failed e))
  ∧ (∀ r, (BookMarket.purchase_book test_float_str "book_1" "c1"
             (VFloat 29.99) SecurityLevel.CUSTOMER test_db).1 = Return r →
          BookMarket.handle_purchase test_float_str "book_1" "c1"
            (VFloat 29.99) test_db
          = (Return (BookMarket.Done r),
             (BookMarket.purchase_book test_float_str "book_1" "c1"
                (VFloat 29.99) SecurityLevel.CUSTOMER test_db).2)).
Proof.
  apply (handlers_report_no_security_error test_float_str test_offer_data2
           "book_1" "c1" (VFloat 29.99) test_db).
  apply after_as_built.
Defined.

Lemma book_is_sold_once_witness :
  let db := after (BookMarket.step test_float_str)
              BookMarket.BookMarketDB_init
              [BookMarket.HandleOffer test_offer_data] in
  let sold := (BookMarket.handle_purchase test_float_str "book_1" "c1"
                 (VFloat 29.99) db).2 in
  let db2 := after (BookMarket.step test_float_str) sold
               [BookMarket.HandleOffer test_offer_data2] in
  BookMarket.handle_purchase test_float_str "book_1" "c2" (VFloat 29.99) db2
  = (Return (BookMarket.Done (Rejected "Book is no longer available")), db2).
Proof.
  refine (book_is_sold_once_by_the_handler test_float_str
            [BookMarket.HandleOffer test_offer_data] "book_1" "c1"
            (VFloat 29.99) [BookMarket.HandleOffer test_offer_data2]
            "c2" (VFloat 29.99) _ _); by_vm.
Defined.

(** The view set back to [True] sells the book of the test a second
    time: the purchase by [c2] is accepted although the real status of
    the book is [False]. *)
Example view_reset_sells_again :
  BookMarket.sale_done
    (BookMarket.handle_purchase test_float_str "book_1" "c2" (VFloat 29.99)
       test_db_out_of_sync).1 = true.
Proof. by_vm. Qed.

(** ** The searches *)

Lemma elem_of_items_by_key {A} (m : gmap Z A) k x :
  (k, x) ∈ items_by_key m ↔ m !! k = Some x.
Proof.
  unfold items_by_key. rewrite merge_sort_Permutation.
  apply elem_of_map_to_list.
Qed.

Section PlatformSearchLaws.
Context {Principal : Type} {Principal_eq : EqDecision Principal}
        {Principal_countable : Countable Principal}.
Implicit Types s : @Platform.BookMarketPlatform Principal _ _.
Import Platform PlatformSearch.
Variable lower : string → string.

End PlatformSearchLaws.

Section MarketplaceSearchLaws.
Import Marketplace MarketplaceSearch.
Implicit Types s : BookMarketplace.
Variable lower : string → string.

Lemma some_field_contains_raises q fields e :
  some_field_contains lower q fields = inl e →
  e = AttributeError "lower" ∧ ∃ v, v ∈ fields ∧ is_str v = false.
Proof.
  induction fields as [|v fields IH]; [done|]. simpl.
  destruct v; simpl; try (intros [= <-]; split; [done|]; eexists;
    split; [left|done]).
  destruct (contains _ _); [done|]. intros He.
  destruct (IH He) as [-> [v [Hv Hs]]]. split; [done|].
  exists v. split; [by right|done].
Qed.

Lemma search_offers_cons q k o offers :
  search_offers lower q ((k, o) :: offers) =
  if negb (available o) then search_offers lower q offers
  else match some_field_contains lower q (text_fields o) with
       | inl e => inl e
       | inr hit =>
           match search_offers lower q offers with
           | inl e => inl e
           | inr found => inr (if hit then public_offer k o :: found else found)
           end
       end.
Proof. done. Qed.

Lemma search_offers_found q offers found :
  search_offers lower q offers = inr found →
  ∀ r, r ∈ found →
    ∃ k o, (k, o) ∈ offers ∧ available o = true ∧ r = public_offer k o.
Proof.
  revert found. induction offers as [|[k o] offers IH]; intros found.
  - intros [= <-] r Hr. by apply elem_of_nil in Hr.
  - rewrite search_offers_cons. destruct (available o) eqn:Ha; simpl negb; cbv iota.
    2: { intros Hf r Hr. destruct (IH _ Hf r Hr) as (k' & o' & ? & ? & ?).
         exists k', o'. split; [by right|done]. }
    destruct (some_field_contains lower q (text_fields o)) as [e|hit]; [done|].
    destruct (search_offers lower q offers) as [e|found']; [done|].
    intros [= <-] r Hr.
    assert (Hold : r ∈ found' →
      ∃ k0 o0, (k0, o0) ∈ (k, o) :: offers ∧ available o0 = true
               ∧ r = public_offer k0 o0).
    { intros Hr'. destruct (IH _ eq_refl r Hr') as (k' & o' & ? & ? & ?).
      exists k', o'. split; [by right|done]. }
    destruct hit; [|by apply Hold].
    apply elem_of_cons in Hr as [->|Hr]; [|by apply Hold].
    exists k, o. split; [left|done].
Qed.

Lemma search_offers_raises q offers e :
  search_offers lower q offers = inl e →
  e = AttributeError "lower"
  ∧ ∃ k o v, (k, o) ∈ offers ∧ available o = true
             ∧ v ∈ text_fields o ∧ is_str v = false.
Proof.
  induction offers as [|[k o] offers IH]; [done|]. rewrite search_offers_cons.
  assert (Hrest : search_offers lower q offers = inl e →
    e = AttributeError "lower"
    ∧ ∃ k0 o0 v, (k0, o0) ∈ (k, o) :: offers ∧ available o0 = true
                 ∧ v ∈ text_fields o0 ∧ is_str v = false).
  { intros He. destruct (IH He) as [-> (k' & o' & v & ? & ? & ? & ?)].
    split; [done|]. exists k', o', v. split; [by right|done]. }
  destruct (available o) eqn:Ha; simpl negb; cbv iota; [|done].
  destruct (some_field_contains lower q (text_fields o)) as [e'|hit] eqn:Hf.
  - intros [= <-]. apply some_field_contains_raises in Hf as [-> [v [Hv Hs]]].
    split; [done|]. exists k, o, v. split; [left|done].
  - destruct (search_offers lower q offers) as [e'|found']; [|done].
    intros [= <-]. by apply Hrest.
Qed.

(** X28: what a search on the marketplace shows. Every result is the
    public view of an offer that is stored and available, with the six
    keys of the view: no vendor id and no description; the search raises
    only the [AttributeError] of [lower], and only when a text field of
    an available offer is not a string. *)
Theorem search_handler_shows_the_available_offers q s :
  (∀ found, search_handler lower q s = inr found →
     ∀ r, r ∈ found →
       ∃ k o, lookup_offer s k = Some o ∧ available o = true
              ∧ r = public_offer k o
              ∧ dom r = {["offer_id"; "title"; "author"; "year";
                          "condition"; "price"]})
  ∧ (∀ e, search_handler lower q s = inl e →
       e = AttributeError "lower"
       ∧ ∃ k o v, lookup_offer s k = Some o ∧ available o = true
                  ∧ v ∈ text_fields o ∧ is_str v = false).
Proof.
  unfold search_handler, lookup_offer. split.
  - intros found Hf r Hr.
    destruct (search_offers_found q _ found Hf r Hr) as (k & o & Hko & Ha & ->).
    exists k, o. split; [by apply elem_of_items_by_key|].
    split; [done|]. split; [done|].
    unfold public_offer. rewrite !dom_insert_L, dom_singleton_L. set_solver.
  - intros e He.
    destruct (search_offers_raises q _ e He) as [-> (k & o & v & Hko & ?)].
    split; [done|]. exists k, o, v. split; [by apply elem_of_items_by_key|done].
Qed.
End MarketplaceSearchLaws.

Section BookMarketSearchLaws.
Import BookMarket BookMarketSearch.
Variable lower : string → string.
Variable isdigit : string → bool.
Variable float_str : float → string.
Implicit Types db : BookMarketDB.
Implicit Types o : labeled_offer.

Lemma read_cell_allowed {A} (cell : SecureVariable A) ctx :
  security_level cell ≤ ctx → read_cell cell ctx = inr (value cell).
Proof.
  intros H. unfold read_cell. by rewrite (get_value_allowed _ _ H).
Qed.

Lemma text_matches_public q ctx cells e :
  Forall (λ c, security_level c ≤ ctx) cells →
  text_matches lower q ctx cells = inl e → e = AttributeError "lower".
Proof.
  induction 1 as [|c cells Hc _ IH]; [done|]. simpl.
  rewrite (read_cell_allowed _ _ Hc). simpl.
  destruct (value c); simpl; try by intros [= <-].
  destruct (contains _ _); [done|]. apply IH.
Qed.

Lemma result_of_public o ctx :
  labelled_as_built o → SecurityLevel.PUBLIC ≤ ctx →
  result_of o ctx = inr (shown o).
Proof.
  intros (Hi & Ht & Ha & Hy & Hp & Hc & Hd & Hpr & Hv & _) Hctx.
  unfold result_of.
  rewrite !read_cell_allowed by (by rewrite ?Hi, ?Ht, ?Ha, ?Hy, ?Hp, ?Hc, ?Hpr, ?Hv).
  done.
Qed.

Lemma offer_matches_public q ctx o e :
  labelled_as_built o → SecurityLevel.PUBLIC ≤ ctx →
  offer_matches lower isdigit float_str q ctx o = inl e →
  e = AttributeError "lower".
Proof.
  intros (Hi & Ht & Ha & Hy & Hp & Hc & Hd & Hpr & Hv & _) Hctx.
  unfold offer_matches.
  destruct (text_matches lower q ctx _) as [e'|m] eqn:Hm; simpl.
  - intros [= <-]. eapply text_matches_public; [|exact Hm].
    repeat constructor; by rewrite ?Ht, ?Ha, ?Hp, ?Hd.
  - rewrite read_cell_allowed by (by rewrite Hy). simpl.
    by destruct (isdigit q).
Qed.

Lemma search_list_cons q ctx o offers :
  search_list lower isdigit float_str q ctx (o :: offers) =
  and_then (read_cell (available_view o) ctx) (λ view,
  if negb view then search_list lower isdigit float_str q ctx offers
  else
    and_then (offer_matches lower isdigit float_str q ctx o) (λ m,
    and_then (if m then and_then (result_of o ctx) (λ r, inr (Some r))
              else inr None) (λ r,
    and_then (search_list lower isdigit float_str q ctx offers) (λ found,
    inr (match r with Some r => r :: found | None => found end))))).
Proof. done. Qed.

Lemma search_list_public q ctx offers :
  Forall labelled_as_built offers → SecurityLevel.PUBLIC ≤ ctx →
  (∀ e, search_list lower isdigit float_str q ctx offers = inl e →
        e = AttributeError "lower")
  ∧ (∀ found, search_list lower isdigit float_str q ctx offers = inr found →
       ∀ r, r ∈ found →
         ∃ o, o ∈ offers ∧ value (available_view o) = true ∧ r = shown o).
Proof.
  intros Hall Hctx. induction Hall as [|o offers Ho _ [IHe IHf]].
  { split; [done|]. intros found [= <-] r Hr. by apply elem_of_nil in Hr. }
  rewrite search_list_cons.
  assert (Hview : security_level (available_view o) ≤ ctx).
  { destruct Ho as (_ & _ & _ & _ & _ & _ & _ & _ & _ & -> & _). done. }
  rewrite (read_cell_allowed _ _ Hview). cbn [and_then].
  assert (Hold : ∀ (found : list (gmap string pyval)) r, (∀ r, r ∈ found → ∃ o0, o0 ∈ offers
        ∧ value (available_view o0) = true ∧ r = shown o0) →
     r ∈ found →
     ∃ o0, o0 ∈ o :: offers ∧ value (available_view o0) = true ∧ r = shown o0).
  { intros found r Hf Hr. destruct (Hf r Hr) as (o' & ? & ? & ?).
    exists o'. split; [by right|done]. }
  destruct (value (available_view o)) eqn:Hav; simpl negb; cbv iota.
  2: { split; [done|]. intros found Hf r Hr. eapply Hold; [|done]. by apply IHf. }
  destruct (offer_matches lower isdigit float_str q ctx o) as [e|m] eqn:Hm;
    cbn [and_then].
  { split; [|done]. intros e' [= <-]. by eapply offer_matches_public. }
  rewrite (result_of_public _ _ Ho Hctx).
  destruct (search_list lower isdigit float_str q ctx offers) as [e|found'].
  { split; [|by destruct m]. destruct m; cbn; intros e' [= <-]; by apply IHe. }
  split; [by destruct m|].
  destruct m; cbn; intros found [= <-] r Hr.
  - apply elem_of_cons in Hr as [->|Hr].
    + exists o. split; [left|done].
    + eapply Hold; [|done]. by apply IHf.
  - eapply Hold; [|done]. by apply IHf.
Qed.

Lemma search_books_on_as_built q ctx db :
  as_built db →
  (ctx < SecurityLevel.PUBLIC →
     search_books lower isdigit float_str q ctx db
     = inl (Exn (SecurityException "Invalid security context for search")))
  ∧ (SecurityLevel.PUBLIC ≤ ctx →
     (∀ e, search_books lower isdigit float_str q ctx db = inl e →
           e = AttributeError "lower")
     ∧ (∀ found, search_books lower isdigit float_str q ctx db = inr found →
          ∀ r, r ∈ found →
            ∃ o, o ∈ value (book_offers db)
                 ∧ value (available_view o) = true ∧ r = shown o))
  ∧ (∀ msg, handle_search lower isdigit float_str q db ≠ inr (Failed msg)).
Proof.
  intros (_ & _ & _ & _ & Hall & _). unfold handle_search, search_books.
  split; [|split].
  - intros H. apply Z.ltb_lt in H. by rewrite H.
  - intros H. rewrite (proj2 (Z.ltb_ge _ _) H). by apply search_list_public.
  - intros msg. cbn.
    destruct (search_list_public q SecurityLevel.PUBLIC _ Hall) as [He _];
      [done|].
    destruct (search_list _ _ _ _ _ _) as [e|found]; [|done].
    by rewrite (He e eq_refl).
Qed.

(** X29: what a search on the labelled database shows. Below [PUBLIC]
    [search_books] raises. On a database as built and from [PUBLIC] on it
    raises no [SecurityException], only the [AttributeError] of [lower]
    on a text field that is not a string; every result is the dict of an
    offer of the database whose public view is [True], whatever its real
    status, and it carries the id of the vendor; [handle_search] never
    returns its error reply. *)
Theorem search_books_shows_what_is_in_view q ctx db :
  as_built db →
  (ctx < SecurityLevel.PUBLIC →
     search_books lower isdigit float_str q ctx db
     = inl (Exn (SecurityException "Invalid security context for search")))
  ∧ (SecurityLevel.PUBLIC ≤ ctx →
     (∀ e, search_books lower isdigit float_str q ctx db = inl e →
           e = AttributeError "lower")
     ∧ (∀ found, search_books lower isdigit float_str q ctx db = inr found →
          ∀ r, r ∈ found →
            ∃ o, o ∈ value (book_offers db)
                 ∧ value (available_view o) = true ∧ r = shown o))
  ∧ (∀ msg, handle_search lower isdigit float_str q db ≠ inr (Failed msg)).
Proof. apply search_books_on_as_built. Qed.
End BookMarketSearchLaws.

Lemma search_books_witness :
  (∀ e, BookMarketSearch.search_books ascii_lower ascii_isdigit
          test_float_str "logic" SecurityLevel.PUBLIC test_db = inl e →
        e = AttributeError "lower")
  ∧ (∀ found, BookMarketSearch.search_books ascii_lower ascii_isdigit
                test_float_str "logic" SecurityLevel.PUBLIC test_db
              = inr found →
       ∀ r, r ∈ found →
         ∃ o, o ∈ value (BookMarket.book_offers test_db)
              ∧ value (BookMarket.available_view o) = true
              ∧ r = BookMarket.shown o).
Proof.
  refine (proj1 (proj2 (search_books_shows_what_is_in_view ascii_lower
                          ascii_isdigit test_float_str "logic"
                          SecurityLevel.PUBLIC test_db _)) _).
  - apply after_as_built.
  - reflexivity.
Defined.

Section MarketplaceMarketingLaws.
Import Marketplace MarketplaceMarketing.
Implicit Types s : BookMarketplace.
Variable lower : string → string.

Lemma marketing_of_cons s k p ps :
  marketing_of lower s ((k, p) :: ps) =
  match customers (db s) !! purchase_customer_id p with
  | None => inl (Exn (KeyError (VInt (purchase_customer_id p))))
  | Some customer =>
      if opted_in customer then
        match book_offers (db s) !! purchase_offer_id p with
        | None => inl (Exn (KeyError (VInt (purchase_offer_id p))))
        | Some o =>
            and_then (marketing_entry lower customer o) (λ entry,
            and_then (marketing_of lower s ps) (λ data,
            inr (entry :: data)))
        end
      else marketing_of lower s ps
  end.
Proof. done. Qed.

Lemma marketing_of_entries s ps data :
  marketing_of lower s ps = inr data →
  ∀ r, r ∈ data ↔
    ∃ k p c o, (k, p) ∈ ps
      ∧ customers (db s) !! purchase_customer_id p = Some c
      ∧ opted_in c = true
      ∧ lookup_offer s (purchase_offer_id p) = Some o
      ∧ marketing_entry lower c o = inr r.
Proof.
  unfold lookup_offer. revert data.
  induction ps as [|[k p] ps IH]; intros data.
  { intros [= <-] r. split.
    - intros Hr. by apply elem_of_nil in Hr.
    - intros (k & p & c & o & Hp & _). by apply elem_of_nil in Hp. }
  rewrite marketing_of_cons.
  destruct (customers (db s) !! purchase_customer_id p) as [c|] eqn:Hc; [|done].
  destruct (opted_in c) eqn:Hopt.
  - destruct (book_offers (db s) !! purchase_offer_id p) as [o|] eqn:Ho;
      [|done].
    destruct (marketing_entry lower c o) as [e|entry] eqn:He;
      [done|]. cbn [and_then].
    destruct (marketing_of lower s ps) as [e|data'] eqn:Hps;
      [done|]. cbn [and_then].
    intros [= <-] r. rewrite elem_of_cons, (IH data' eq_refl r). split.
    + intros [->|(k' & p' & c' & o' & Hin & ?)].
      * exists k, p, c, o. split; [left|done].
      * exists k', p', c', o'. split; [by right|done].
    + intros (k' & p' & c' & o' & Hin & Hc' & Hopt' & Ho' & He').
      apply elem_of_cons in Hin as [[= -> ->]|Hin].
      * left. rewrite Hc in Hc'. injection Hc' as <-.
        rewrite Ho in Ho'. injection Ho' as <-. congruence.
      * right. by exists k', p', c', o'.
  - intros Hd r. rewrite (IH data Hd r). split.
    + intros (k' & p' & c' & o' & Hin & ?).
      exists k', p', c', o'. split; [by right|done].
    + intros (k' & p' & c' & o' & Hin & Hc' & Hopt' & Hrest).
      apply elem_of_cons in Hin as [[= -> ->]|Hin].
      * rewrite Hc in Hc'. injection Hc' as <-. congruence.
      * by exists k', p', c', o'.
Qed.

Lemma marketing_entry_fields c o r :
  marketing_entry lower c o = inr r →
  r !! "customer_name" = c !! "name"
  ∧ (∃ a, c !! "address" = Some (VStr a)
          ∧ r !! "customer_location"
            = Some (VStr (strip (last_field a))))
  ∧ r !! "book_title" = Some (title o)
  ∧ r !! "book_author" = Some (author o)
  ∧ dom r = {["customer_name"; "customer_location"; "book_title";
              "book_author"; "book_category"]}.
Proof.
  unfold marketing_entry, subscript.
  destruct (c !! "name") as [n|]; [|done]. cbn.
  destruct (c !! "address") as [[| | | |a]|]; try done. cbn.
  destruct (_infer_category lower o) as [e|cat]; [done|]. cbn.
  intros [= <-]. split; [done|]. split; [by exists a|].
  split; [done|]. split; [done|].
  rewrite !dom_insert_L, dom_singleton_L. set_solver.
Qed.

(** *** The place cut out of an address *)

Lemma last_field_no_comma a : has_comma (last_field a) = false.
Proof.
  induction a as [|c a IH]; [done|]. simpl.
  destruct (has_comma a) eqn:Ha; [done|].
  destruct (is_comma c) eqn:Hc; [done|]. simpl. by rewrite Hc, Ha.
Qed.

Lemma last_field_whole a : has_comma a = false → last_field a = a.
Proof.
  destruct a as [|c a]; [done|]. simpl.
  intros [Hc ->]%orb_false_iff. by rewrite Hc.
Qed.

Lemma append_nil (s : string) : "" +:+ s = s.
Proof. done. Qed.

Lemma append_cons c (s t : string) : String c s +:+ t = String c (s +:+ t).
Proof. done. Qed.

Lemma has_comma_app pre rest :
  has_comma (pre +:+ "," +:+ rest) = true.
Proof.
  induction pre as [|c pre IH]; [done|].
  rewrite append_cons. simpl. rewrite IH. apply orb_true_r.
Qed.

Lemma last_field_after_comma pre rest :
  has_comma rest = false → last_field (pre +:+ "," +:+ rest) = rest.
Proof.
  intros Hr. induction pre as [|c pre IH].
  - rewrite append_nil, append_cons, append_nil. simpl. by rewrite Hr.
  - rewrite append_cons. simpl. by rewrite has_comma_app.
Qed.

Lemma lstrip_spec x :
  ∃ l, x = l +:+ lstrip x ∧ all_space l = true
       ∧ starts_with_space (lstrip x) = false.
Proof.
  induction x as [|c x (l & Hx & Hl & Hs)].
  - by exists "".
  - simpl. destruct (is_space c) eqn:Hc.
    + exists (String c l). rewrite append_cons, <- Hx. simpl.
      by rewrite Hc, Hl.
    + exists "". rewrite append_nil. simpl. by rewrite Hc.
Qed.

Lemma rstrip_spec x :
  ∃ r, x = rstrip x +:+ r ∧ all_space r = true
       ∧ ends_with_space (rstrip x) = false
       ∧ (starts_with_space x = false → starts_with_space (rstrip x) = false).
Proof.
  induction x as [|c x (r & Hx & Hr & He & _)].
  - by exists "".
  - simpl. destruct (rstrip x) as [|c' x'] eqn:Hrx.
    + rewrite append_nil in Hx. subst r.
      destruct (is_space c) eqn:Hc.
      * exists (String c x). rewrite append_nil. simpl. by rewrite Hc, Hr.
      * exists x. rewrite append_cons, append_nil. simpl. by rewrite Hc.
    + exists r. rewrite append_cons, <- Hx. done.
Qed.

Lemma strip_spec x :
  ∃ l r, x = l +:+ strip x +:+ r
         ∧ all_space l = true ∧ all_space r = true
         ∧ starts_with_space (strip x) = false
         ∧ ends_with_space (strip x) = false.
Proof.
  destruct (lstrip_spec x) as (l & Hx & Hl & Hs).
  destruct (rstrip_spec (lstrip x)) as (r & Hy & Hr & He & Hs').
  exists l, r. unfold strip. rewrite <- Hy.
  repeat (split; [done|]). split; [by apply Hs'|done].
Qed.

(** X30: the marketing data is of the customers who opted in. When
    [get_marketing_data] returns, its entries are exactly those of the
    stored purchases whose customer is registered with a true
    [opt_in_marketing]: no entry comes from a customer without the flag
    or with a false one. An entry has five keys: the name of the
    customer, the title, the author and the category of the book, and as
    location what follows the last comma of the address, the white space
    at its two ends taken off; that is the whole address, so stripped,
    when the address has no comma. *)
Theorem marketing_data_is_of_customers_who_opted_in s :
  (∀ data, get_marketing_data lower s = inr data →
     ∀ r, r ∈ data ↔
       ∃ k p c o, purchases (db s) !! k = Some p
         ∧ customers (db s) !! purchase_customer_id p = Some c
         ∧ opted_in c = true
         ∧ lookup_offer s (purchase_offer_id p) = Some o
         ∧ marketing_entry lower c o = inr r)
  ∧ (∀ c o r, marketing_entry lower c o = inr r →
       r !! "customer_name" = c !! "name"
       ∧ (∃ a, c !! "address" = Some (VStr a)
               ∧ r !! "customer_location"
                 = Some (VStr (strip (last_field a))))
       ∧ r !! "book_title" = Some (title o)
       ∧ r !! "book_author" = Some (author o)
       ∧ dom r = {["customer_name"; "customer_location"; "book_title";
                   "book_author"; "book_category"]})
  ∧ (∀ a, has_comma (last_field a) = false
          ∧ (has_comma a = false → last_field a = a)
          ∧ (∀ pre rest, a = pre +:+ "," +:+ rest →
                         has_comma rest = false → last_field a = rest))
  ∧ (∀ x, ∃ l r, x = l +:+ strip x +:+ r
                 ∧ all_space l = true ∧ all_space r = true
                 ∧ starts_with_space (strip x) = false
                 ∧ ends_with_space (strip x) = false).
Proof.
  split; [|split; [apply marketing_entry_fields|split]].
  - intros data Hd r. unfold get_marketing_data in Hd.
    rewrite (marketing_of_entries s _ data Hd r).
    split; intros (k & p & c & o & Hp & Hrest); exists k, p, c, o;
      (split; [by apply elem_of_items_by_key|done]).
  - intros a. split; [apply last_field_no_comma|].
    split; [apply last_field_whole|].
    intros pre rest -> Hr. by apply last_field_after_comma.
  - apply strip_spec.
Qed.
End MarketplaceMarketingLaws.

(** The places of the two addresses of the test, and of one without a
    comma. *)
Example locations_of_addresses :
  MarketplaceMarketing.location "123 Main St, Copenhagen" = "Copenhagen"
  ∧ MarketplaceMarketing.location "456 Oak Ave, Copenhagen" = "Copenhagen"
  ∧ MarketplaceMarketing.location " Nowhere 1 " = "Nowhere 1".
Proof. vm_compute. done. Qed.
